(** * Autoscaler of vertex replicas: a shallow embedding of
      [pkg/reconciler/vertex/scaling/scaling.go] and its properties.

    The Go code is translated function by function.  Machine integers are
    [Z] with the wrap-around of every narrowing conversion and arithmetic
    operation written out, [float64] is Rocq's primitive binary64 float, the
    watch set is the map-plus-linked-list pair of the source, the two LRU
    caches are recency-ordered association lists, and the calls that leave
    the process (cluster client, daemon client, clock) are answered by an
    environment record and logged in a trace of events. *)

From Stdlib Require Import ZArith Lia Floats Ascii String.
From stdpp Require Import gmap strings list.

Local Open Scope Z_scope.

(** ** Machine numbers *)

Module Num.

(** Two's-complement wrap-around of a [w]-bit signed integer. *)
Definition wrap (w : Z) (z : Z) : Z :=
  (z + 2 ^ (w - 1)) mod 2 ^ w - 2 ^ (w - 1).

Definition int32 (z : Z) : Z := wrap 32 z.
Definition int64 (z : Z) : Z := wrap 64 z.

Definition is_int32 (z : Z) : Prop := - 2 ^ 31 <= z < 2 ^ 31.

Definition in_int32 (z : Z) : bool := (- 2 ^ 31 <=? z) && (z <? 2 ^ 31).
Definition in_int64 (z : Z) : bool := (- 2 ^ 63 <=? z) && (z <? 2 ^ 63).

(** [float64(z)] for an integer [z]: round to nearest, ties to even. *)
Definition float64 (z : Z) : float :=
  SF2Prim (binary_normalize prec emax z 0 false).

(** The integer part of a finite float, rounded toward zero; [None] for
    NaN and the infinities. *)
Definition truncate (x : float) : option Z :=
  match Prim2SF x with
  | S754_zero _ => Some 0
  | S754_finite s m e =>
      let a := if 0 <=? e then Z.pos m * 2 ^ e else Z.pos m / 2 ^ (- e) in
      Some (if s then - a else a)
  | _ => None
  end.

(** [math.Round]: nearest integer, halves away from zero; zeros, NaN and
    the infinities are returned as they are. *)
Definition Round (x : float) : float :=
  match Prim2SF x with
  | S754_finite s m e =>
      if 0 <=? e then x
      else
        let k := 2 ^ (- e) in
        let r := (2 * Z.pos m + k) / (2 * k) in
        if r =? 0 then (if s then PrimFloat.neg_zero else PrimFloat.zero)
        else if s then PrimFloat.opp (float64 r) else float64 r
  | _ => x
  end.

Section Conversions.
(** Go leaves the result of converting a float that the integer type
    cannot represent (NaN, infinities, out of range) to the
    implementation; [undef32] and [undef64] stand for that choice. *)
Variable undef32 : float -> Z.
Variable undef64 : float -> Z.

Definition int32_of_float (x : float) : Z :=
  match truncate x with
  | Some z => if in_int32 z then z else int32 (undef32 x)
  | None => int32 (undef32 x)
  end.

Definition int64_of_float (x : float) : Z :=
  match truncate x with
  | Some z => if in_int64 z then z else int64 (undef64 x)
  | None => int64 (undef64 x)
  end.
End Conversions.

End Num.

(** ** Data model *)

(** [strings.Split(key, "/")]. *)
Fixpoint Split (s : string) : list string :=
  match s with
  | EmptyString => [EmptyString]
  | String c rest =>
      if Ascii.eqb c "/"%char then EmptyString :: Split rest
      else match Split rest with
           | hd :: tl => String c hd :: tl
           | [] => [String c EmptyString]
           end
  end.

(** The phases are Go string types; only the two constants below are used. *)
Definition VertexPhaseRunning : string := "Running".
Definition PipelinePhaseRunning : string := "Running".

(** A [dfv1.Vertex] as the autoscaler reads it.  The accessor methods of the
    API package ([Scalable], [GetReplicas], the [Scale] getters with their
    defaults, ...) are not part of this development: each field named after
    an accessor holds the value that accessor returns, at its Go type. *)
Record Vertex := {
  Namespace : string;
  Name : string;                       (* the full name, "<pipeline>-<vertex>" *)
  DeletionTimestampIsZero : bool;      (* GetDeletionTimestamp().IsZero() *)
  SpecPipelineName : string;           (* Spec.PipelineName *)
  SpecName : string;                   (* Spec.Name *)
  SpecReplicas : option Z;             (* Spec.Replicas, *int32 *)
  StatusPhase : string;                (* Status.Phase *)
  StatusReplicas : Z;                  (* Status.Replicas, uint32 *)
  StatusLastScaledAt : Z;              (* Status.LastScaledAt *)
  Scalable : bool;
  IsASource : bool;
  OwnedBuffers : list string;
  GetReplicas : Z;                     (* int *)
  GetCooldownSeconds : Z;              (* int *)
  GetZeroReplicaSleepSeconds : Z;      (* int *)
  GetMaxReplicas : Z;                  (* int32 *)
  GetMinReplicas : Z;                  (* int32 *)
  GetReplicasPerScale : Z;             (* int *)
  GetTargetProcessingSeconds : Z;      (* int *)
  GetTargetBufferAvailability : Z      (* int *)
}.

Record Edge := { From : string; To : string }.

Record Pipeline := {
  PlNamespace : string;
  PlName : string;
  PlDeletionTimestampIsZero : bool;
  GetDesiredPhase : string;            (* Spec.Lifecycle.GetDesiredPhase() *)
  GetDaemonServiceURL : string;
  GetDownstreamEdges : string -> list Edge
}.

(** One partition's metrics as the daemon reports them. *)
Record VertexMetrics := {
  ProcessingRates : gmap string float;
  Pendings : gmap string Z              (* int64 *)
}.

(** [BufferLength] and [BufferUsageLimit] are optional in the wire format. *)
Record BufferInfo := {
  BufferLength : option Z;             (* *int64 *)
  BufferUsageLimit : option float      (* *float64 *)
}.

Record options := {
  workers : Z;
  taskInterval : Z;
  clientsCacheSize : Z;
  backPressureThreshold : float
}.

(** ** The LRU cache ([hashicorp/golang-lru])

    Entries are kept most recently used first.  [Add] on a present key
    overwrites and refreshes it; on a new key it may push the oldest entry
    out, which is returned for the eviction callback.  [Get] refreshes the
    entry it finds. *)
Module lru.

Record Cache (V : Type) := { size : nat; items : list (string * V) }.
Arguments size {V} _.
Arguments items {V} _.

Definition New {V : Type} (n : nat) : Cache V := {| size := n; items := [] |}.

Fixpoint find {V : Type} (k : string) (l : list (string * V)) : option V :=
  match l with
  | [] => None
  | (k', v) :: rest => if String.eqb k k' then Some v else find k rest
  end.

Fixpoint remove {V : Type} (k : string) (l : list (string * V)) : list (string * V) :=
  match l with
  | [] => []
  | (k', v) :: rest => if String.eqb k k' then remove k rest else (k', v) :: remove k rest
  end.

(** Reading without refreshing (the content of the cache). *)
Definition Peek {V : Type} (k : string) (c : Cache V) : option V := find k (items c).

Definition Get {V : Type} (k : string) (c : Cache V) : option V * Cache V :=
  match find k (items c) with
  | Some v => (Some v, {| size := size c; items := (k, v) :: remove k (items c) |})
  | None => (None, c)
  end.

(** Returns the cache and the entry evicted, if any. *)
Definition Add {V : Type} (k : string) (v : V) (c : Cache V) : Cache V * option (string * V) :=
  match find k (items c) with
  | Some _ => ({| size := size c; items := (k, v) :: remove k (items c) |}, None)
  | None =>
      let l := (k, v) :: items c in
      if (size c <? length l)%nat
      then ({| size := size c; items := removelast l |}, last l)
      else ({| size := size c; items := l |}, None)
  end.

End lru.

(** A daemon client is identified by the URL it was dialled with. *)
Definition DaemonClient := string.

(** ** The scaler and its watch set

    [vertexMap] maps a key to its element of [vertexList]; an element is a
    heap cell, modelled by a numeric address, [nextElem] being the next
    address [PushBack] allocates.  The daemon client cache is [None] when
    its constructor failed (a non-positive [clientsCacheSize]): [NewScaler]
    drops that error and keeps the nil pointer. *)
Record Scaler := {
  vertexMap : gmap string nat;
  vertexList : list (nat * string);
  nextElem : nat;
  opts : options;
  vertexMetricsCache : lru.Cache Z;
  daemonClientsCache : option (lru.Cache DaemonClient)
}.

Definition NewScaler (o : options) : Scaler :=
  {| vertexMap := ∅;
     vertexList := [];
     nextElem := 0;
     opts := o;
     vertexMetricsCache := lru.New (Z.to_nat 10000);
     daemonClientsCache :=
       if 0 <? clientsCacheSize o then Some (lru.New (Z.to_nat (clientsCacheSize o))) else None |}.

Definition Contains (key : string) (s : Scaler) : bool :=
  match vertexMap s !! key with Some _ => true | None => false end.

Definition Length (s : Scaler) : Z := Z.of_nat (length (vertexList s)).

(** The keys in list order, front first. *)
Definition watchKeys (s : Scaler) : list string := (vertexList s).*2.

Definition StartWatching (key : string) (s : Scaler) : Scaler :=
  match vertexMap s !! key with
  | Some _ => s
  | None =>
      {| vertexMap := <[key := nextElem s]> (vertexMap s);
         vertexList := vertexList s ++ [(nextElem s, key)];
         nextElem := S (nextElem s);
         opts := opts s;
         vertexMetricsCache := vertexMetricsCache s;
         daemonClientsCache := daemonClientsCache s |}
  end.

Definition StopWatching (key : string) (s : Scaler) : Scaler :=
  match vertexMap s !! key with
  | Some e =>
      {| vertexMap := delete key (vertexMap s);
         vertexList := filter (λ x, x.1 ≠ e) (vertexList s);
         nextElem := nextElem s;
         opts := opts s;
         vertexMetricsCache := vertexMetricsCache s;
         daemonClientsCache := daemonClientsCache s |}
  | None => s
  end.

(** ** The world outside the scaler

    Every call that leaves the process is logged as an [Event] and answered
    by the environment. *)
Inductive Event :=
| ClientGetVertex (namespace name : string)
| ClientGetPipeline (namespace name : string)
| ClientPatch (namespace name : string) (replicas : Z)
| NewDaemonServiceClient (url : string)
| DaemonClose (c : DaemonClient)
| DaemonGetVertexMetrics (c : DaemonClient) (pipeline vertex : string)
| DaemonGetPipelineBuffer (c : DaemonClient) (pipeline buffer : string).

Inductive GetResult (A : Type) :=
| GetOk (a : A)
| GetNotFound
| GetFailed.
Arguments GetOk {A} a.
Arguments GetNotFound {A}.
Arguments GetFailed {A}.

Inductive PatchResult := PatchOk | PatchNotFound | PatchFailed.

(** [sinceCooldown v] and [sinceZeroReplica v] are the two readings of
    [time.Since(v.Status.LastScaledAt.Time).Seconds()], the first at the
    cooldown test and the second at the zero-replica test. *)
Record Env := {
  clientGet_vertex : string -> string -> GetResult Vertex;
  clientGet_pipeline : string -> string -> GetResult Pipeline;
  clientPatch : Vertex -> PatchResult;
  sinceCooldown : Vertex -> float;
  sinceZeroReplica : Vertex -> float;
  daemonNewClient : string -> option DaemonClient;
  daemonGetVertexMetrics : DaemonClient -> string -> string -> option (list VertexMetrics);
  daemonGetPipelineBuffer : DaemonClient -> string -> string -> option BufferInfo
}.

(** The errors [scaleOneVertex] wraps and returns. *)
Inductive ScaleError :=
| ErrInvalidKey
| ErrQueryVertex
| ErrQueryPipeline
| ErrDaemonClient
| ErrVertexMetrics
| ErrReadBuffer
| ErrInvalidBuffer
| ErrPatch.

(** What one call returns: [nil], an error, or a run-time panic. *)
Inductive Outcome :=
| ReturnNil
| ReturnErr (e : ScaleError)
| Panic.

(** ** The evaluation monad: scaler state, event log, early return *)

Record World := { scaler : Scaler; events : list Event }.

Inductive Step (A : Type) :=
| Next (a : A)
| Return (o : Outcome).
Arguments Next {A} a.
Arguments Return {A} o.

Definition Eval (A : Type) : Type := World -> Step A * World.

#[global] Instance Eval_ret : MRet Eval := λ A a w, (Next a, w).
#[global] Instance Eval_bind : MBind Eval := λ A B f m w,
  match m w with
  | (Next a, w') => f a w'
  | (Return o, w') => (Return o, w')
  end.

Definition ret {A : Type} (o : Outcome) : Eval A := λ w, (Return o, w).

Definition emit (e : Event) : Eval unit :=
  λ w, (Next tt, {| scaler := scaler w; events := events w ++ [e] |}).

Definition getScaler : Eval Scaler := λ w, (Next (scaler w), w).

Definition update (f : Scaler -> Scaler) : Eval unit :=
  λ w, (Next tt, {| scaler := f (scaler w); events := events w |}).

Definition setVertexMetricsCache (c : lru.Cache Z) (s : Scaler) : Scaler :=
  {| vertexMap := vertexMap s; vertexList := vertexList s; nextElem := nextElem s;
     opts := opts s; vertexMetricsCache := c; daemonClientsCache := daemonClientsCache s |}.

Definition setDaemonClientsCache (c : lru.Cache DaemonClient) (s : Scaler) : Scaler :=
  {| vertexMap := vertexMap s; vertexList := vertexList s; nextElem := nextElem s;
     opts := opts s; vertexMetricsCache := vertexMetricsCache s; daemonClientsCache := Some c |}.

(** [s.vertexMetricsCache.Add(k, v)]; nothing is done on eviction. *)
Definition metricsCacheAdd (k : string) (v : Z) : Eval unit :=
  update (λ s, setVertexMetricsCache (lru.Add k v (vertexMetricsCache s)).1 s).

(** The pieces the metrics part of [scaleOneVertex] hands to its decision
    part. *)
Record Collected := {
  partitionRates : list float;
  partitionPending : list Z;
  totalRate : float;
  totalPending : Z;
  partitionBufferLengths : list Z;
  partitionAvailableBufferLengths : list Z
}.

(** ** The scaling functions of [scaling.go] *)

Section Scaling.

(** [isb.PendingNotAvailable], a constant of another package. *)
Variable PendingNotAvailable : Z.
(** The implementation's answer for float-to-integer conversions that Go
    leaves open. *)
Variables undef32 undef64 : float -> Z.
Variable env : Env.

Abbreviation int32 := Num.int32.
Abbreviation int64 := Num.int64.
Abbreviation float64 := Num.float64.
Abbreviation int32_of_float := (Num.int32_of_float undef32).
Abbreviation int64_of_float := (Num.int64_of_float undef64).

(** *** [desiredReplicas] (lines 338-381)

    The loop runs over [partitionPending] with the index [i] into the
    other slices; an index out of range is Go's run-time panic, [None]
    here. *)
Fixpoint desiredReplicasFrom (vertex : Vertex) (partitionProcessingRate : list float)
    (partitionBufferLengths partitionAvailableBufferLengths : list Z)
    (i : nat) (pendings : list Z) (maxDesired : Z) : option Z :=
  match pendings with
  | [] => Some maxDesired
  | pending :: rest =>
      rate ← partitionProcessingRate !! i;
      if (pending =? 0) || PrimFloat.eqb rate PrimFloat.zero then
        desiredReplicasFrom vertex partitionProcessingRate
          partitionBufferLengths partitionAvailableBufferLengths (S i) rest maxDesired
      else
        desired ←
          (if IsASource vertex then
             Some (int32_of_float (Num.Round
               (PrimFloat.mul
                  (PrimFloat.div (PrimFloat.div (float64 pending) rate)
                     (float64 (GetTargetProcessingSeconds vertex)))
                  (float64 (StatusReplicas vertex)))))
           else
             bufferLength ← partitionBufferLengths !! i;
             if bufferLength <=? pending then
               Some (int32 (int32 (StatusReplicas vertex) + int32 (GetReplicasPerScale vertex)))
             else
               available ← partitionAvailableBufferLengths !! i;
               let singleReplicaContribution :=
                 PrimFloat.div (float64 (int64 (bufferLength - pending)))
                   (float64 (StatusReplicas vertex)) in
               Some (int32_of_float (Num.Round
                 (PrimFloat.div (float64 available) singleReplicaContribution))));
        let desired := if desired =? 0 then 1 else desired in
        let desired := if desired >? int32 pending then int32 pending else desired in
        let maxDesired := if desired >? maxDesired then desired else maxDesired in
        desiredReplicasFrom vertex partitionProcessingRate
          partitionBufferLengths partitionAvailableBufferLengths (S i) rest maxDesired
  end.

Definition desiredReplicas (vertex : Vertex) (partitionProcessingRate : list float)
    (partitionPending partitionBufferLengths partitionAvailableBufferLengths : list Z)
    : option Z :=
  desiredReplicasFrom vertex partitionProcessingRate
    partitionBufferLengths partitionAvailableBufferLengths 0 partitionPending 1.

(** *** [hasBackPressure] (lines 443-468) *)

(** The key under which the destination of edge [e] caches its metrics. *)
Definition downstreamKey (pl : Pipeline) (e : Edge) : string :=
  PlNamespace pl +:+ "/" +:+ PlName pl +:+ "-" +:+ To e.

(** The loop over the downstream edges; the cache is threaded through
    because every [Get] refreshes the entry it reads. *)
Fixpoint backPressureLoop (threshold : float) (pl : Pipeline) (vertex : Vertex)
    (edges : list Edge) (cache : lru.Cache Z) (directPressure downstreamPressure : bool)
    : bool * bool * lru.Cache Z :=
  match edges with
  | [] => (directPressure, downstreamPressure, cache)
  | e :: rest =>
      let vertexKey := downstreamKey pl e in
      let '(pendingVal, cache) := lru.Get (vertexKey +:+ "/pending") cache in
      match pendingVal with
      | None => backPressureLoop threshold pl vertex rest cache directPressure downstreamPressure
      | Some pending =>
          let '(bufferLengthVal, cache) := lru.Get (vertexKey +:+ "/length") cache in
          match bufferLengthVal with
          | None => backPressureLoop threshold pl vertex rest cache directPressure downstreamPressure
          | Some length =>
              if PrimFloat.leb threshold (PrimFloat.div (float64 pending) (float64 length)) then
                if String.eqb (From e) (SpecName vertex) then (true, true, cache)
                else backPressureLoop threshold pl vertex rest cache directPressure true
              else backPressureLoop threshold pl vertex rest cache directPressure downstreamPressure
          end
      end
  end.

Definition hasBackPressure (pl : Pipeline) (vertex : Vertex) : Eval (bool * bool) :=
  s ← getScaler;
  let downstreamEdges := GetDownstreamEdges pl (SpecName vertex) in
  let '(directPressure, downstreamPressure, cache) :=
    backPressureLoop (backPressureThreshold (opts s)) pl vertex downstreamEdges
      (vertexMetricsCache s) false false in
  update (setVertexMetricsCache cache);;
  mret (directPressure, downstreamPressure).

(** *** [patchVertexReplicas] (lines 470-483)

    The vertex is plain data, so [json.Marshal] has no failing case; a
    not-found answer to the patch is tolerated. *)
Definition setSpecReplicas (vertex : Vertex) (r : Z) : Vertex :=
  {| Namespace := Namespace vertex; Name := Name vertex;
     DeletionTimestampIsZero := DeletionTimestampIsZero vertex;
     SpecPipelineName := SpecPipelineName vertex; SpecName := SpecName vertex;
     SpecReplicas := Some r;
     StatusPhase := StatusPhase vertex; StatusReplicas := StatusReplicas vertex;
     StatusLastScaledAt := StatusLastScaledAt vertex;
     Scalable := Scalable vertex; IsASource := IsASource vertex;
     OwnedBuffers := OwnedBuffers vertex; GetReplicas := GetReplicas vertex;
     GetCooldownSeconds := GetCooldownSeconds vertex;
     GetZeroReplicaSleepSeconds := GetZeroReplicaSleepSeconds vertex;
     GetMaxReplicas := GetMaxReplicas vertex; GetMinReplicas := GetMinReplicas vertex;
     GetReplicasPerScale := GetReplicasPerScale vertex;
     GetTargetProcessingSeconds := GetTargetProcessingSeconds vertex;
     GetTargetBufferAvailability := GetTargetBufferAvailability vertex |}.

Definition patchVertexReplicas (vertex : Vertex) (desiredReplicas : Z) : Eval Outcome :=
  let vertex := setSpecReplicas vertex desiredReplicas in
  emit (ClientPatch (Namespace vertex) (Name vertex) desiredReplicas);;
  match clientPatch env vertex with
  | PatchFailed => mret (ReturnErr ErrPatch)
  | PatchOk | PatchNotFound => mret ReturnNil
  end.

(** *** [scaleOneVertex], lines 147-202: the preconditions *)
Definition stopWatching (key : string) : Eval unit := update (StopWatching key).

Definition preconditions (key : string) : Eval (Vertex * Pipeline) :=
  match Split key with
  | [namespace; vertexFullName] =>
      emit (ClientGetVertex namespace vertexFullName);;
      match clientGet_vertex env namespace vertexFullName with
      | GetNotFound => stopWatching key;; ret ReturnNil
      | GetFailed => ret (ReturnErr ErrQueryVertex)
      | GetOk vertex =>
          if negb (DeletionTimestampIsZero vertex) then stopWatching key;; ret ReturnNil
          else if negb (Scalable vertex) then stopWatching key;; ret ReturnNil
          else if PrimFloat.ltb (sinceCooldown env vertex) (float64 (GetCooldownSeconds vertex))
          then ret ReturnNil
          else if negb (String.eqb (StatusPhase vertex) VertexPhaseRunning) then ret ReturnNil
          else
            emit (ClientGetPipeline namespace (SpecPipelineName vertex));;
            match clientGet_pipeline env namespace (SpecPipelineName vertex) with
            | GetNotFound => stopWatching key;; ret ReturnNil
            | GetFailed => ret (ReturnErr ErrQueryPipeline)
            | GetOk pl =>
                if negb (PlDeletionTimestampIsZero pl) then stopWatching key;; ret ReturnNil
                else if negb (String.eqb (GetDesiredPhase pl) PipelinePhaseRunning)
                then ret ReturnNil
                else if negb (StatusReplicas vertex =? GetReplicas vertex) then ret ReturnNil
                else mret (vertex, pl)
            end
      end
  | _ => ret (ReturnErr ErrInvalidKey)
  end.

(** *** Lines 203-211: a vertex that was scaled to zero *)
Definition zeroReplicaPeek (vertex : Vertex) : Eval unit :=
  if StatusReplicas vertex =? 0 then
    if PrimFloat.leb (float64 (GetZeroReplicaSleepSeconds vertex)) (sinceZeroReplica env vertex)
    then o ← patchVertexReplicas vertex 1; ret o
    else ret ReturnNil
  else mret tt.

(** *** Lines 212-282: daemon client, metrics, buffers *)
Definition daemonClientOf (pl : Pipeline) : Eval DaemonClient :=
  s ← getScaler;
  match daemonClientsCache s with
  | None => ret Panic
  | Some cache =>
      let url := GetDaemonServiceURL pl in
      let '(dClient, cache) := lru.Get url cache in
      update (setDaemonClientsCache cache);;
      match dClient with
      | Some c => mret c
      | None =>
          emit (NewDaemonServiceClient url);;
          match daemonNewClient env url with
          | None => ret (ReturnErr ErrDaemonClient)
          | Some c =>
              let '(cache, evicted) := lru.Add url c cache in
              update (setDaemonClientsCache cache);;
              match evicted with
              | Some (_, old) => emit (DaemonClose old)
              | None => mret tt
              end;;
              mret c
          end
      end
  end.

(** The loop over the partitions' metrics; [None] when a rate or a
    pending count is missing, which skips the scaling. *)
Fixpoint aggregate (vMetrics : list VertexMetrics)
    (partitionRates : list float) (partitionPending : list Z)
    (totalRate : float) (totalPending : Z)
    : option (list float * list Z * float * Z) :=
  match vMetrics with
  | [] => Some (partitionRates, partitionPending, totalRate, totalPending)
  | m :: rest =>
      match ProcessingRates m !! "default"%string with
      | None => None
      | Some rate =>
          if PrimFloat.ltb rate PrimFloat.zero then None
          else
            match Pendings m !! "default"%string with
            | None => None
            | Some pending =>
                if (pending <? 0) || (pending =? PendingNotAvailable) then None
                else aggregate rest (partitionRates ++ [rate]) (partitionPending ++ [pending])
                       (PrimFloat.add totalRate rate) (int64 (totalPending + pending))
            end
      end
  end.

(** The loop over the owned buffers. *)
Fixpoint readBuffers (dc : DaemonClient) (pl : Pipeline) (vertex : Vertex)
    (bufferNames : list string)
    (partitionBufferLengths partitionAvailableBufferLengths : list Z)
    (totalBufferLength targetAvailableBufferLength : Z)
    : Eval (list Z * list Z * Z * Z) :=
  match bufferNames with
  | [] => mret (partitionBufferLengths, partitionAvailableBufferLengths,
                totalBufferLength, targetAvailableBufferLength)
  | bufferName :: rest =>
      emit (DaemonGetPipelineBuffer dc (PlName pl) bufferName);;
      match daemonGetPipelineBuffer env dc (PlName pl) bufferName with
      | None => ret (ReturnErr ErrReadBuffer)
      | Some bInfo =>
          match BufferLength bInfo, BufferUsageLimit bInfo with
          | Some bufferLength, Some usageLimit =>
              let effective := int64_of_float (PrimFloat.mul (float64 bufferLength) usageLimit) in
              let target :=
                int64_of_float
                  (PrimFloat.div
                     (PrimFloat.mul (float64 bufferLength)
                        (float64 (GetTargetBufferAvailability vertex)))
                     (float64 100)) in
              readBuffers dc pl vertex rest
                (partitionBufferLengths ++ [effective])
                (partitionAvailableBufferLengths ++ [target])
                (int64 (totalBufferLength + effective))
                (int64 (targetAvailableBufferLength + target))
          | _, _ => ret (ReturnErr ErrInvalidBuffer)
          end
      end
  end.

Definition collect (key : string) (vertex : Vertex) (pl : Pipeline) : Eval Collected :=
  dc ← daemonClientOf pl;
  emit (DaemonGetVertexMetrics dc (PlName pl) (SpecName vertex));;
  match daemonGetVertexMetrics env dc (PlName pl) (SpecName vertex) with
  | None => ret (ReturnErr ErrVertexMetrics)
  | Some vMetrics =>
      match aggregate vMetrics [] [] PrimFloat.zero 0 with
      | None => ret ReturnNil
      | Some (partitionRates, partitionPending, totalRate, totalPending) =>
          metricsCacheAdd (key +:+ "/pending") totalPending;;
          '(partitionBufferLengths, partitionAvailableBufferLengths, totalBufferLength, _) ←
            (if negb (IsASource vertex) then
               r ← readBuffers dc pl vertex (OwnedBuffers vertex) [] [] 0 0;
               metricsCacheAdd (key +:+ "/length") r.1.2;;
               mret r
             else mret ([], [], 0, 0));
          mret {| partitionRates := partitionRates;
                  partitionPending := partitionPending;
                  totalRate := totalRate;
                  totalPending := totalPending;
                  partitionBufferLengths := partitionBufferLengths;
                  partitionAvailableBufferLengths := partitionAvailableBufferLengths |}
      end
  end.

(** *** Lines 283-335: the decision *)

(** Lines 283-291. *)
Definition unclampedDesired (vertex : Vertex) (m : Collected) : option Z :=
  if (totalPending m =? 0) && PrimFloat.eqb (totalRate m) PrimFloat.zero then Some 0
  else desiredReplicas vertex (partitionRates m) (partitionPending m)
         (partitionBufferLengths m) (partitionAvailableBufferLengths m).

(** Lines 293-302. *)
Definition clampDesired (vertex : Vertex) (desired : Z) : Z :=
  let max := GetMaxReplicas vertex in
  let min := GetMinReplicas vertex in
  let desired := if desired >? max then max else desired in
  if desired <? min then min else desired.

Definition scaleDecision (key : string) (vertex : Vertex) (pl : Pipeline) (m : Collected)
    : Eval Outcome :=
  let current := int32 (GetReplicas vertex) in
  match unclampedDesired vertex m with
  | None => ret Panic
  | Some desired =>
      let max := GetMaxReplicas vertex in
      let min := GetMinReplicas vertex in
      let desired := clampDesired vertex desired in
      if (current >? max) || (current <? min) then patchVertexReplicas vertex desired
      else
        let maxAllowed := int32 (GetReplicasPerScale vertex) in
        if desired <? current then
          let diff := int32 (current - desired) in
          let diff := if diff >? maxAllowed then maxAllowed else diff in
          patchVertexReplicas vertex (int32 (current - diff))
        else if desired >? current then
          '(directPressure, downstreamPressure) ← hasBackPressure pl vertex;
          if (directPressure : bool) then
            if current >? 1 then patchVertexReplicas vertex (int32 (current - 1))
            else mret ReturnNil
          else if (downstreamPressure : bool) then mret ReturnNil
          else
            let diff := int32 (desired - current) in
            let diff := if diff >? maxAllowed then maxAllowed else diff in
            patchVertexReplicas vertex (int32 (current + diff))
        else mret ReturnNil
  end.

(** *** [scaleOneVertex] (lines 146-336) *)

(** Everything before the decision. *)
Definition upToDecision (key : string) : Eval (Vertex * Pipeline * Collected) :=
  '(vertex, pl) ← preconditions key;
  zeroReplicaPeek vertex;;
  m ← collect key vertex pl;
  mret (vertex, pl, m).

Definition scaleOneVertexBody (key : string) : Eval Outcome :=
  '(vertex, pl, m) ← upToDecision key;
  scaleDecision key vertex pl m.

Definition start (s : Scaler) : World := {| scaler := s; events := [] |}.

Definition scaleOneVertex (key : string) (s : Scaler) : Outcome * Scaler * list Event :=
  match scaleOneVertexBody key (start s) with
  | (Next o, w) | (Return o, w) => (o, scaler w, events w)
  end.

End Scaling.

(** The replica counts patched in a trace, and its calls to the daemon. *)
Definition patches (t : list Event) : list Z :=
  omap (fun e : Event => match e with ClientPatch _ _ r => Some r | _ => None end) t.

Definition isDaemonCall (e : Event) : bool :=
  match e with
  | NewDaemonServiceClient _ | DaemonClose _
  | DaemonGetVertexMetrics _ _ _ | DaemonGetPipelineBuffer _ _ _ => true
  | _ => false
  end.

Definition daemonCalls (t : list Event) : list Event := List.filter isDaemonCall t.

(** Modelled from the spec: the defaults of the constructor options (the
    file that declares them is absent): 20 workers, a task interval of
    30000 ms, 100 cached clients, a back-pressure threshold of 0.9. *)
Definition defaultOptions : options :=
  {| workers := 20; taskInterval := 30000; clientsCacheSize := 100;
     backPressureThreshold := PrimFloat.div (Num.float64 9) (Num.float64 10) |}.

(** ** The scaling formula as the specification words it

    Per partition: skip it when its pending count or its rate is zero;
    otherwise take the candidate of the source or buffer formula, replace 0
    by 1, and clamp it to at most the partition's pending count; the result
    is the maximum of the candidates, starting from 1.  The arithmetic of
    the candidate is that of [desiredReplicas]; the clamp compares with the
    pending count itself, a 64-bit number. *)
Fixpoint desiredReplicasSpecFrom (undef32 : float -> Z) (vertex : Vertex)
    (rates : list float) (bufLens bufAvail : list Z)
    (i : nat) (pendings : list Z) (maxDesired : Z) : option Z :=
  match pendings with
  | [] => Some maxDesired
  | pending :: rest =>
      rate ← rates !! i;
      if (pending =? 0) || PrimFloat.eqb rate PrimFloat.zero then
        desiredReplicasSpecFrom undef32 vertex rates bufLens bufAvail (S i) rest maxDesired
      else
        d ←
          (if IsASource vertex then
             Some (Num.int32_of_float undef32 (Num.Round
               (PrimFloat.mul
                  (PrimFloat.div (PrimFloat.div (Num.float64 pending) rate)
                     (Num.float64 (GetTargetProcessingSeconds vertex)))
                  (Num.float64 (StatusReplicas vertex)))))
           else
             bufLen ← bufLens !! i;
             if bufLen <=? pending then
               Some (Num.int32 (Num.int32 (StatusReplicas vertex)
                                + Num.int32 (GetReplicasPerScale vertex)))
             else
               avail ← bufAvail !! i;
               let contribution :=
                 PrimFloat.div (Num.float64 (Num.int64 (bufLen - pending)))
                   (Num.float64 (StatusReplicas vertex)) in
               Some (Num.int32_of_float undef32 (Num.Round
                 (PrimFloat.div (Num.float64 avail) contribution))));
        let d := if d =? 0 then 1 else d in
        let d := Z.min d pending in
        desiredReplicasSpecFrom undef32 vertex rates bufLens bufAvail (S i) rest
          (Z.max maxDesired d)
  end.

Definition desiredReplicasSpec (undef32 : float -> Z) (vertex : Vertex)
    (rates : list float) (pendings bufLens bufAvail : list Z) : option Z :=
  desiredReplicasSpecFrom undef32 vertex rates bufLens bufAvail 0 pendings 1.

(** * The vocabulary of the properties *)

(** ** Watch-set histories *)

Inductive WatchOp :=
| StartOp (key : string)
| StopOp (key : string).

Definition applyOp (s : Scaler) (op : WatchOp) : Scaler :=
  match op with
  | StartOp key => StartWatching key s
  | StopOp key => StopWatching key s
  end.

Definition runOps (ops : list WatchOp) (s : Scaler) : Scaler := foldl applyOp s ops.

(** The map and the list describe each other: the map sends a key to the
    address of its list element, no address occurs twice, and every address
    in use lies below the next one to be allocated. *)
Record WatchSetInv (s : Scaler) : Prop := {
  inv_nodup : NoDup (vertexList s).*1;
  inv_map : ∀ k e, vertexMap s !! k = Some e ↔ (e, k) ∈ vertexList s;
  inv_fresh : ∀ e k, (e, k) ∈ vertexList s → (e < nextElem s)%nat
}.

(** ** Event logs and decisions *)

Definition isClientGet (e : Event) : bool :=
  match e with
  | ClientGetVertex _ _ | ClientGetPipeline _ _ => true
  | _ => false
  end.

Definition isPatch (e : Event) : bool :=
  match e with
  | ClientPatch _ _ _ => true
  | _ => false
  end.

(** [only P m]: whatever [m] does, it appends events to the log, all of
    them satisfying [P]. *)
Definition only (P : Event → bool) {A : Type} (m : Eval A) : Prop :=
  ∀ w r w', m w = (r, w') → ∃ t, events w' = events w ++ t ∧ forallb P t = true.

(** The patches of lines 293-335, as a list: what [scaleDecision] sends to
    the cluster for the clamped [desired] and the two pressure flags. *)
Definition decisionPatches (vertex : Vertex) (desired : Z)
    (directPressure downstreamPressure : bool) : list Z :=
  let current := Num.int32 (GetReplicas vertex) in
  let maxAllowed := Num.int32 (GetReplicasPerScale vertex) in
  if (current >? GetMaxReplicas vertex) || (current <? GetMinReplicas vertex) then [desired]
  else if desired <? current then
    let diff := Num.int32 (current - desired) in
    [Num.int32 (current - (if diff >? maxAllowed then maxAllowed else diff))]
  else if desired >? current then
    if directPressure then (if current >? 1 then [Num.int32 (current - 1)] else [])
    else if downstreamPressure then []
    else
      let diff := Num.int32 (desired - current) in
      [Num.int32 (current + (if diff >? maxAllowed then maxAllowed else diff))]
  else [].

(** The two flags [hasBackPressure] computes in world [w]. *)
Definition pressureIn (pl : Pipeline) (vertex : Vertex) (w : World) : bool * bool :=
  (backPressureLoop (backPressureThreshold (opts (scaler w))) pl vertex
     (GetDownstreamEdges pl (SpecName vertex)) (vertexMetricsCache (scaler w)) false false).1.

(** ** The claims that do not hold as they are written *)

Section Claims.

Variable PendingNotAvailable : Z.
Variables undef32 undef64 : float → Z.
Variable env : Env.

Abbreviation trace key s :=
  (scaleOneVertex PendingNotAvailable undef32 undef64 env key s).2.

(** C2 as it is written: once the metrics are in with no pending message
    and no rate, and the vertex runs replicas, the evaluation patches 0. *)
Definition zero_scale_claim (key : string) (s : Scaler) : Prop :=
  ∀ vertex pl m w,
    upToDecision PendingNotAvailable undef64 env key (start s) = (Next (vertex, pl, m), w) →
    totalPending m = 0 →
    PrimFloat.eqb (totalRate m) PrimFloat.zero = true →
    0 < Num.int32 (GetReplicas vertex) →
    patches (trace key s) = [0].

(** C3 as it is written: desired above current and a direct downstream edge
    cached at or above the threshold give the patch current - 1, or none
    when current is 1. *)
Definition direct_pressure_claim (key : string) (s : Scaler) : Prop :=
  ∀ vertex pl m w desired e pending length,
    upToDecision PendingNotAvailable undef64 env key (start s) = (Next (vertex, pl, m), w) →
    unclampedDesired undef32 vertex m = Some desired →
    let current := Num.int32 (GetReplicas vertex) in
    clampDesired vertex desired > current →
    e ∈ GetDownstreamEdges pl (SpecName vertex) →
    From e = SpecName vertex →
    lru.Peek (downstreamKey pl e +:+ "/pending") (vertexMetricsCache (scaler w)) = Some pending →
    lru.Peek (downstreamKey pl e +:+ "/length") (vertexMetricsCache (scaler w)) = Some length →
    PrimFloat.leb (backPressureThreshold (opts (scaler w)))
      (PrimFloat.div (Num.float64 pending) (Num.float64 length)) = true →
    (1 < current → patches (trace key s) = [current - 1]) ∧
    (current = 1 → patches (trace key s) = []).

(** C5 as it is written: with the current count inside [min, max], every
    patched value is within [replicasPerScale] of it. *)
Definition step_law_claim (key : string) (s : Scaler) : Prop :=
  ∀ namespace name vertex,
    Split key = [namespace; name] →
    clientGet_vertex env namespace name = GetOk vertex →
    let current := Num.int32 (GetReplicas vertex) in
    GetMinReplicas vertex <= current <= GetMaxReplicas vertex →
    ∀ r, r ∈ patches (trace key s) → Z.abs (r - current) <= GetReplicasPerScale vertex.

End Claims.

(** * The rest of the scaler *)

(** [KeyOfVertex] (lines 485-488): ["%s/%s"] of namespace and name. *)
Definition KeyOfVertex (vertex : Vertex) : string :=
  Namespace vertex +:+ "/" +:+ Name vertex.

(** ** The dispatcher of [Start] (lines 397-436)

    The dispatcher is modelled on its own: what the workers do to the watch
    set while it runs is not part of these definitions. *)

(** [assign]: with a non-empty list, the front element is moved to the back
    and its key is sent to the workers. *)
Definition assign (s : Scaler) : option string * Scaler :=
  match vertexList s with
  | [] => (None, s)
  | (e, key) :: rest =>
      (Some key,
       {| vertexMap := vertexMap s;
          vertexList := rest ++ [(e, key)];
          nextElem := nextElem s;
          opts := opts s;
          vertexMetricsCache := vertexMetricsCache s;
          daemonClientsCache := daemonClientsCache s |})
  end.


(** [n] turns of the loop: the keys sent, in order, and the scaler left. *)
Fixpoint dispatch (n : nat) (s : Scaler) : list string * Scaler :=
  match n with
  | O => ([], s)
  | S n' =>
      let '(key, s1) := assign s in
      let '(keys, s2) := dispatch n' s1 in
      (match key with Some k => k :: keys | None => keys end, s2)
  end.

(** ** More vocabulary *)

(** No ["/"] occurs in the string. *)
Fixpoint noSlash (s : string) : bool :=
  match s with
  | EmptyString => true
  | String c rest => negb (Ascii.eqb c "/"%char) && noSlash rest
  end.

(** The rate and the pending count a partition reports under ["default"]. *)
Definition rateOf (m : VertexMetrics) : float :=
  default PrimFloat.zero (ProcessingRates m !! "default"%string).

Definition pendingOf (m : VertexMetrics) : Z :=
  default 0 (Pendings m !! "default"%string).

(** A partition without a usable signal: no rate or a negative one, no
    pending count, a negative one, or the not-available mark. *)
Definition signalMissing (PendingNotAvailable : Z) (m : VertexMetrics) : bool :=
  match ProcessingRates m !! "default"%string with
  | None => true
  | Some rate =>
      PrimFloat.ltb rate PrimFloat.zero ||
      match Pendings m !! "default"%string with
      | None => true
      | Some pending => (pending <? 0) || (pending =? PendingNotAvailable)
      end
  end.

(** A 64-bit sum, and a float sum, taken from the left. *)
Definition sumInt64 (l : list Z) : Z := foldl (λ a x, Num.int64 (a + x)) 0 l.
Definition sumFloat (l : list float) : float := foldl PrimFloat.add PrimFloat.zero l.

(** The destination of edge [e] is cached with pending/length at or above
    the threshold. *)
Definition overThreshold (threshold : float) (pl : Pipeline) (cache : lru.Cache Z)
    (e : Edge) : bool :=
  match lru.Peek (downstreamKey pl e +:+ "/pending") cache,
        lru.Peek (downstreamKey pl e +:+ "/length") cache with
  | Some pending, Some length =>
      PrimFloat.leb threshold (PrimFloat.div (Num.float64 pending) (Num.float64 length))
  | _, _ => false
  end.

(** [s'] watches what [s] watches. *)
Definition sameWatch (s s' : Scaler) : Prop :=
  vertexMap s' = vertexMap s ∧ vertexList s' = vertexList s ∧
  nextElem s' = nextElem s ∧ opts s' = opts s.

(** The metrics cache of [s'] holds what that of [s] holds. *)
Definition sameMetrics (s s' : Scaler) : Prop :=
  ∀ k, lru.Peek k (vertexMetricsCache s') = lru.Peek k (vertexMetricsCache s).

(** [keeps R m]: whatever [m] does, the scaler it leaves is related by [R]
    to the one it found. *)
Definition keeps (R : Scaler → Scaler → Prop) {A : Type} (m : Eval A) : Prop :=
  ∀ w r w', m w = (r, w') → R (scaler w) (scaler w').

(** The metrics cache of [s'] is that of [s], order and all. *)
Definition sameMetricsCache (s s' : Scaler) : Prop :=
  vertexMetricsCache s' = vertexMetricsCache s.

Definition isBufferRead (e : Event) : bool :=
  match e with
  | DaemonGetPipelineBuffer _ _ _ => true
  | _ => false
  end.

(** [raises P m]: when [m] makes the evaluation return, the outcome
    satisfies [P]. *)
Definition raises (P : Outcome → Prop) {A : Type} (m : Eval A) : Prop :=
  ∀ w o w', m w = (Return o, w') → P o.

(** What [patchVertexReplicas] answers for the answer of the cluster. *)
Definition patchOutcome (r : PatchResult) : Outcome :=
  match r with
  | PatchFailed => ReturnErr ErrPatch
  | PatchOk | PatchNotFound => ReturnNil
  end.

(** ** Concrete inputs

    A two-vertex pipeline [p] in namespace [ns], [a -> b], on a 64-bit x86
    machine, where an unrepresentable float converts to the smallest integer
    of the target type. *)
Module Sample.

Definition indefinite32 (x : float) : Z := - 2 ^ 31.
Definition indefinite64 (x : float) : Z := - 2 ^ 63.
Definition minInt64 : Z := - 2 ^ 63.

(** Vertex [a] of pipeline [p] with [replicas] both in its spec and in its
    status. *)
Definition vertexA (source : bool) (replicas min max step : Z) : Vertex :=
  {| Namespace := "ns"; Name := "p-a"; DeletionTimestampIsZero := true;
     SpecPipelineName := "p"; SpecName := "a"; SpecReplicas := Some replicas;
     StatusPhase := "Running"; StatusReplicas := replicas; StatusLastScaledAt := 0;
     Scalable := true; IsASource := source;
     OwnedBuffers := if source then [] else ["ns-p-a-0"%string];
     GetReplicas := replicas;
     GetCooldownSeconds := 90; GetZeroReplicaSleepSeconds := 120;
     GetMaxReplicas := max; GetMinReplicas := min; GetReplicasPerScale := step;
     GetTargetProcessingSeconds := 20; GetTargetBufferAvailability := 50 |}.

Definition pipelineP : Pipeline :=
  {| PlNamespace := "ns"; PlName := "p"; PlDeletionTimestampIsZero := true;
     GetDesiredPhase := "Running";
     GetDaemonServiceURL := "p-daemon-svc.ns.svc:4327";
     GetDownstreamEdges := λ name,
       if String.eqb name "a" then [ {| From := "a"; To := "b" |} ] else [] |}.

Definition partition (rate : float) (pending : Z) : VertexMetrics :=
  {| ProcessingRates := {[ "default"%string := rate ]};
     Pendings := {[ "default"%string := pending ]} |}.

(** The cluster holds [vertex] and [pipelineP]; [elapsed] seconds have
    passed since the last scaling; the daemon reports [metrics] and a buffer
    of length 1000 with a usage limit of 0.8. *)
Definition world (vertex : GetResult Vertex) (elapsed : Z) (metrics : list VertexMetrics) : Env :=
  {| clientGet_vertex := λ _ _, vertex;
     clientGet_pipeline := λ _ _, GetOk pipelineP;
     clientPatch := λ _, PatchOk;
     sinceCooldown := λ _, Num.float64 elapsed;
     sinceZeroReplica := λ _, Num.float64 elapsed;
     daemonNewClient := λ url, Some url;
     daemonGetVertexMetrics := λ _ _ _, Some metrics;
     daemonGetPipelineBuffer := λ _ _ _,
       Some {| BufferLength := Some 1000;
               BufferUsageLimit := Some (PrimFloat.div (Num.float64 8) (Num.float64 10)) |} |}.

(** A scaler that watches [ns/p-a] and has not cached anything yet. *)
Definition fresh : Scaler := StartWatching "ns/p-a" (NewScaler defaultOptions).

(** The same scaler after an evaluation of vertex [b] cached 950 pending
    messages and a buffer length of 1000 for it. *)
Definition pressed : Scaler :=
  setVertexMetricsCache
    (lru.Add "ns/p-b/length" 1000 (lru.Add "ns/p-b/pending" 950 (vertexMetricsCache fresh)).1).1
    fresh.

Definition busy : list VertexMetrics := [partition (Num.float64 100) 8000].
Definition flooded : list VertexMetrics := [partition (Num.float64 1000) 3000000000].
Definition idle : list VertexMetrics := [partition PrimFloat.zero 0; partition PrimFloat.zero 0].

Definition evaluate (e : Env) (s : Scaler) : Outcome * Scaler * list Event :=
  scaleOneVertex minInt64 indefinite32 indefinite64 e "ns/p-a" s.

(** The evaluation up to its decision part. *)
Definition reach (e : Env) (s : Scaler) : Step (Vertex * Pipeline * Collected) * World :=
  upToDecision minInt64 indefinite64 e "ns/p-a" (start s).

Definition collected (r : Step (Vertex * Pipeline * Collected) * World) : Collected :=
  match r.1 with
  | Next (_, _, m) => m
  | Return _ =>
      {| partitionRates := []; partitionPending := []; totalRate := PrimFloat.zero;
         totalPending := 0; partitionBufferLengths := [];
         partitionAvailableBufferLengths := [] |}
  end.

Definition edgeAB : Edge := {| From := "a"; To := "b" |}.

(** The world after the preconditions. *)
Definition passed (e : Env) (s : Scaler) : World := (preconditions e "ns/p-a" (start s)).2.

End Sample.

(** ** More concrete inputs *)
Module Cases.
Import Sample.

(** The cluster of [Sample.world], with [pipeline] as its answer for the
    pipeline. *)
Definition cluster (vertex : GetResult Vertex) (pipeline : GetResult Pipeline)
    (elapsed : Z) (metrics : list VertexMetrics) : Env :=
  {| clientGet_vertex := λ _ _, vertex;
     clientGet_pipeline := λ _ _, pipeline;
     clientPatch := λ _, PatchOk;
     sinceCooldown := λ _, Num.float64 elapsed;
     sinceZeroReplica := λ _, Num.float64 elapsed;
     daemonNewClient := λ url, Some url;
     daemonGetVertexMetrics := λ _ _ _, Some metrics;
     daemonGetPipelineBuffer := λ _ _ _,
       Some {| BufferLength := Some 1000;
               BufferUsageLimit := Some (PrimFloat.div (Num.float64 8) (Num.float64 10)) |} |}.

(** Vertex [a] with three replicas and autoscaling disabled. *)
Definition unscalableA : Vertex :=
  {| Namespace := "ns"; Name := "p-a"; DeletionTimestampIsZero := true;
     SpecPipelineName := "p"; SpecName := "a"; SpecReplicas := Some 3;
     StatusPhase := "Running"; StatusReplicas := 3; StatusLastScaledAt := 0;
     Scalable := false; IsASource := true;
     OwnedBuffers := [];
     GetReplicas := 3;
     GetCooldownSeconds := 90; GetZeroReplicaSleepSeconds := 120;
     GetMaxReplicas := 10; GetMinReplicas := 1; GetReplicasPerScale := 2;
     GetTargetProcessingSeconds := 20; GetTargetBufferAvailability := 50 |}.


Definition edgeBC : Edge := {| From := "b"; To := "c" |}.

(** Pipeline [p] drawn out to three vertices, [a -> b -> c]. *)
Definition lineP : Pipeline :=
  {| PlNamespace := "ns"; PlName := "p"; PlDeletionTimestampIsZero := true;
     GetDesiredPhase := "Running";
     GetDaemonServiceURL := "p-daemon-svc.ns.svc:4327";
     GetDownstreamEdges := λ name,
       if String.eqb name "a" then [edgeAB; edgeBC]
       else if String.eqb name "b" then [edgeBC] else [] |}.

(** [fresh] after an evaluation of vertex [c] cached 950 pending messages
    and a buffer length of 1000 for it. *)
Definition clogged : Scaler :=
  setVertexMetricsCache
    (lru.Add "ns/p-c/length" 1000 (lru.Add "ns/p-c/pending" 950 (vertexMetricsCache fresh)).1).1
    fresh.

(** One partition that reports a rate and no pending count. *)
Definition silent : list VertexMetrics :=
  [ {| ProcessingRates := {[ "default"%string := Num.float64 100 ]}; Pendings := ∅ |} ].

(** Two partitions for a vertex that owns one buffer. *)
Definition twofold : list VertexMetrics :=
  [partition (Num.float64 100) 400; partition (Num.float64 100) 300].

(** A scaler built with a client cache size of 0, watching [ns/p-a]. *)
Definition cacheless : Scaler :=
  StartWatching "ns/p-a"
    (NewScaler {| workers := 20; taskInterval := 30000; clientsCacheSize := 0;
                  backPressureThreshold := PrimFloat.div (Num.float64 9) (Num.float64 10) |}).

End Cases.

(** * Properties *)

(** ** The model on small inputs *)

Example Split_keys :
  Split "ns/p-src" = ["ns"; "p-src"]%string ∧
  Split "abc" = ["abc"%string] ∧
  Split "a/b/" = ["a"; "b"; EmptyString]%string.
Proof. vm_compute. done. Qed.

Example int32_wraps :
  Num.int32 3000000000 = -1294967296 ∧ Num.int32 (2 ^ 31) = - 2 ^ 31 ∧ Num.int32 (-1) = -1.
Proof. vm_compute. done. Qed.

Example Round_half_away_from_zero :
  Num.truncate (Num.Round (PrimFloat.div (Num.float64 5) (Num.float64 2))) = Some 3 ∧
  Num.truncate (Num.Round (PrimFloat.div (Num.float64 (-7)) (Num.float64 2))) = Some (-4) ∧
  Num.truncate (Num.Round (PrimFloat.div (Num.float64 49) (Num.float64 100))) = Some 0.
Proof. vm_compute. done. Qed.

Example watch_and_stop :
  watchKeys (StopWatching "ns/a" (StartWatching "ns/b" (StartWatching "ns/a"
    (StartWatching "ns/a" (NewScaler defaultOptions))))) = ["ns/b"%string].
Proof. vm_compute. done. Qed.

(** Scenario S1 of the specification: a source with two replicas and two
    partitions at rate 100 with 4000 pending each is patched to 4. *)
Example scenario_steady_source :
  let metrics := [Sample.partition (Num.float64 100) 4000; Sample.partition (Num.float64 100) 4000] in
  Sample.evaluate (Sample.world (GetOk (Sample.vertexA true 2 1 10 2)) 100 metrics) Sample.fresh
  = (ReturnNil,
     (Sample.evaluate (Sample.world (GetOk (Sample.vertexA true 2 1 10 2)) 100 metrics) Sample.fresh).1.2,
     [ClientGetVertex "ns" "p-a"; ClientGetPipeline "ns" "p";
      NewDaemonServiceClient "p-daemon-svc.ns.svc:4327";
      DaemonGetVertexMetrics "p-daemon-svc.ns.svc:4327" "p" "a";
      ClientPatch "ns" "p-a" 4]).
Proof. vm_compute. done. Qed.

(** Scenario S3: one replica behind a buffer of effective length 800 with
    900 pending and a step of 2 is patched to 3. *)
Example scenario_buffer_saturation :
  patches (Sample.evaluate
             (Sample.world (GetOk (Sample.vertexA false 1 1 10 2)) 100
                [Sample.partition (Num.float64 10) 900]) Sample.fresh).2 = [3].
Proof. vm_compute. done. Qed.

(** Scenario S5: a spec edited to 50 replicas above the maximum of 10 is
    patched to the clamped desired count at once. *)
Example scenario_spec_drift :
  patches (Sample.evaluate
             (Sample.world (GetOk (Sample.vertexA true 50 1 10 2)) 100 Sample.busy)
             Sample.fresh).2 = [10].
Proof. vm_compute. done. Qed.

(** ** The watch set *)

Module WatchSet.

Lemma address_key_unique (l : list (nat * string)) e k1 k2 :
  NoDup l.*1 → (e, k1) ∈ l → (e, k2) ∈ l → k1 = k2.
Proof.
  induction l as [|[e' k'] l IH]; simpl; intros Hnd H1 H2.
  - by apply elem_of_nil in H1.
  - apply NoDup_cons in Hnd as [Hnotin Hnd].
    apply elem_of_cons in H1 as [H1|H1]; apply elem_of_cons in H2 as [H2|H2].
    + congruence.
    + inversion H1; subst. exfalso. apply Hnotin.
      change e' with ((e', k2).1). by apply list_elem_of_fmap_2.
    + inversion H2; subst. exfalso. apply Hnotin.
      change e' with ((e', k1).1). by apply list_elem_of_fmap_2.
    + eauto.
Qed.

Lemma Inv_New o : WatchSetInv (NewScaler o).
Proof.
  split; simpl.
  - constructor.
  - intros k e. rewrite lookup_empty. split; [done|]. intros H. by apply elem_of_nil in H.
  - intros e k H. by apply elem_of_nil in H.
Qed.

Lemma Inv_Start key s : WatchSetInv s → WatchSetInv (StartWatching key s).
Proof.
  intros [Hnd Hmap Hfresh]. unfold StartWatching.
  destruct (vertexMap s !! key) as [e0|] eqn:Hkey; [by split|].
  split; simpl.
  - rewrite fmap_app. apply NoDup_app. split_and!; [done| |apply NoDup_singleton].
    intros e [[e' k] [-> Hin]]%list_elem_of_fmap. simpl.
    intros ->%list_elem_of_singleton. apply Hfresh in Hin. lia.
  - intros k e. rewrite elem_of_app, list_elem_of_singleton, <- Hmap.
    destruct (decide (key = k)) as [->|Hne].
    + rewrite lookup_insert_eq, Hkey. split; [intros [= <-]; by right|].
      intros [?|[= -> ]]; done.
    + rewrite lookup_insert_ne by done. split; [by left|].
      intros [?|[= -> ->]]; done.
  - intros e k [Hin|[= -> ->]%list_elem_of_singleton]%elem_of_app; [|lia].
    apply Hfresh in Hin. lia.
Qed.

Lemma Inv_Stop key s : WatchSetInv s → WatchSetInv (StopWatching key s).
Proof.
  intros [Hnd Hmap Hfresh]. unfold StopWatching.
  destruct (vertexMap s !! key) as [e0|] eqn:Hkey; [|by split].
  split; simpl.
  - eapply sublist_NoDup; [exact Hnd|apply fmap_sublist, sublist_filter].
  - intros k e. rewrite list_elem_of_filter, <- Hmap. simpl.
    destruct (decide (key = k)) as [->|Hne].
    + rewrite lookup_delete_eq. split; [done|]. intros [Hne He]. congruence.
    + rewrite lookup_delete_ne by done. split; [|by intros [_ ?]].
      intros He. split; [|done]. intros ->.
      apply Hmap in He, Hkey. apply Hne. eapply address_key_unique; eauto.
  - intros e k [_ Hin]%list_elem_of_filter. eauto.
Qed.

Lemma Inv_run o ops : WatchSetInv (runOps ops (NewScaler o)).
Proof.
  unfold runOps. generalize (Inv_New o). generalize (NewScaler o).
  induction ops as [|op ops IH]; simpl; intros s Hs; [done|].
  apply IH. destruct op; simpl; [by apply Inv_Start|by apply Inv_Stop].
Qed.

Lemma Inv_keys_NoDup s : WatchSetInv s → NoDup (watchKeys s).
Proof.
  intros [Hnd Hmap _]. unfold watchKeys.
  apply NoDup_fmap_2_strong; [|by eapply NoDup_fmap_1].
  intros [e1 k1] [e2 k2] H1 H2; simpl; intros <-.
  apply Hmap in H1, H2. congruence.
Qed.

Lemma Inv_keys_Contains s k : WatchSetInv s → k ∈ watchKeys s ↔ Contains k s = true.
Proof.
  intros [_ Hmap _]. unfold watchKeys, Contains. rewrite list_elem_of_fmap. split.
  - intros [[e k'] [-> Hin]]. simpl. apply Hmap in Hin. by rewrite Hin.
  - destruct (vertexMap s !! k) as [e|] eqn:Hk; [|done]. intros _.
    exists (e, k). split; [done|]. by apply Hmap.
Qed.

Lemma Inv_length s : WatchSetInv s → length (vertexList s) = size (vertexMap s).
Proof.
  intros [Hnd Hmap _]. rewrite <- length_map_to_list.
  rewrite <- (length_fmap prod_swap (vertexList s)).
  apply Permutation_length, NoDup_Permutation.
  - apply NoDup_fmap_2; [apply _|]. by eapply NoDup_fmap_1.
  - apply NoDup_map_to_list.
  - intros [k e]. rewrite elem_of_map_to_list, Hmap, list_elem_of_fmap. split.
    + intros [[e' k'] [[= -> ->] Hin]]. done.
    + intros Hin. by exists (e, k).
Qed.

Lemma Start_lookup key s : is_Some (vertexMap (StartWatching key s) !! key).
Proof.
  unfold StartWatching. destruct (vertexMap s !! key) eqn:Hkey; simpl.
  - by rewrite Hkey.
  - by rewrite lookup_insert_eq.
Qed.

Lemma Start_present key s : is_Some (vertexMap s !! key) → StartWatching key s = s.
Proof. intros [e He]. unfold StartWatching. by rewrite He. Qed.

Lemma Stop_lookup key s : vertexMap (StopWatching key s) !! key = None.
Proof.
  unfold StopWatching. destruct (vertexMap s !! key) eqn:Hkey; simpl.
  - by rewrite lookup_delete_eq.
  - done.
Qed.

Lemma Stop_absent key s : vertexMap s !! key = None → StopWatching key s = s.
Proof. intros He. unfold StopWatching. by rewrite He. Qed.

(** C9. [StartWatching] and [StopWatching] are idempotent; [StartWatching]
    leaves the scaler as it is when the key is watched and otherwise appends
    the key at the back of the list; and after any sequence of the two
    operations on a new scaler the list holds no key twice, the list and the
    map hold the same keys, and they have the same number of entries. *)
Theorem watch_set_idempotent_consistent :
  (∀ key s, StartWatching key (StartWatching key s) = StartWatching key s) ∧
  (∀ key s, StopWatching key (StopWatching key s) = StopWatching key s) ∧
  (∀ key s, if Contains key s then StartWatching key s = s
            else watchKeys (StartWatching key s) = watchKeys s ++ [key]) ∧
  (∀ o ops, let s := runOps ops (NewScaler o) in
     NoDup (watchKeys s) ∧
     (∀ k, k ∈ watchKeys s ↔ Contains k s = true) ∧
     length (vertexList s) = size (vertexMap s)).
Proof.
  split_and!.
  - intros key s. apply Start_present, Start_lookup.
  - intros key s. apply Stop_absent, Stop_lookup.
  - intros key s. unfold Contains, StartWatching, watchKeys.
    destruct (vertexMap s !! key); [done|]. simpl. by rewrite fmap_app.
  - intros o ops s. pose proof (Inv_run o ops) as Hinv. fold s in Hinv.
    split_and!; [by apply Inv_keys_NoDup|intros k; by apply Inv_keys_Contains|by apply Inv_length].
Qed.

End WatchSet.

(** ** Reasoning about evaluations *)

Lemma bind_Next {A B} (m : Eval A) (f : A → Eval B) w a w' :
  m w = (Next a, w') → (m ≫= f) w = f a w'.
Proof. intros H. unfold mbind, Eval_bind. by rewrite H. Qed.

Lemma bind_Return {A B} (m : Eval A) (f : A → Eval B) w o w' :
  m w = (Return o, w') → (m ≫= f) w = (Return o, w').
Proof. intros H. unfold mbind, Eval_bind. by rewrite H. Qed.

Lemma only_mret P {A} (a : A) : only P (mret a).
Proof. intros w r w' [= <- <-]. exists []. by rewrite app_nil_r. Qed.

Lemma only_ret P {A} o : only P (@ret A o).
Proof. intros w r w' [= <- <-]. exists []. by rewrite app_nil_r. Qed.

Lemma only_update P f : only P (update f).
Proof. intros w r w' [= <- <-]. exists []. simpl. by rewrite app_nil_r. Qed.

Lemma only_getScaler P : only P getScaler.
Proof. intros w r w' [= <- <-]. exists []. by rewrite app_nil_r. Qed.

Lemma only_emit (P : Event → bool) e : P e = true → only P (emit e).
Proof. intros He w r w' [= <- <-]. exists [e]. simpl. by rewrite He. Qed.

Lemma only_bind P {A B} (m : Eval A) (f : A → Eval B) :
  only P m → (∀ a, only P (f a)) → only P (m ≫= f).
Proof.
  intros Hm Hf w r w'. unfold mbind, Eval_bind.
  destruct (m w) as [[a|o] w1] eqn:E; destruct (Hm _ _ _ E) as (t1 & Ht1 & HP1).
  - intros E2. destruct (Hf _ _ _ _ E2) as (t2 & Ht2 & HP2).
    exists (t1 ++ t2). rewrite Ht2, Ht1, app_assoc. split; [done|].
    rewrite forallb_app. by rewrite HP1, HP2.
  - intros [= <- <-]. eauto.
Qed.

Ltac only_step :=
  first
    [ apply only_mret | apply only_ret | apply only_update | apply only_getScaler
    | apply only_emit; reflexivity
    | apply only_bind; [|intros ?]
    | case_match ].

Lemma patches_app t1 t2 : patches (t1 ++ t2) = patches t1 ++ patches t2.
Proof. unfold patches. apply omap_app. Qed.

Lemma patches_none t : forallb (λ e, negb (isPatch e)) t = true → patches t = [].
Proof.
  induction t as [|e t IH]; simpl; [done|].
  intros [He Ht]%andb_true_iff. destruct e; simpl in *; try done; by apply IH.
Qed.

Lemma daemonCalls_none t : forallb (λ e, negb (isDaemonCall e)) t = true → daemonCalls t = [].
Proof.
  induction t as [|e t IH]; simpl; [done|].
  intros [He Ht]%andb_true_iff. destruct (isDaemonCall e); simpl in *; [done|by apply IH].
Qed.

(** *** Wrap-around *)

Lemma int32_spec z :
  ∃ k, Num.int32 z = z + k * 2 ^ 32 ∧ - 2 ^ 31 <= Num.int32 z < 2 ^ 31.
Proof.
  unfold Num.int32, Num.wrap.
  pose proof (Z.div_mod (z + 2 ^ 31) (2 ^ 32) ltac:(lia)) as Hdm.
  pose proof (Z.mod_pos_bound (z + 2 ^ 31) (2 ^ 32) ltac:(lia)) as Hb.
  exists (- ((z + 2 ^ 31) `div` 2 ^ 32)).
  change (32 - 1) with 31. lia.
Qed.

Lemma int32_id z : - 2 ^ 31 <= z < 2 ^ 31 → Num.int32 z = z.
Proof. intros Hz. destruct (int32_spec z) as (k & Hk & Hr). lia. Qed.

(** Replaces every [Num.int32 z] by a fresh variable with its two facts. *)
Ltac int32_elim_at z :=
  lazymatch z with context [Num.int32 _] => fail | _ => idtac end;
  let x := fresh "x" in
  let k := fresh "k" in
  destruct (int32_spec z) as (k & ? & ?);
  set (x := Num.int32 z) in *; clearbody x.

Ltac int32_elim :=
  repeat match goal with
  | |- context [Num.int32 ?z] => int32_elim_at z
  | _ : context [Num.int32 ?z] |- _ => int32_elim_at z
  end.

Lemma clampDesired_range vertex desired :
  GetMinReplicas vertex <= GetMaxReplicas vertex →
  GetMinReplicas vertex <= clampDesired vertex desired <= GetMaxReplicas vertex.
Proof.
  intros H. unfold clampDesired. rewrite Z.gtb_ltb.
  destruct (Z.ltb_spec (GetMaxReplicas vertex) desired);
    match goal with |- context [Z.ltb ?a ?b] => destruct (Z.ltb_spec a b) end; lia.
Qed.

Lemma clampDesired_nonneg vertex desired :
  0 <= desired → 0 <= GetMaxReplicas vertex → 0 <= clampDesired vertex desired.
Proof.
  intros Hd Hmax. unfold clampDesired. rewrite Z.gtb_ltb.
  destruct (Z.ltb_spec (GetMaxReplicas vertex) desired);
    match goal with |- context [Z.ltb ?a ?b] => destruct (Z.ltb_spec a b) end; lia.
Qed.

(** *** The cache: reading does not change the content *)

Lemma find_remove {V} k k' (l : list (string * V)) :
  lru.find k (lru.remove k' l) = if String.eqb k k' then None else lru.find k l.
Proof.
  induction l as [|[k0 v0] l IH]; simpl; [by destruct (String.eqb k k')|].
  destruct (String.eqb k' k0) eqn:E0.
  - apply String.eqb_eq in E0 as <-. rewrite IH. by destruct (String.eqb k k').
  - simpl. rewrite IH. destruct (String.eqb k k0) eqn:E; [|done].
    apply String.eqb_eq in E as <-.
    destruct (String.eqb k k') eqn:E'; [|done].
    apply String.eqb_eq in E' as <-. by rewrite String.eqb_refl in E0.
Qed.

Lemma Get_Peek {V} k (c : lru.Cache V) : (lru.Get k c).1 = lru.Peek k c.
Proof. unfold lru.Get, lru.Peek. by destruct (lru.find k (lru.items c)). Qed.

Lemma Peek_Get {V} k k' (c : lru.Cache V) : lru.Peek k (lru.Get k' c).2 = lru.Peek k c.
Proof.
  unfold lru.Get, lru.Peek. destruct (lru.find k' (lru.items c)) as [v|] eqn:E; [|done].
  simpl. rewrite find_remove. destruct (String.eqb k k') eqn:Ek; [|done].
  apply String.eqb_eq in Ek as ->. done.
Qed.

Section Properties.

Variable PendingNotAvailable : Z.
Variables undef32 undef64 : float → Z.
Variable env : Env.

Lemma only_preconditions key : only isClientGet (preconditions env key).
Proof. unfold preconditions, stopWatching. repeat only_step. Qed.

Lemma only_daemonClientOf pl : only isDaemonCall (daemonClientOf env pl).
Proof. unfold daemonClientOf. repeat only_step. Qed.

Lemma only_readBuffers dc pl vertex names : ∀ l1 l2 t1 t2,
  only isDaemonCall (readBuffers undef64 env dc pl vertex names l1 l2 t1 t2).
Proof.
  induction names as [|n names IH]; intros; simpl; repeat only_step. apply IH.
Qed.

Lemma only_collect key vertex pl :
  only isDaemonCall (collect PendingNotAvailable undef64 env key vertex pl).
Proof.
  unfold collect, metricsCacheAdd.
  repeat first [apply only_daemonClientOf | apply only_readBuffers | only_step].
Qed.

Ltac run_eval :=
  unfold mbind, Eval_bind, mret, Eval_ret, ret, emit, update, getScaler, stopWatching in *;
  simpl in *.

(** What is known once the preconditions let the evaluation through. *)
Lemma preconditions_Next key w vertex pl w' :
  preconditions env key w = (Next (vertex, pl), w') →
  ∃ namespace name,
    Split key = [namespace; name] ∧
    clientGet_vertex env namespace name = GetOk vertex ∧
    clientGet_pipeline env namespace (SpecPipelineName vertex) = GetOk pl ∧
    StatusReplicas vertex = GetReplicas vertex ∧
    scaler w' = scaler w ∧
    events w' = events w ++ [ClientGetVertex namespace name;
                             ClientGetPipeline namespace (SpecPipelineName vertex)].
Proof.
  unfold preconditions. intros H.
  destruct (Split key) as [|namespace [|name [|? ?]]] eqn:Hkey; run_eval; try done.
  exists namespace, name.
  repeat case_match; simplify_eq/=.
  split_and!; try done.
  - match goal with H : negb (_ =? _) = false |- _ =>
      apply negb_false_iff, Z.eqb_eq in H; exact H end.
  - by rewrite <- app_assoc.
Qed.

Lemma zeroReplicaPeek_Next vertex w w' :
  zeroReplicaPeek env vertex w = (Next tt, w') → StatusReplicas vertex ≠ 0 ∧ w' = w.
Proof.
  unfold zeroReplicaPeek, patchVertexReplicas. run_eval.
  destruct (StatusReplicas vertex =? 0) eqn:E.
  - repeat case_match; intros; simplify_eq/=.
  - intros [= <-]. split; [|done]. by apply Z.eqb_neq.
Qed.

Lemma upToDecision_Next key s vertex pl m w :
  upToDecision PendingNotAvailable undef64 env key (start s) = (Next (vertex, pl, m), w) →
  ∃ w1, preconditions env key (start s) = (Next (vertex, pl), w1) ∧
        StatusReplicas vertex ≠ 0 ∧
        collect PendingNotAvailable undef64 env key vertex pl w1 = (Next m, w) ∧
        patches (events w) = [].
Proof.
  unfold upToDecision. unfold mbind at 1, Eval_bind at 1.
  destruct (preconditions env key (start s)) as [[[v1 pl1]|o] w1] eqn:Hpre; [|done].
  unfold mbind at 1, Eval_bind at 1.
  destruct (zeroReplicaPeek env v1 w1) as [[[]|o] w2] eqn:Hpeek; [|done].
  apply zeroReplicaPeek_Next in Hpeek as [Hnz ->].
  unfold mbind at 1, Eval_bind at 1.
  destruct (collect _ _ _ _ _ _ w1) as [[m1|o] w3] eqn:Hcol; [|done].
  intros [= -> -> -> ->]. exists w1. split_and!; try done.
  destruct (only_preconditions _ _ _ _ Hpre) as (t1 & Ht1 & HP1).
  destruct (only_collect _ _ _ _ _ _ Hcol) as (t2 & Ht2 & HP2).
  rewrite Ht2, Ht1. simpl. rewrite patches_app.
  rewrite (patches_none t1), (patches_none t2); [done| |].
  - rewrite forallb_forall in *. intros e He. apply HP2 in He. by destruct e.
  - rewrite forallb_forall in *. intros e He. apply HP1 in He. by destruct e.
Qed.

Lemma scaleOneVertex_decision key s vertex pl m w :
  upToDecision PendingNotAvailable undef64 env key (start s) = (Next (vertex, pl, m), w) →
  scaleOneVertex PendingNotAvailable undef32 undef64 env key s =
    match scaleDecision undef32 env key vertex pl m w with
    | (Next o, w') | (Return o, w') => (o, scaler w', events w')
    end.
Proof.
  intros H. unfold scaleOneVertex, scaleOneVertexBody.
  by rewrite (bind_Next _ _ _ _ _ H).
Qed.

Lemma scaleOneVertex_early key s o w :
  upToDecision PendingNotAvailable undef64 env key (start s) = (Return o, w) →
  scaleOneVertex PendingNotAvailable undef32 undef64 env key s = (o, scaler w, events w).
Proof.
  intros H. unfold scaleOneVertex, scaleOneVertexBody.
  by rewrite (bind_Return _ _ _ _ _ H).
Qed.

(** *** Back pressure *)

Lemma backPressureLoop_direct threshold pl vertex edges : ∀ cache direct downstream,
  (direct = true → downstream = true) →
  (backPressureLoop threshold pl vertex edges cache direct downstream).1.1 = true →
  (backPressureLoop threshold pl vertex edges cache direct downstream).1.2 = true.
Proof.
  induction edges as [|e edges IH]; intros cache direct downstream Himp; simpl; [done|].
  repeat case_match; simpl; auto.
Qed.

(** C10. [hasBackPressure] always returns, and whenever its first result
    (direct pressure) is true its second (downstream pressure) is true as
    well. *)
Theorem hasBackPressure_direct_implies_downstream pl vertex w :
  ∃ directPressure downstreamPressure w',
    hasBackPressure pl vertex w = (Next (directPressure, downstreamPressure), w') ∧
    (directPressure = true → downstreamPressure = true).
Proof.
  unfold hasBackPressure. run_eval.
  destruct (backPressureLoop _ _ _ _ _ _ _) as [[direct downstream] cache] eqn:E.
  simpl. eexists _, _, _. split; [reflexivity|].
  pose proof (backPressureLoop_direct (backPressureThreshold (opts (scaler w))) pl vertex
    (GetDownstreamEdges pl (SpecName vertex)) (vertexMetricsCache (scaler w)) false false) as H.
  rewrite E in H. simpl in H. by apply H.
Qed.

(** *** The gates before the metrics *)

(** C7. When the vertex of the key is fetched and the time since its
    [LastScaledAt] is below its cooldown, the evaluation returns nil and
    patches nothing. *)
Theorem cooldown_no_patch key namespace name vertex s :
  Split key = [namespace; name] →
  clientGet_vertex env namespace name = GetOk vertex →
  PrimFloat.ltb (sinceCooldown env vertex) (Num.float64 (GetCooldownSeconds vertex)) = true →
  ∃ s' t,
    scaleOneVertex PendingNotAvailable undef32 undef64 env key s = (ReturnNil, s', t) ∧
    patches t = [].
Proof.
  intros Hkey Hget Hcool.
  unfold scaleOneVertex, scaleOneVertexBody, upToDecision, preconditions, start.
  rewrite Hkey. run_eval. rewrite Hget.
  destruct (DeletionTimestampIsZero vertex); simpl; [|by eexists _, _].
  destruct (Scalable vertex); simpl; [|by eexists _, _].
  rewrite Hcool. by eexists _, _.
Qed.

(** C8. In a scaler whose watch map and watch list agree, when the key is
    watched and fetching its vertex answers not-found, the evaluation
    returns nil, patches nothing, and leaves a watch set that no longer
    contains the key and whose length is one less. *)
Theorem vertex_not_found_stops_watching key namespace name s :
  WatchSetInv s →
  Contains key s = true →
  Split key = [namespace; name] →
  clientGet_vertex env namespace name = GetNotFound →
  ∃ s' t,
    scaleOneVertex PendingNotAvailable undef32 undef64 env key s = (ReturnNil, s', t) ∧
    patches t = [] ∧
    Contains key s' = false ∧
    Length s' = Length s - 1.
Proof.
  intros Hinv Hwatched Hkey Hget.
  unfold scaleOneVertex, scaleOneVertexBody, upToDecision, preconditions, start.
  rewrite Hkey. run_eval. rewrite Hget. simpl.
  eexists _, _. split; [reflexivity|]. split; [done|].
  unfold Contains in *. rewrite WatchSet.Stop_lookup. split; [done|].
  unfold Length.
  rewrite (WatchSet.Inv_length _ (WatchSet.Inv_Stop key s Hinv)), (WatchSet.Inv_length _ Hinv).
  unfold StopWatching. destruct (vertexMap s !! key) as [e|] eqn:Hk; [|done]. simpl.
  rewrite map_size_delete_Some by eauto.
  assert (size (vertexMap s) ≠ 0%nat); [|lia].
  intros Hz. apply map_size_empty_inv in Hz. rewrite Hz in Hk. by rewrite lookup_empty in Hk.
Qed.

(** C6. When the evaluation passes the preconditions with a vertex whose
    status shows zero replicas, it calls the daemon for nothing; if the time
    since [LastScaledAt] has reached [zeroReplicaSleepSeconds] it issues the
    single patch 1 and returns what the patch returns, otherwise it patches
    nothing and returns nil. *)
Theorem zero_replica_peek key s vertex pl w :
  preconditions env key (start s) = (Next (vertex, pl), w) →
  StatusReplicas vertex = 0 →
  ∃ o s' t,
    scaleOneVertex PendingNotAvailable undef32 undef64 env key s = (o, s', t) ∧
    daemonCalls t = [] ∧
    if PrimFloat.leb (Num.float64 (GetZeroReplicaSleepSeconds vertex))
         (sinceZeroReplica env vertex)
    then patches t = [1] ∧
         t = events w ++ [ClientPatch (Namespace vertex) (Name vertex) 1] ∧
         o = match clientPatch env (setSpecReplicas vertex 1) with
             | PatchFailed => ReturnErr ErrPatch
             | _ => ReturnNil
             end
    else patches t = [] ∧ t = events w ∧ o = ReturnNil.
Proof.
  intros Hpre Hzero.
  destruct (preconditions_Next _ _ _ _ _ Hpre) as (namespace & name & _ & _ & _ & _ & _ & Hev).
  simpl in Hev.
  assert (Hup : ∀ r, zeroReplicaPeek env vertex w = r →
            upToDecision PendingNotAvailable undef64 env key (start s) =
              match r with
              | (Return o, w') => (Return o, w')
              | (Next _, w') => (Return Panic, w')
              end ∨ ∃ w', r = (Next tt, w')).
  { intros r <-. unfold upToDecision. rewrite (bind_Next _ _ _ _ _ Hpre).
    unfold mbind, Eval_bind. destruct (zeroReplicaPeek env vertex w) as [[[]|o] w']; eauto. }
  specialize (Hup _ eq_refl) as [Hup|[w' Hup]].
  2:{ apply zeroReplicaPeek_Next in Hup as [Hnz _]. done. }
  revert Hup. unfold zeroReplicaPeek, patchVertexReplicas. rewrite Hzero. run_eval.
  destruct (PrimFloat.leb _ _).
  - destruct (clientPatch env _); simpl; intros Hup;
      rewrite (scaleOneVertex_early _ _ _ _ Hup); simpl;
      eexists _, _, _; (split; [reflexivity|]); rewrite Hev; by split_and!.
  - simpl. intros Hup. rewrite (scaleOneVertex_early _ _ _ _ Hup).
    eexists _, _, _. split; [reflexivity|]. rewrite Hev. by split_and!.
Qed.

(** *** The decision *)

Lemma scaleDecision_panic key vertex pl m w :
  unclampedDesired undef32 vertex m = None →
  scaleDecision undef32 env key vertex pl m w = (Return Panic, w).
Proof. intros H. unfold scaleDecision. by rewrite H. Qed.

Lemma scaleDecision_patches key vertex pl m w desired r w' :
  unclampedDesired undef32 vertex m = Some desired →
  scaleDecision undef32 env key vertex pl m w = (r, w') →
  patches (events w') =
    patches (events w) ++
    decisionPatches vertex (clampDesired vertex desired)
      (pressureIn pl vertex w).1 (pressureIn pl vertex w).2.
Proof.
  intros Hd. unfold scaleDecision, decisionPatches, pressureIn, hasBackPressure, patchVertexReplicas.
  rewrite Hd. run_eval.
  assert (Hfin : ∀ (x : PatchResult) (o1 o2 o3 : Outcome) (w1 : World),
            (match x with
             | PatchOk => λ w2 : World, (Next o1, w2)
             | PatchNotFound => λ w2, (Next o2, w2)
             | PatchFailed => λ w2, (Next o3, w2)
             end) w1 = (r, w') → w' = w1).
  { intros [] ???? [= _ <-]; done. }
  destruct (_ || _); simpl.
  { intros ->%Hfin. simpl. by rewrite patches_app. }
  destruct (_ <? _); simpl.
  { intros ->%Hfin. simpl. by rewrite patches_app. }
  destruct (_ >? _); simpl; [|intros [= _ <-]; by rewrite app_nil_r].
  destruct (backPressureLoop _ _ _ _ _ _ _) as [[direct downstream] cache]. simpl.
  destruct direct; [destruct (_ >? 1)|destruct downstream]; simpl.
  - intros ->%Hfin. simpl. by rewrite patches_app.
  - intros [= _ <-]. simpl. by rewrite app_nil_r.
  - intros [= _ <-]. simpl. by rewrite app_nil_r.
  - intros ->%Hfin. simpl. by rewrite patches_app.
Qed.

(** A direct edge whose destination is cached above the threshold is
    found by the loop, whatever precedes it in the list. *)
Lemma backPressureLoop_finds_direct threshold pl vertex e pending length edges :
  From e = SpecName vertex →
  PrimFloat.leb threshold (PrimFloat.div (Num.float64 pending) (Num.float64 length)) = true →
  e ∈ edges →
  ∀ cache direct downstream,
    lru.Peek (downstreamKey pl e +:+ "/pending") cache
      = Some pending →
    lru.Peek (downstreamKey pl e +:+ "/length") cache
      = Some length →
    (backPressureLoop threshold pl vertex edges cache direct downstream).1.1 = true.
Proof.
  intros Hfrom Hratio. induction edges as [|e0 edges IH]; intros Hin cache direct downstream Hp Hl.
  - by apply elem_of_nil in Hin.
  - simpl.
    destruct (lru.Get _ cache) as [pendingVal c1] eqn:E1.
    pose proof (Get_Peek (downstreamKey pl e0 +:+ "/pending") cache) as HP1.
    rewrite E1 in HP1. simpl in HP1.
    assert (Hc1 : ∀ k, lru.Peek k c1 = lru.Peek k cache).
    { intros k. pose proof (Peek_Get k (downstreamKey pl e0 +:+ "/pending") cache) as H.
      by rewrite E1 in H. }
    apply elem_of_cons in Hin as [<-|Hin].
    + rewrite HP1, Hp.
      destruct (lru.Get _ c1) as [lengthVal c2] eqn:E2.
      pose proof (Get_Peek (downstreamKey pl e +:+ "/length") c1) as HP2.
      rewrite E2, Hc1, Hl in HP2. simpl in HP2. subst lengthVal.
      rewrite Hratio, Hfrom, String.eqb_refl. done.
    + destruct pendingVal as [p0|]; [|apply IH; by rewrite ?Hc1].
      destruct (lru.Get _ c1) as [lengthVal c2] eqn:E2.
      assert (Hc2 : ∀ k, lru.Peek k c2 = lru.Peek k cache).
      { intros k. pose proof (Peek_Get k (downstreamKey pl e0 +:+ "/length") c1) as H.
        rewrite E2 in H. simpl in H. by rewrite H. }
      destruct lengthVal as [l0|]; [|apply IH; by rewrite ?Hc2].
      repeat match goal with
             | |- context [if ?b then _ else _] => destruct b eqn:?
             end; try done; apply IH; by rewrite ?Hc2.
Qed.

(** [desiredReplicas] never goes below the 1 it starts from. *)
Lemma desiredReplicasFrom_ge vertex rates bufLens bufAvail pendings :
  ∀ i maxDesired r,
    desiredReplicasFrom undef32 vertex rates bufLens bufAvail i pendings maxDesired = Some r →
    maxDesired <= r.
Proof.
  induction pendings as [|pending rest IH]; intros i maxDesired r; simpl.
  - intros [= <-]. lia.
  - destruct (rates !! i) as [rate|]; simpl; [|done].
    destruct (_ || _); [apply IH|].
    match goal with |- (?c ≫= _) = _ → _ => destruct c as [d|] end; simpl; [|done].
    intros H%IH. revert H. rewrite !Z.gtb_ltb.
    match goal with |- context [Z.ltb maxDesired ?a] =>
      generalize a; intros d'; destruct (Z.ltb_spec maxDesired d') end; lia.
Qed.

Lemma unclampedDesired_nonneg vertex m desired :
  unclampedDesired undef32 vertex m = Some desired → 0 <= desired.
Proof.
  unfold unclampedDesired, desiredReplicas. destruct (_ && _); [by intros [= <-]|].
  intros H%desiredReplicasFrom_ge. lia.
Qed.

(** *** Where the patches of an evaluation come from *)

Abbreviation trace key s :=
  (scaleOneVertex PendingNotAvailable undef32 undef64 env key s).2.

Lemma zeroReplicaPeek_Return vertex w o w' :
  zeroReplicaPeek env vertex w = (Return o, w') →
  StatusReplicas vertex = 0 ∧
  (patches (events w') = patches (events w) ∨
   patches (events w') = patches (events w) ++ [1]).
Proof.
  unfold zeroReplicaPeek, patchVertexReplicas. run_eval.
  destruct (StatusReplicas vertex =? 0) eqn:E; [|done].
  apply Z.eqb_eq in E. split; [done|]. revert H.
  destruct (PrimFloat.leb _ _); [|intros [= _ <-]; by left].
  destruct (clientPatch env _); simpl; intros [= _ <-]; right; simpl; by rewrite patches_app.
Qed.

(** An evaluation patches nothing, or patches 1 to peek from zero replicas,
    or patches what its decision part says. *)
Lemma evaluation_patches key s :
  patches (trace key s) = [] ∨
  ∃ namespace name vertex pl,
    Split key = [namespace; name] ∧
    clientGet_vertex env namespace name = GetOk vertex ∧
    StatusReplicas vertex = GetReplicas vertex ∧
    ((StatusReplicas vertex = 0 ∧ patches (trace key s) = [1]) ∨
     (∃ m w desired,
        upToDecision PendingNotAvailable undef64 env key (start s) = (Next (vertex, pl, m), w) ∧
        unclampedDesired undef32 vertex m = Some desired ∧
        patches (trace key s) =
          decisionPatches vertex (clampDesired vertex desired)
            (pressureIn pl vertex w).1 (pressureIn pl vertex w).2)).
Proof.
  destruct (upToDecision PendingNotAvailable undef64 env key (start s))
    as [[[[vertex pl] m]|o] w] eqn:Hup.
  - rewrite (scaleOneVertex_decision _ _ _ _ _ _ Hup).
    destruct (upToDecision_Next _ _ _ _ _ _ Hup) as (w1 & Hpre & Hnz & Hcol & Hnone).
    destruct (preconditions_Next _ _ _ _ _ Hpre) as (namespace & name & Hk & Hv & _ & Hrep & _).
    destruct (unclampedDesired undef32 vertex m) as [desired|] eqn:Hd.
    + right. exists namespace, name, vertex, pl. split_and!; try done. right.
      exists m, w, desired. split_and!; try done.
      destruct (scaleDecision undef32 env key vertex pl m w) as [r w'] eqn:Hdec.
      pose proof (scaleDecision_patches _ _ _ _ _ _ _ _ Hd Hdec) as Hp.
      rewrite Hnone in Hp. simpl in Hp. by destruct r.
    + left. rewrite scaleDecision_panic by done. done.
  - rewrite (scaleOneVertex_early _ _ _ _ Hup). simpl.
    revert Hup. unfold upToDecision. unfold mbind at 1, Eval_bind at 1.
    destruct (preconditions env key (start s)) as [[[v1 pl1]|o1] w1] eqn:Hpre.
    2:{ intros [= <- <-]. left.
        destruct (only_preconditions _ _ _ _ Hpre) as (t1 & -> & HP1). simpl.
        apply patches_none. rewrite forallb_forall in *.
        intros e He. apply HP1 in He. by destruct e. }
    assert (Hnone1 : patches (events w1) = []).
    { destruct (only_preconditions _ _ _ _ Hpre) as (t1 & -> & HP1). simpl.
      apply patches_none. rewrite forallb_forall in *.
      intros e He. apply HP1 in He. by destruct e. }
    destruct (preconditions_Next _ _ _ _ _ Hpre) as (namespace & name & Hk & Hv & _ & Hrep & _).
    unfold mbind at 1, Eval_bind at 1.
    destruct (zeroReplicaPeek env v1 w1) as [[[]|o2] w2] eqn:Hpeek.
    + apply zeroReplicaPeek_Next in Hpeek as [_ ->].
      unfold mbind at 1, Eval_bind at 1.
      destruct (collect _ _ _ _ _ _ w1) as [[m1|o3] w3] eqn:Hcol; [done|].
      intros [= <- <-]. left.
      destruct (only_collect _ _ _ _ _ _ Hcol) as (t2 & -> & HP2).
      rewrite patches_app, Hnone1. simpl.
      apply patches_none. rewrite forallb_forall in *.
      intros e He. apply HP2 in He. by destruct e.
    + intros [= <- <-].
      apply zeroReplicaPeek_Return in Hpeek as [Hz [Hp|Hp]]; rewrite Hp, Hnone1; [by left|].
      right. exists namespace, name, v1, pl1. split_and!; try done. by left.
Qed.

(** *** Zero scale *)

(** C2, amended. With no pending message and no rate the desired count is
    0 clamped into [min, max].  A current count outside [min, max] is patched
    to that value at once.  Inside, no patch is issued when the count is
    max(min, 0) already; otherwise the patch is, in 32-bit arithmetic,
    current - min(current - max(min, 0), int32(replicasPerScale)), the step
    being converted to 32 bits as on line 306; for a step from 0 to
    2^31 - 1 that is current - min(current - max(min, 0), replicasPerScale).
    The patch is 0 when min <= 0, current <= max and
    current <= replicasPerScale < 2^31. *)
Theorem zero_scale_steps_down key s vertex pl m w :
  upToDecision PendingNotAvailable undef64 env key (start s) = (Next (vertex, pl, m), w) →
  totalPending m = 0 →
  PrimFloat.eqb (totalRate m) PrimFloat.zero = true →
  let current := Num.int32 (GetReplicas vertex) in
  let min := GetMinReplicas vertex in
  let max := GetMaxReplicas vertex in
  let step := GetReplicasPerScale vertex in
  0 < current →
  (current > max ∨ current < min → patches (trace key s) = [clampDesired vertex 0]) ∧
  (min <= current <= max →
     patches (trace key s) =
       if Z.max min 0 <? current
       then [Num.int32 (current - Z.min (current - Z.max min 0) (Num.int32 step))]
       else []) ∧
  (min <= 0 → current <= max → current <= step < 2 ^ 31 → patches (trace key s) = [0]) ∧
  (min <= current <= max → 0 <= step < 2 ^ 31 →
     patches (trace key s) =
       if Z.max min 0 <? current
       then [current - Z.min (current - Z.max min 0) step]
       else []).
Proof.
  intros Hup Hpend Hrate current min max step Hpos.
  assert (Hd : unclampedDesired undef32 vertex m = Some 0).
  { unfold unclampedDesired. by rewrite Hpend, Hrate. }
  destruct (upToDecision_Next _ _ _ _ _ _ Hup) as (w1 & _ & _ & _ & Hnone).
  assert (Ht : patches (trace key s) =
    decisionPatches vertex (clampDesired vertex 0) (pressureIn pl vertex w).1 (pressureIn pl vertex w).2).
  { rewrite (scaleOneVertex_decision _ _ _ _ _ _ Hup).
    destruct (scaleDecision undef32 env key vertex pl m w) as [r w'] eqn:Hdec.
    pose proof (scaleDecision_patches _ _ _ _ _ _ _ _ Hd Hdec) as Hp.
    rewrite Hnone in Hp. by destruct r. }
  rewrite Ht. clear Ht. unfold decisionPatches, clampDesired.
  fold current min max step.
  assert (Hrange : - 2 ^ 31 <= current < 2 ^ 31).
  { unfold current. destruct (int32_spec (GetReplicas vertex)) as (k & _ & Hr). exact Hr. }
  rewrite !Z.gtb_ltb.
  split_and!.
  - intros Hout.
    destruct (Z.ltb_spec max current), (Z.ltb_spec current min); simpl; try done; lia.
  - intros Hin.
    destruct (Z.ltb_spec max current), (Z.ltb_spec current min); simpl; try lia.
    destruct (Z.ltb_spec max 0); [lia|].
    destruct (Z.ltb_spec 0 min).
    + rewrite Z.max_l by lia.
      rewrite (int32_id (current - min)) by lia.
      destruct (Z.ltb_spec min current).
      * f_equal. f_equal. f_equal.
        destruct (Z.ltb_spec (Num.int32 step) (current - min)); lia.
      * destruct (Z.ltb_spec current min); [lia|done].
    + rewrite Z.max_r by lia.
      rewrite (int32_id (current - 0)) by lia.
      destruct (Z.ltb_spec 0 current); [|lia].
      f_equal. f_equal. f_equal.
      destruct (Z.ltb_spec (Num.int32 step) (current - 0)); lia.
  - intros Hmin Hmax Hstep.
    destruct (Z.ltb_spec max current), (Z.ltb_spec current min); simpl; try lia.
    destruct (Z.ltb_spec max 0); [lia|].
    destruct (Z.ltb_spec 0 min); [lia|].
    destruct (Z.ltb_spec 0 current); [|lia].
    rewrite (int32_id (current - 0)) by lia.
    rewrite (int32_id step) by lia.
    destruct (Z.ltb_spec step (current - 0)); [lia|].
    replace (current - (current - 0)) with 0 by lia. by rewrite int32_id.
  - intros Hin Hstep.
    destruct (Z.ltb_spec max current), (Z.ltb_spec current min); simpl; try lia.
    destruct (Z.ltb_spec max 0); [lia|].
    rewrite (int32_id step) by lia.
    destruct (Z.ltb_spec 0 min).
    + rewrite Z.max_l by lia.
      rewrite (int32_id (current - min)) by lia.
      destruct (Z.ltb_spec min current).
      * destruct (Z.ltb_spec step (current - min)).
        -- rewrite Z.min_r by lia. by rewrite int32_id by lia.
        -- rewrite Z.min_l by lia. by rewrite int32_id by lia.
      * destruct (Z.ltb_spec current min); [lia|done].
    + rewrite Z.max_r by lia.
      rewrite (int32_id (current - 0)) by lia.
      destruct (Z.ltb_spec 0 current); [|lia].
      destruct (Z.ltb_spec step (current - 0)).
      * rewrite Z.min_r by lia. by rewrite int32_id by lia.
      * rewrite Z.min_l by lia. by rewrite int32_id by lia.
Qed.

(** *** The back-pressure gate *)

(** C3, amended. When the evaluation reaches its decision with a current
    count inside [min, max], a clamped desired count above it, and a direct
    downstream edge whose destination is cached with pending/length at or
    above the threshold, it patches current - 1 if current is above both 1
    and min, and patches nothing if current is 1. *)
Theorem direct_pressure_gate key s vertex pl m w desired e pending length :
  upToDecision PendingNotAvailable undef64 env key (start s) = (Next (vertex, pl, m), w) →
  unclampedDesired undef32 vertex m = Some desired →
  let current := Num.int32 (GetReplicas vertex) in
  GetMinReplicas vertex <= current <= GetMaxReplicas vertex →
  clampDesired vertex desired > current →
  e ∈ GetDownstreamEdges pl (SpecName vertex) →
  From e = SpecName vertex →
  lru.Peek (downstreamKey pl e +:+ "/pending") (vertexMetricsCache (scaler w)) = Some pending →
  lru.Peek (downstreamKey pl e +:+ "/length") (vertexMetricsCache (scaler w)) = Some length →
  PrimFloat.leb (backPressureThreshold (opts (scaler w)))
    (PrimFloat.div (Num.float64 pending) (Num.float64 length)) = true →
  (1 < current → GetMinReplicas vertex < current → patches (trace key s) = [current - 1]) ∧
  (current = 1 → patches (trace key s) = []).
Proof.
  intros Hup Hd current Hin Hgt He Hfrom Hp Hl Hratio.
  destruct (upToDecision_Next _ _ _ _ _ _ Hup) as (w1 & _ & _ & _ & Hnone).
  assert (Ht : patches (trace key s) =
    decisionPatches vertex (clampDesired vertex desired)
      (pressureIn pl vertex w).1 (pressureIn pl vertex w).2).
  { rewrite (scaleOneVertex_decision _ _ _ _ _ _ Hup).
    destruct (scaleDecision undef32 env key vertex pl m w) as [r w'] eqn:Hdec.
    pose proof (scaleDecision_patches _ _ _ _ _ _ _ _ Hd Hdec) as Hpatch.
    rewrite Hnone in Hpatch. by destruct r. }
  assert (Hdirect : (pressureIn pl vertex w).1 = true).
  { unfold pressureIn. by eapply backPressureLoop_finds_direct. }
  assert (Hrange : - 2 ^ 31 <= current < 2 ^ 31).
  { unfold current. destruct (int32_spec (GetReplicas vertex)) as (k & _ & Hr). exact Hr. }
  rewrite Ht, Hdirect. unfold decisionPatches. fold current. rewrite !Z.gtb_ltb.
  destruct (Z.ltb_spec (GetMaxReplicas vertex) current); [lia|].
  destruct (Z.ltb_spec current (GetMinReplicas vertex)); [lia|]. simpl.
  destruct (Z.ltb_spec (clampDesired vertex desired) current); [lia|].
  destruct (Z.ltb_spec current (clampDesired vertex desired)); [|lia].
  destruct (Z.ltb_spec 1 current); split; intros; try lia; try done.
  by rewrite int32_id by lia.
Qed.

(** *** The step law *)

(** C5, amended. With [replicasPerScale] at least 1 and the current count
    inside [min, max] (the count not negative and the maximum within 32
    bits, as replica counts are), every value an evaluation patches is
    within [replicasPerScale] of the current count. *)
Theorem step_law key s namespace name vertex :
  Split key = [namespace; name] →
  clientGet_vertex env namespace name = GetOk vertex →
  let current := Num.int32 (GetReplicas vertex) in
  Num.is_int32 (GetMaxReplicas vertex) →
  0 <= current →
  1 <= GetReplicasPerScale vertex →
  GetMinReplicas vertex <= current <= GetMaxReplicas vertex →
  ∀ r, r ∈ patches (trace key s) → Z.abs (r - current) <= GetReplicasPerScale vertex.
Proof.
  intros Hkey Hget current Hmax Hcur Hstep Hin r Hr. unfold Num.is_int32 in Hmax.
  destruct (evaluation_patches key s) as [Hnone|(ns' & name' & v' & pl & Hk & Hv & Hrep & Hcase)].
  { rewrite Hnone in Hr. by apply elem_of_nil in Hr. }
  rewrite Hkey in Hk. injection Hk as <- <-. rewrite Hget in Hv. injection Hv as <-.
  destruct Hcase as [[Hz Hone]|(m & w & desired & _ & Hd & Hdec)].
  - rewrite Hone in Hr. apply list_elem_of_singleton in Hr as ->.
    assert (current = 0) as ->; [|lia].
    unfold current. rewrite <- Hrep, Hz. by rewrite int32_id by lia.
  - rewrite Hdec in Hr. clear Hdec. revert Hr.
    apply unclampedDesired_nonneg in Hd.
    pose proof (clampDesired_range vertex desired ltac:(lia)) as Hclamp.
    pose proof (clampDesired_nonneg vertex desired Hd ltac:(lia)) as Hnn.
    generalize dependent (clampDesired vertex desired). intros d Hclamp Hnn.
    unfold decisionPatches. fold current. rewrite !Z.gtb_ltb.
    repeat match goal with
           | |- context [Z.ltb ?a ?b] => destruct (Z.ltb_spec a b); simpl
           | |- context [if ?b then _ else _] => destruct b; simpl
           end;
      intros Hr; try (by apply elem_of_nil in Hr); try lia;
      apply list_elem_of_singleton in Hr; subst r; subst current;
      int32_elim; lia.
Qed.

(** *** The clamp law outside the direct-pressure branch *)

(** X22. With the current count inside [min, max] and a step below 2^31,
    a patched value lies in [min, max] unless it is the peek from zero or
    the current - 1 of direct back pressure. *)
Lemma clamp_law_elsewhere key s namespace name vertex :
  Split key = [namespace; name] →
  clientGet_vertex env namespace name = GetOk vertex →
  let current := Num.int32 (GetReplicas vertex) in
  Num.is_int32 (GetMaxReplicas vertex) →
  0 <= current →
  0 <= GetReplicasPerScale vertex < 2 ^ 31 →
  GetMinReplicas vertex <= current <= GetMaxReplicas vertex →
  ∀ r, r ∈ patches (trace key s) →
    GetMinReplicas vertex <= r <= GetMaxReplicas vertex ∨
    (current = 0 ∧ r = 1) ∨
    (1 < current ∧ r = current - 1).
Proof.
  intros Hkey Hget current Hmax Hcur Hstep Hin r Hr. unfold Num.is_int32 in Hmax.
  destruct (evaluation_patches key s) as [Hnone|(ns' & name' & v' & pl & Hk & Hv & Hrep & Hcase)].
  { rewrite Hnone in Hr. by apply elem_of_nil in Hr. }
  rewrite Hkey in Hk. injection Hk as <- <-. rewrite Hget in Hv. injection Hv as <-.
  destruct Hcase as [[Hz Hone]|(m & w & desired & _ & Hd & Hdec)].
  - rewrite Hone in Hr. apply list_elem_of_singleton in Hr as ->.
    right. left. split; [|done].
    unfold current. rewrite <- Hrep, Hz. by rewrite int32_id by lia.
  - rewrite Hdec in Hr. clear Hdec. revert Hr.
    apply unclampedDesired_nonneg in Hd.
    pose proof (clampDesired_range vertex desired ltac:(lia)) as Hclamp.
    pose proof (clampDesired_nonneg vertex desired Hd ltac:(lia)) as Hnn.
    generalize dependent (clampDesired vertex desired). intros d Hclamp Hnn.
    unfold decisionPatches. fold current. rewrite !Z.gtb_ltb.
    repeat match goal with
           | |- context [Z.ltb ?a ?b] => destruct (Z.ltb_spec a b); simpl
           | |- context [if ?b then _ else _] => destruct b; simpl
           end;
      intros Hr; try (by apply elem_of_nil in Hr); try lia;
      apply list_elem_of_singleton in Hr; subst r; subst current;
      int32_elim; lia.
Qed.

End Properties.

(** ** The formula *)

Lemma desiredReplicasFrom_spec undef32 vertex rates bufLens bufAvail pendings :
  Forall (λ p, - 2 ^ 31 <= p < 2 ^ 31) pendings →
  ∀ i maxDesired,
    desiredReplicasFrom undef32 vertex rates bufLens bufAvail i pendings maxDesired =
    desiredReplicasSpecFrom undef32 vertex rates bufLens bufAvail i pendings maxDesired.
Proof.
  induction 1 as [|pending rest Hp _ IH]; intros i maxDesired; simpl; [done|].
  destruct (rates !! i) as [rate|]; simpl; [|done].
  destruct (_ || _); [apply IH|].
  match goal with |- (?c ≫= _) = _ => destruct c as [d|] end; simpl; [|done].
  rewrite IH, (int32_id pending) by done. f_equal.
  rewrite !Z.gtb_ltb. generalize (if d =? 0 then 1 else d). intros d'.
  destruct (Z.ltb_spec pending d');
    match goal with |- context [Z.ltb ?a ?b] => destruct (Z.ltb_spec a b) end; lia.
Qed.

(** The code computes the formula of the specification as long as every
    pending count fits 32 bits. *)
Lemma desiredReplicas_spec_small undef32 vertex rates pendings bufLens bufAvail :
  Forall (λ p, - 2 ^ 31 <= p < 2 ^ 31) pendings →
  desiredReplicas undef32 vertex rates pendings bufLens bufAvail =
  desiredReplicasSpec undef32 vertex rates pendings bufLens bufAvail.
Proof. intros H. by apply desiredReplicasFrom_spec. Qed.

(** C4. A partition with 3 000 000 000 pending messages at a rate of 1000
    on a source with two replicas: the formula gives 300 000, the code wraps
    the pending count to a negative 32-bit number, clamps the candidate to
    it and returns 1; the evaluation then scales the vertex down. *)
Theorem desiredReplicas_truncates_pending :
  let vertex := Sample.vertexA true 2 1 10 2 in
  desiredReplicas Sample.indefinite32 vertex [Num.float64 1000] [3000000000] [] [] = Some 1 ∧
  desiredReplicasSpec Sample.indefinite32 vertex [Num.float64 1000] [3000000000] [] [] = Some 300000 ∧
  patches (Sample.evaluate (Sample.world (GetOk vertex) 100 Sample.flooded) Sample.fresh).2 = [1].
Proof. vm_compute. done. Qed.

(** ** The clamp law *)

(** C1. Vertex [a] runs 2 replicas with min 2 and max 10, its metrics ask
    for more, and its neighbour [b] is under direct back pressure: the
    evaluation patches 1, below the minimum. *)
Theorem direct_pressure_patches_below_min :
  let vertex := Sample.vertexA true 2 2 10 2 in
  let t := (Sample.evaluate (Sample.world (GetOk vertex) 100 Sample.busy) Sample.pressed).2 in
  GetMinReplicas vertex <= Num.int32 (GetReplicas vertex) <= GetMaxReplicas vertex ∧
  patches t = [1] ∧
  1 < GetMinReplicas vertex.
Proof. vm_compute. split_and!; done. Qed.

(** ** The claims at concrete inputs *)

(** Closes a closed goal by evaluating it. *)
Ltac by_compute :=
  vm_compute; repeat split; first [reflexivity | intros ?; discriminate | constructor].

Module Witness.
Import Sample.

(** C7 at work: vertex [a] was scaled 10 seconds ago and cools down for
    90. *)
Lemma cooldown_no_patch_witness :
  ∃ s' t, evaluate (world (GetOk (vertexA true 3 0 10 2)) 10 busy) fresh = (ReturnNil, s', t) ∧
          patches t = [].
Proof.
  apply (cooldown_no_patch minInt64 indefinite32 indefinite64
           (world (GetOk (vertexA true 3 0 10 2)) 10 busy) "ns/p-a" "ns" "p-a"
           (vertexA true 3 0 10 2) fresh).
  - reflexivity.
  - reflexivity.
  - vm_compute. reflexivity.
Defined.

(** C8 at work: the cluster no longer knows vertex [a]. *)
Lemma vertex_not_found_witness :
  ∃ s' t, evaluate (world GetNotFound 100 busy) fresh = (ReturnNil, s', t) ∧
          patches t = [] ∧ Contains "ns/p-a" s' = false ∧ Length s' = Length fresh - 1.
Proof.
  apply (vertex_not_found_stops_watching minInt64 indefinite32 indefinite64
           (world GetNotFound 100 busy) "ns/p-a" "ns" "p-a" fresh).
  - apply WatchSet.Inv_Start, WatchSet.Inv_New.
  - vm_compute. reflexivity.
  - reflexivity.
  - reflexivity.
Defined.

(** C6 at work: vertex [a] has slept at zero replicas for 200 seconds,
    longer than its 120. *)
Lemma zero_replica_peek_witness :
  let env := world (GetOk (vertexA true 0 0 10 2)) 200 busy in
  ∃ o s' t, evaluate env fresh = (o, s', t) ∧ daemonCalls t = [] ∧
            patches t = [1] ∧
            t = events (passed env fresh) ++ [ClientPatch "ns" "p-a" 1] ∧
            o = ReturnNil.
Proof.
  exact (zero_replica_peek minInt64 indefinite32 indefinite64
           (world (GetOk (vertexA true 0 0 10 2)) 200 busy) "ns/p-a" fresh
           (vertexA true 0 0 10 2) pipelineP
           (passed (world (GetOk (vertexA true 0 0 10 2)) 200 busy) fresh)
           ltac:(by_compute) ltac:(reflexivity)).
Defined.

(** C2 at work: three idle replicas of a buffer-reading vertex, min 0,
    step 2: the patch is 1. *)
Lemma zero_scale_steps_down_witness :
  let env := world (GetOk (vertexA false 3 0 10 2)) 100 idle in
  patches (evaluate env fresh).2 = [1].
Proof.
  intros env.
  destruct (zero_scale_steps_down minInt64 indefinite32 indefinite64 env "ns/p-a" fresh
              (vertexA false 3 0 10 2) pipelineP (collected (reach env fresh)) (reach env fresh).2
              ltac:(by_compute) ltac:(by_compute)
              ltac:(by_compute) ltac:(by_compute))
    as (_ & Hin & _).
  unfold evaluate. rewrite Hin; by_compute.
Defined.

(** C3 at work, scenario S4 of the specification: three replicas want more, neighbour
    [b] is cached at 950 of 1000: the patch is 2. *)
Lemma direct_pressure_gate_witness :
  let env := world (GetOk (vertexA true 3 1 10 2)) 100 busy in
  patches (evaluate env pressed).2 = [2].
Proof.
  intros env.
  destruct (direct_pressure_gate minInt64 indefinite32 indefinite64 env "ns/p-a" pressed
              (vertexA true 3 1 10 2) pipelineP (collected (reach env pressed))
              (reach env pressed).2 12 edgeAB 950 1000
              ltac:(by_compute) ltac:(by_compute)
              ltac:(by_compute) ltac:(by_compute)
              ltac:(by_compute) ltac:(reflexivity)
              ltac:(by_compute) ltac:(by_compute)
              ltac:(by_compute))
    as (Hgt & _).
  apply Hgt; by_compute.
Defined.

(** C5 at work: two replicas, step 2, patched to 4. *)
Lemma step_law_witness :
  let env := world (GetOk (vertexA true 2 1 10 2)) 100 busy in
  4 ∈ patches (evaluate env fresh).2 ∧ Z.abs (4 - 2) <= 2.
Proof.
  intros env.
  assert (Hin : 4 ∈ patches (evaluate env fresh).2) by by_compute.
  split; [exact Hin|].
  exact (step_law minInt64 indefinite32 indefinite64 env "ns/p-a" fresh "ns" "p-a"
           (vertexA true 2 1 10 2) ltac:(reflexivity) ltac:(reflexivity)
           ltac:(by_compute) ltac:(by_compute)
           ltac:(by_compute) ltac:(by_compute)
           4 Hin).
Defined.

End Witness.

Module Counterexample.
Import Sample.

(** Against C2 as written: three idle replicas, min 0, step 2: the patch
    is 1, not 0. *)
Lemma zero_scale_counterexample :
  ¬ zero_scale_claim minInt64 indefinite32 indefinite64
      (world (GetOk (vertexA false 3 0 10 2)) 100 idle) "ns/p-a" fresh.
Proof.
  intros H.
  destruct (upToDecision minInt64 indefinite64 (world (GetOk (vertexA false 3 0 10 2)) 100 idle)
              "ns/p-a" (start fresh)) as [[[[v pl] m]|o] w] eqn:E; [|by vm_compute in E].
  specialize (H v pl m w E).
  vm_compute in E. injection E as <- <- <- <-.
  specialize (H eq_refl eq_refl eq_refl).
  vm_compute in H. discriminate.
Qed.

(** Against C3 as written: one replica, below the minimum of 3, wants more while [b] is under
    direct pressure: the patch is 4, although current is 1. *)
Lemma direct_pressure_counterexample :
  ¬ direct_pressure_claim minInt64 indefinite32 indefinite64
      (world (GetOk (vertexA true 1 3 10 2)) 100 busy) "ns/p-a" pressed.
Proof.
  intros H.
  destruct (upToDecision minInt64 indefinite64 (world (GetOk (vertexA true 1 3 10 2)) 100 busy)
              "ns/p-a" (start pressed)) as [[[[v pl] m]|o] w] eqn:E; [|by vm_compute in E].
  specialize (H v pl m w 4 edgeAB 950 1000 E).
  vm_compute in E. injection E as <- <- <- <-.
  destruct H as [_ H].
  - vm_compute. reflexivity.
  - vm_compute. reflexivity.
  - vm_compute. constructor.
  - reflexivity.
  - vm_compute. reflexivity.
  - vm_compute. reflexivity.
  - vm_compute. reflexivity.
  - specialize (H eq_refl). vm_compute in H. discriminate.
Qed.

(** Against C5 as written: two replicas, step 0, [b] under direct pressure: the patch is 1, one
    away from 2. *)
Lemma step_law_counterexample :
  ¬ step_law_claim minInt64 indefinite32 indefinite64
      (world (GetOk (vertexA true 2 1 10 0)) 100 busy) "ns/p-a" pressed.
Proof.
  intros H.
  specialize (H "ns"%string "p-a"%string (vertexA true 2 1 10 0) eq_refl eq_refl).
  assert (Hle : Z.abs (1 - 2) <= 0).
  { apply H.
    - vm_compute. split; discriminate.
    - vm_compute. constructor. }
  vm_compute in Hle. by apply Hle.
Qed.

End Counterexample.

(** * Further properties *)

(** ** Keys *)

Lemma Split_not_nil s : Split s ≠ [].
Proof.
  destruct s as [|c rest]; simpl; [done|].
  destruct (Ascii.eqb c "/"); [done|]. by destruct (Split rest).
Qed.

Lemma Split_single s b : Split s = [b] ↔ s = b ∧ noSlash b = true.
Proof.
  revert b. induction s as [|c rest IH]; intros b; simpl.
  - split; [by intros [= <-]|by intros [<- _]].
  - destruct (Ascii.eqb c "/") eqn:Ec.
    + split.
      * intros [= _ H]. by apply Split_not_nil in H.
      * intros [<- H]. simpl in H. by rewrite Ec in H.
    + destruct (Split rest) as [|hd tl] eqn:Es; [by apply Split_not_nil in Es|].
      split.
      * intros [= <- ->]. destruct (IH hd) as [[-> Hn] _]; [done|].
        simpl. by rewrite Ec.
      * intros [<- H]. simpl in H. rewrite Ec in H. simpl in H.
        destruct (IH rest) as [_ IH2]. specialize (IH2 (conj eq_refl H)).
        by injection IH2 as -> ->.
Qed.

Lemma Split_two key a b :
  Split key = [a; b] ↔ key = a +:+ "/" +:+ b ∧ noSlash a = true ∧ noSlash b = true.
Proof.
  revert a. induction key as [|c rest IH]; intros a; simpl.
  - split; [done|]. intros [H _]. by destruct a.
  - destruct (Ascii.eqb c "/") eqn:Ec.
    + apply Ascii.eqb_eq in Ec as ->. split.
      * intros [= <- H%Split_single]. destruct H as [-> H]. done.
      * intros (H & Ha & Hb). destruct a as [|c' a'].
        -- simpl in H. injection H as ->. f_equal. apply Split_single. done.
        -- simpl in H. injection H as <- _. by vm_compute in Ha.
    + destruct (Split rest) as [|hd tl] eqn:Es; [by apply Split_not_nil in Es|].
      split.
      * intros [= <- ->]. destruct (IH hd) as [(-> & Hh & Hb) _]; [done|].
        simpl. by rewrite Ec.
      * intros (H & Ha & Hb). destruct a as [|c' a'].
        -- simpl in H. injection H as -> _. by vm_compute in Ec.
        -- simpl in H. injection H as <- ->. simpl in Ha. rewrite Ec in Ha. simpl in Ha.
           destruct (IH a') as [_ IH2]. specialize (IH2 (conj eq_refl (conj Ha Hb))).
           by injection IH2 as -> ->.
Qed.

(** X1. A key splits into the namespace and the name of a vertex exactly
    when it is the vertex's key and neither part contains a slash. *)
Theorem Split_KeyOfVertex vertex key :
  Split key = [Namespace vertex; Name vertex] ↔
  key = KeyOfVertex vertex ∧
  noSlash (Namespace vertex) = true ∧ noSlash (Name vertex) = true.
Proof. apply Split_two. Qed.

(** ** More on the watch set *)

(** X2. Watching or unwatching one key changes the answer of [Contains] for
    that key only: after [StartWatching] it is contained, after
    [StopWatching] it is not, and every other key is as before. *)
Theorem Contains_after_Start_Stop k k' s :
  Contains k (StartWatching k' s) = (String.eqb k k' || Contains k s) ∧
  Contains k (StopWatching k' s) = (negb (String.eqb k k') && Contains k s).
Proof.
  unfold Contains, StartWatching, StopWatching.
  destruct (String.eqb k k') eqn:E.
  - apply String.eqb_eq in E as ->.
    destruct (vertexMap s !! k') eqn:Hk; simpl.
    + by rewrite Hk, lookup_delete_eq.
    + by rewrite lookup_insert_eq, Hk.
  - apply String.eqb_neq in E.
    destruct (vertexMap s !! k') eqn:Hk; simpl.
    + by rewrite lookup_delete_ne.
    + by rewrite lookup_insert_ne.
Qed.

Lemma filter_watch_keys (l : list (nat * string)) e k :
  (∀ a k', (a, k') ∈ l → a = e ↔ k' = k) →
  (filter (λ x, x.1 ≠ e) l).*2 = filter (λ x, x ≠ k) l.*2.
Proof.
  induction l as [|[a k'] l IH]; intros H; [done|].
  rewrite fmap_cons, !filter_cons. simpl.
  assert (Ha : a = e ↔ k' = k) by (apply H; left).
  assert (IH' : (filter (λ x, x.1 ≠ e) l).*2 = filter (λ x, x ≠ k) l.*2).
  { apply IH. intros ???. apply H. by right. }
  destruct (decide (a ≠ e)), (decide (k' ≠ k)); simpl; try done.
  - f_equal. exact IH'.
  - exfalso. destruct (decide (a = e)), (decide (k' = k)); tauto.
  - exfalso. destruct (decide (a = e)), (decide (k' = k)); tauto.
Qed.

Lemma filter_absent_key (l : list string) key :
  key ∉ l → filter (λ k, k ≠ key) l = l.
Proof.
  induction l as [|y l IH]; intros Hnot; [done|].
  apply not_elem_of_cons in Hnot as [Hy Hx]. rewrite filter_cons.
  destruct (decide (y ≠ key)) as [|Hn]; [by rewrite IH|].
  exfalso. apply Hn. congruence.
Qed.

(** X3. In a scaler whose map and list agree, [StopWatching] takes exactly
    the key out of the list and keeps the order of the others; the length
    drops by one if the key was watched and stays otherwise. *)
Theorem StopWatching_keeps_order key s :
  WatchSetInv s →
  watchKeys (StopWatching key s) = filter (λ k, k ≠ key) (watchKeys s) ∧
  Length (StopWatching key s) = Length s - (if Contains key s then 1 else 0).
Proof.
  intros Hinv. pose proof Hinv as [Hnd Hmap Hfresh].
  pose proof (WatchSet.Inv_keys_NoDup _ Hinv) as Hkeys.
  unfold StopWatching, Contains, Length, watchKeys in *.
  destruct (vertexMap s !! key) as [e|] eqn:Hk; simpl.
  - assert (Heq : (filter (λ x, x.1 ≠ e) (vertexList s)).*2
                  = filter (λ x, x ≠ key) (vertexList s).*2).
    { apply filter_watch_keys. intros a k' Hin. split.
      - intros ->. apply Hmap in Hk. eapply WatchSet.address_key_unique; eauto.
      - intros ->. apply Hmap in Hin. congruence. }
    split; [done|].
    rewrite <- (length_fmap snd), Heq.
    rewrite <- (length_fmap snd (vertexList s)).
    assert (Hin : key ∈ (vertexList s).*2).
    { apply Hmap in Hk. change key with ((e, key).2). by apply list_elem_of_fmap_2. }
    revert Hkeys Hin. generalize ((vertexList s).*2). clear.
    induction l as [|x l IH]; intros Hnd Hin; [by apply elem_of_nil in Hin|].
    apply NoDup_cons in Hnd as [Hx Hnd]. rewrite filter_cons.
    destruct (decide (x ≠ key)) as [Hne|Heq].
    + apply elem_of_cons in Hin as [->|Hin]; [done|]. simpl. specialize (IH Hnd Hin). lia.
    + assert (x = key) as -> by (destruct (decide (x = key)); tauto).
      rewrite filter_absent_key by done. simpl. lia.
  - split; [|lia].
    symmetry. clear Hkeys.
    assert (Hnot : key ∉ (vertexList s).*2).
    { intros [[a k'] [Heq Hin]]%list_elem_of_fmap. simpl in Heq. subst k'.
      apply Hmap in Hin. congruence. }
    by apply filter_absent_key.
Qed.

(** X4. In a scaler whose map and list agree, watching a key that is not
    watched and unwatching it again gives back the same map and the same
    list. *)
Theorem Start_then_Stop_restores key s :
  WatchSetInv s →
  Contains key s = false →
  vertexMap (StopWatching key (StartWatching key s)) = vertexMap s ∧
  vertexList (StopWatching key (StartWatching key s)) = vertexList s.
Proof.
  intros [Hnd Hmap Hfresh]. unfold Contains, StartWatching.
  destruct (vertexMap s !! key) eqn:Hk; [done|]. intros _.
  unfold StopWatching. simpl. rewrite lookup_insert_eq. simpl. split.
  - by rewrite delete_insert_eq, delete_id.
  - rewrite filter_app, filter_cons, filter_nil. simpl.
    destruct (decide (nextElem s ≠ nextElem s)); [done|]. rewrite app_nil_r.
    assert (Hall : ∀ x, x ∈ vertexList s → x.1 ≠ nextElem s).
    { intros [a k'] Hin. apply Hfresh in Hin. simpl. lia. }
    revert Hall. generalize (vertexList s). clear.
    induction l as [|x l IH]; intros Hall; [done|].
    rewrite filter_cons. destruct (decide (x.1 ≠ nextElem s)) as [|Hn].
    + rewrite IH; [done|]. intros ??. apply Hall. by right.
    + exfalso. apply Hn, Hall. by left.
Qed.

(** ** The dispatcher *)

(** X5. One [assign] sends the key at the front of the list, if there is
    one, and moves it to the back: the keys afterwards are the old keys
    without the front one, followed by the front one.  The map is untouched,
    so the same keys are contained; the length is the same; the keys are a
    permutation of the old ones; and a scaler whose map and list agree
    stays so. *)
Theorem assign_rotates s :
  (assign s).1 = head (watchKeys s) ∧
  watchKeys (assign s).2 = tail (watchKeys s) ++ option_list (head (watchKeys s)) ∧
  vertexMap (assign s).2 = vertexMap s ∧
  (∀ k, Contains k (assign s).2 = Contains k s) ∧
  Length (assign s).2 = Length s ∧
  watchKeys (assign s).2 ≡ₚ watchKeys s ∧
  (WatchSetInv s → WatchSetInv (assign s).2).
Proof.
  destruct s as [m l n o c1 c2]. unfold assign, watchKeys, Length, Contains. simpl.
  destruct l as [|[e key] rest]; simpl.
  { split_and!; done. }
  split_and!; try done.
  - by rewrite fmap_app.
  - rewrite length_app. simpl. lia.
  - rewrite fmap_app. simpl. by rewrite <- Permutation_cons_append.
  - intros [Hnd Hmap Hfresh]. simpl in *. split; simpl.
    + rewrite fmap_app. simpl. by rewrite <- Permutation_cons_append.
    + intros k a. rewrite Hmap. split.
      * intros [->|H]%elem_of_cons; apply elem_of_app; [right; by left|by left].
      * intros [H|H%list_elem_of_singleton]%elem_of_app; [by right|rewrite H; by left].
    + intros a k [H|H%list_elem_of_singleton]%elem_of_app; apply (Hfresh a k).
      * by right.
      * rewrite H. by left.
Qed.

Lemma dispatch_prefix l1 : ∀ l2 m n o c1 c2,
  dispatch (length l1)
    {| vertexMap := m; vertexList := l1 ++ l2; nextElem := n; opts := o;
       vertexMetricsCache := c1; daemonClientsCache := c2 |}
  = (l1.*2,
     {| vertexMap := m; vertexList := l2 ++ l1; nextElem := n; opts := o;
        vertexMetricsCache := c1; daemonClientsCache := c2 |}).
Proof.
  induction l1 as [|[e k] l1 IH]; intros; simpl.
  - by rewrite app_nil_r.
  - unfold assign. simpl.
    rewrite <- (app_assoc l1 l2 [(e, k)]). rewrite IH.
    by rewrite <- app_assoc.
Qed.

(** X6. As many turns of the dispatcher as keys are watched send every
    watched key once, in list order, and leave the scaler as it was. *)
Theorem dispatch_round s :
  dispatch (length (vertexList s)) s = (watchKeys s, s).
Proof.
  destruct s as [m l n o c1 c2]. unfold watchKeys. simpl.
  pose proof (dispatch_prefix l [] m n o c1 c2) as H.
  rewrite app_nil_r in H. by rewrite H.
Qed.


(** ** What an evaluation leaves behind *)

#[local] Instance sameWatch_preorder : PreOrder sameWatch.
Proof.
  split.
  - by intros s.
  - intros s1 s2 s3 (?&?&?&?) (?&?&?&?). unfold sameWatch. split_and!; congruence.
Qed.

#[local] Instance sameMetrics_preorder : PreOrder sameMetrics.
Proof.
  split.
  - by intros s k.
  - intros s1 s2 s3 H1 H2 k. by rewrite H2, H1.
Qed.

Lemma keeps_mret R `{!Reflexive R} {A} (a : A) : keeps R (mret a).
Proof. by intros w r w' [= <- <-]. Qed.

Lemma keeps_ret R `{!Reflexive R} {A} o : keeps R (@ret A o).
Proof. by intros w r w' [= <- <-]. Qed.

Lemma keeps_emit R `{!Reflexive R} e : keeps R (emit e).
Proof. by intros w r w' [= <- <-]. Qed.

Lemma keeps_getScaler R `{!Reflexive R} : keeps R getScaler.
Proof. by intros w r w' [= <- <-]. Qed.

Lemma keeps_update (R : Scaler → Scaler → Prop) f : (∀ s, R s (f s)) → keeps R (update f).
Proof. intros H w r w' [= <- <-]. apply H. Qed.

Lemma keeps_bind R `{!Transitive R} {A B} (m : Eval A) (f : A → Eval B) :
  keeps R m → (∀ a, keeps R (f a)) → keeps R (m ≫= f).
Proof.
  intros Hm Hf w r w'. unfold mbind, Eval_bind.
  destruct (m w) as [[a|o] w1] eqn:E; pose proof (Hm _ _ _ E) as H1.
  - intros E2. pose proof (Hf _ _ _ _ E2). by etrans.
  - by intros [= <- <-].
Qed.

Ltac keeps_step :=
  first
    [ apply keeps_mret; apply _ | apply keeps_ret; apply _
    | apply keeps_getScaler; apply _ | apply keeps_emit; apply _
    | apply keeps_bind; [apply _| |intros ?]
    | case_match ].

Lemma sameWatch_setVertexMetricsCache c s : sameWatch s (setVertexMetricsCache c s).
Proof. done. Qed.

Lemma sameWatch_setDaemonClientsCache c s : sameWatch s (setDaemonClientsCache c s).
Proof. done. Qed.

Lemma sameMetrics_setDaemonClientsCache c s : sameMetrics s (setDaemonClientsCache c s).
Proof. done. Qed.

Lemma overThreshold_ext threshold pl (c c' : lru.Cache Z) e :
  (∀ k, lru.Peek k c' = lru.Peek k c) →
  overThreshold threshold pl c' e = overThreshold threshold pl c e.
Proof. intros H. unfold overThreshold. by rewrite !H. Qed.

Lemma existsb_overThreshold_ext threshold pl (c c' : lru.Cache Z) (f : Edge → bool) edges :
  (∀ k, lru.Peek k c' = lru.Peek k c) →
  existsb (λ e, overThreshold threshold pl c' e && f e) edges
  = existsb (λ e, overThreshold threshold pl c e && f e) edges.
Proof.
  intros H. induction edges as [|e edges IH]; simpl; [done|].
  by rewrite IH, (overThreshold_ext _ _ _ _ _ H).
Qed.

(** The loop of [hasBackPressure] without its early exit and its cache
    refreshes: the flags are two searches over the edges, and the cache
    holds afterwards what it held before. *)
Lemma backPressureLoop_spec threshold pl vertex edges : ∀ cache direct downstream,
  (backPressureLoop threshold pl vertex edges cache direct downstream).1
  = (direct || existsb (λ e, overThreshold threshold pl cache e
                             && String.eqb (From e) (SpecName vertex)) edges,
     downstream || existsb (λ e, overThreshold threshold pl cache e && true) edges) ∧
  ∀ k, lru.Peek k (backPressureLoop threshold pl vertex edges cache direct downstream).2
       = lru.Peek k cache.
Proof.
  induction edges as [|e edges IH]; intros cache direct downstream; simpl.
  { by rewrite !orb_false_r. }
  destruct (lru.Get _ cache) as [pendingVal c1] eqn:E1.
  pose proof (Get_Peek (downstreamKey pl e +:+ "/pending") cache) as HP1.
  rewrite E1 in HP1. simpl in HP1.
  assert (Hc1 : ∀ k, lru.Peek k c1 = lru.Peek k cache).
  { intros k. pose proof (Peek_Get k (downstreamKey pl e +:+ "/pending") cache) as H.
    by rewrite E1 in H. }
  unfold overThreshold at 1 3. rewrite <- HP1.
  destruct pendingVal as [pending|]; simpl.
  2:{ destruct (IH c1 direct downstream) as [-> Hk].
      rewrite !(existsb_overThreshold_ext _ _ _ _ _ _ Hc1).
      split; [done|]. intros k. by rewrite Hk. }
  destruct (lru.Get _ c1) as [lengthVal c2] eqn:E2.
  pose proof (Get_Peek (downstreamKey pl e +:+ "/length") c1) as HP2.
  rewrite E2, Hc1 in HP2. simpl in HP2.
  assert (Hc2 : ∀ k, lru.Peek k c2 = lru.Peek k cache).
  { intros k. pose proof (Peek_Get k (downstreamKey pl e +:+ "/length") c1) as H.
    rewrite E2 in H. simpl in H. by rewrite H. }
  rewrite <- HP2.
  destruct lengthVal as [length|]; simpl.
  2:{ destruct (IH c2 direct downstream) as [-> Hk].
      rewrite !(existsb_overThreshold_ext _ _ _ _ _ _ Hc2).
      split; [done|]. intros k. by rewrite Hk. }
  destruct (PrimFloat.leb _ _); simpl.
  - destruct (String.eqb _ _); simpl.
    + rewrite !orb_true_r. done.
    + destruct (IH c2 direct true) as [-> Hk].
      rewrite !(existsb_overThreshold_ext _ _ _ _ _ _ Hc2).
      rewrite !orb_true_r. simpl. split; [done|]. intros k. by rewrite Hk.
  - destruct (IH c2 direct downstream) as [-> Hk].
    rewrite !(existsb_overThreshold_ext _ _ _ _ _ _ Hc2).
    split; [done|]. intros k. by rewrite Hk.
Qed.

Ltac run_world :=
  unfold mbind, Eval_bind, mret, Eval_ret, ret, emit, update, getScaler, stopWatching,
    metricsCacheAdd in *;
  simpl in *.

(** What one call of [hasBackPressure] answers and leaves behind. *)
Lemma hasBackPressure_run pl vertex w :
  let threshold := backPressureThreshold (opts (scaler w)) in
  let cache := vertexMetricsCache (scaler w) in
  let edges := GetDownstreamEdges pl (SpecName vertex) in
  ∃ w',
    hasBackPressure pl vertex w =
      (Next (existsb (λ e, overThreshold threshold pl cache e
                           && String.eqb (From e) (SpecName vertex)) edges,
             existsb (overThreshold threshold pl cache) edges), w') ∧
    events w' = events w ∧
    sameWatch (scaler w) (scaler w') ∧
    sameMetrics (scaler w) (scaler w') ∧
    daemonClientsCache (scaler w') = daemonClientsCache (scaler w).
Proof.
  intros threshold cache edges. unfold hasBackPressure. run_world.
  destruct (backPressureLoop_spec threshold pl vertex edges cache false false) as [Hflags Hpeek].
  fold threshold cache edges.
  destruct (backPressureLoop threshold pl vertex edges cache false false)
    as [[direct downstream] cache'].
  simpl in *. injection Hflags as -> ->. eexists. split.
  - f_equal. f_equal. f_equal. clear. induction edges as [|e edges IH]; simpl; [done|].
    by rewrite IH, andb_true_r.
  - by split_and!.
Qed.

(** X8. [hasBackPressure] reports direct pressure exactly when some
    downstream edge that starts at the vertex has its destination cached at
    or above the threshold, and downstream pressure exactly when some
    downstream edge has; it logs nothing, and the watch set and the content
    of the metrics cache are as before. *)
Theorem hasBackPressure_spec pl vertex w :
  let threshold := backPressureThreshold (opts (scaler w)) in
  let cache := vertexMetricsCache (scaler w) in
  let edges := GetDownstreamEdges pl (SpecName vertex) in
  ∃ w',
    hasBackPressure pl vertex w =
      (Next (existsb (λ e, overThreshold threshold pl cache e
                           && String.eqb (From e) (SpecName vertex)) edges,
             existsb (overThreshold threshold pl cache) edges), w') ∧
    events w' = events w ∧
    sameWatch (scaler w) (scaler w') ∧
    sameMetrics (scaler w) (scaler w') ∧
    daemonClientsCache (scaler w') = daemonClientsCache (scaler w).
Proof. apply hasBackPressure_run. Qed.

Lemma raises_mret P {A} (a : A) : raises P (mret a).
Proof. by intros w o w'. Qed.

Lemma raises_ret (P : Outcome → Prop) {A} o : P o → raises P (@ret A o).
Proof. by intros H w o' w' [= <- <-]. Qed.

Lemma raises_emit P e : raises P (emit e).
Proof. by intros w o w'. Qed.

Lemma raises_getScaler P : raises P getScaler.
Proof. by intros w o w'. Qed.

Lemma raises_update P f : raises P (update f).
Proof. by intros w o w'. Qed.

Lemma raises_bind P {A B} (m : Eval A) (f : A → Eval B) :
  raises P m → (∀ a, raises P (f a)) → raises P (m ≫= f).
Proof.
  intros Hm Hf w o w'. unfold mbind, Eval_bind.
  destruct (m w) as [[a|o1] w1] eqn:E.
  - apply Hf.
  - intros [= <- <-]. by eapply Hm.
Qed.

Ltac raises_step :=
  first
    [ apply raises_mret | apply raises_emit | apply raises_update | apply raises_getScaler
    | apply raises_ret
    | apply raises_bind; [|intros ?]
    | case_match ].

Section Evaluation.

Variable PendingNotAvailable : Z.
Variables undef32 undef64 : float → Z.
Variable env : Env.

(** *** The parts of an evaluation, one by one *)

Lemma patchVertexReplicas_run vertex n w :
  patchVertexReplicas env vertex n w =
    (Next (patchOutcome (clientPatch env (setSpecReplicas vertex n))),
     {| scaler := scaler w;
        events := events w ++ [ClientPatch (Namespace vertex) (Name vertex) n] |}).
Proof. unfold patchVertexReplicas. run_world. by destruct (clientPatch env _). Qed.

(** The preconditions end the evaluation with nil or one of three errors;
    the scaler is as before or, with nil, has stopped watching the key. *)
Lemma preconditions_Return key w o w' :
  preconditions env key w = (Return o, w') →
  (o = ReturnNil ∨ o = ReturnErr ErrInvalidKey ∨
   o = ReturnErr ErrQueryVertex ∨ o = ReturnErr ErrQueryPipeline) ∧
  (scaler w' = scaler w ∨ scaler w' = StopWatching key (scaler w) ∧ o = ReturnNil).
Proof.
  unfold preconditions. intros H. run_world.
  repeat case_match; simplify_eq/=; split; auto.
Qed.

(** What the preconditions have checked when they let the evaluation
    through. *)
Lemma preconditions_guards key w vertex pl w' :
  preconditions env key w = (Next (vertex, pl), w') →
  DeletionTimestampIsZero vertex = true ∧
  Scalable vertex = true ∧
  PrimFloat.ltb (sinceCooldown env vertex) (Num.float64 (GetCooldownSeconds vertex)) = false ∧
  StatusPhase vertex = VertexPhaseRunning ∧
  PlDeletionTimestampIsZero pl = true ∧
  GetDesiredPhase pl = PipelinePhaseRunning.
Proof.
  unfold preconditions. intros H. run_world.
  repeat case_match; simplify_eq/=.
  repeat match goal with
         | H : negb _ = false |- _ => apply negb_false_iff in H
         | H : String.eqb _ _ = true |- _ => apply String.eqb_eq in H
         end.
  by split_and!.
Qed.

Lemma zeroReplicaPeek_run vertex w o w' :
  zeroReplicaPeek env vertex w = (Return o, w') →
  scaler w' = scaler w ∧
  (events w' = events w ∧ o = ReturnNil ∨
   events w' = events w ++ [ClientPatch (Namespace vertex) (Name vertex) 1] ∧
   o = patchOutcome (clientPatch env (setSpecReplicas vertex 1))).
Proof.
  unfold zeroReplicaPeek.
  destruct (_ =? 0); [|done].
  destruct (PrimFloat.leb _ _); [|intros [= <- <-]; auto].
  unfold mbind, Eval_bind. rewrite patchVertexReplicas_run.
  intros [= <- <-]. auto.
Qed.

Lemma raises_daemonClientOf P pl :
  P Panic → P (ReturnErr ErrDaemonClient) → raises P (daemonClientOf env pl).
Proof. intros ??. unfold daemonClientOf. repeat raises_step; done. Qed.

Lemma raises_readBuffers P dc pl vertex names :
  P (ReturnErr ErrReadBuffer) → P (ReturnErr ErrInvalidBuffer) →
  ∀ l1 l2 t1 t2, raises P (readBuffers undef64 env dc pl vertex names l1 l2 t1 t2).
Proof.
  intros ??. induction names as [|n names IH]; intros; simpl; repeat raises_step; done.
Qed.

(** The metrics part ends the evaluation with nil, a panic (no client
    cache) or one of four errors. *)
Lemma raises_collect key vertex pl :
  raises (λ o, o = ReturnNil ∨ o = Panic ∨ o = ReturnErr ErrDaemonClient ∨
               o = ReturnErr ErrVertexMetrics ∨ o = ReturnErr ErrReadBuffer ∨
               o = ReturnErr ErrInvalidBuffer)
    (collect PendingNotAvailable undef64 env key vertex pl).
Proof.
  unfold collect, metricsCacheAdd.
  repeat first [apply raises_daemonClientOf | apply raises_readBuffers | raises_step]; auto 10.
Qed.

(** The decision part issues no patch, or one as its last step and answers
    what the patch answers; it leaves the watch set and the content of the
    metrics cache as they are. *)
Lemma scaleDecision_run key vertex pl m w r w' :
  scaleDecision undef32 env key vertex pl m w = (r, w') →
  sameWatch (scaler w) (scaler w') ∧
  sameMetrics (scaler w) (scaler w') ∧
  daemonClientsCache (scaler w') = daemonClientsCache (scaler w) ∧
  (events w' = events w ∧
   (r = Next ReturnNil ∨ r = Return Panic ∧ unclampedDesired undef32 vertex m = None) ∨
   ∃ n, events w' = events w ++ [ClientPatch (Namespace vertex) (Name vertex) n] ∧
        r = Next (patchOutcome (clientPatch env (setSpecReplicas vertex n)))).
Proof.
  unfold scaleDecision.
  destruct (unclampedDesired undef32 vertex m) as [desired|];
    [|intros [= <- <-]; split_and!; try done; auto].
  cbv zeta.
  destruct (_ || _).
  { rewrite patchVertexReplicas_run. intros [= <- <-]. simpl. split_and!; try done; eauto. }
  destruct (_ <? _).
  { rewrite patchVertexReplicas_run. intros [= <- <-]. simpl. split_and!; try done; eauto. }
  destruct (_ >? _); [|intros [= <- <-]; split_and!; try done; auto].
  unfold mbind at 1, Eval_bind at 1.
  destruct (hasBackPressure_run pl vertex w) as (w1 & -> & Hev & HW & HM & HD).
  rewrite <- Hev, <- HD.
  destruct (existsb _ _); [destruct (_ >? 1)|destruct (existsb _ _)];
    rewrite ?patchVertexReplicas_run; intros [= <- <-]; simpl; split_and!; try done; eauto.
Qed.

Lemma keeps_daemonClientOf R `{!PreOrder R} pl :
  (∀ c s, R s (setDaemonClientsCache c s)) → keeps R (daemonClientOf env pl).
Proof.
  intros HR. unfold daemonClientOf.
  repeat first [apply keeps_update; intros; apply HR | keeps_step].
Qed.

Lemma keeps_readBuffers R `{!PreOrder R} dc pl vertex names : ∀ l1 l2 t1 t2,
  keeps R (readBuffers undef64 env dc pl vertex names l1 l2 t1 t2).
Proof.
  induction names as [|n names IH]; intros; simpl; repeat keeps_step. apply IH.
Qed.

Lemma keeps_collect key vertex pl :
  keeps sameWatch (collect PendingNotAvailable undef64 env key vertex pl).
Proof.
  unfold collect, metricsCacheAdd.
  repeat first
    [ apply keeps_daemonClientOf; [apply _|apply sameWatch_setDaemonClientsCache]
    | apply keeps_readBuffers; apply _
    | apply keeps_update; intros; apply sameWatch_setVertexMetricsCache
    | keeps_step ].
Qed.

(** *** An evaluation as a whole *)

(** Where an evaluation ends: in the preconditions, in the zero-replica
    test, in the metrics part, or with its decision. *)
Lemma evaluation_cases key s :
  ∃ o w,
    scaleOneVertex PendingNotAvailable undef32 undef64 env key s = (o, scaler w, events w) ∧
    (preconditions env key (start s) = (Return o, w) ∨
     ∃ vertex pl w1,
       preconditions env key (start s) = (Next (vertex, pl), w1) ∧
       (zeroReplicaPeek env vertex w1 = (Return o, w) ∨
        collect PendingNotAvailable undef64 env key vertex pl w1 = (Return o, w) ∨
        ∃ m w2 r,
          collect PendingNotAvailable undef64 env key vertex pl w1 = (Next m, w2) ∧
          scaleDecision undef32 env key vertex pl m w2 = (r, w) ∧
          (r = Next o ∨ r = Return o))).
Proof.
  unfold scaleOneVertex, scaleOneVertexBody, upToDecision.
  unfold mbind at 1 2, Eval_bind at 1 2.
  destruct (preconditions env key (start s)) as [[[vertex pl]|o] w1] eqn:Hpre.
  2:{ exists o, w1. auto. }
  unfold mbind at 1, Eval_bind at 1.
  destruct (zeroReplicaPeek env vertex w1) as [[[]|o] w2] eqn:Hpeek.
  2:{ exists o, w2. split; [done|]. right. exists vertex, pl, w1. auto. }
  apply zeroReplicaPeek_Next in Hpeek as [_ ->].
  unfold mbind at 1, Eval_bind at 1.
  destruct (collect _ _ _ _ _ _ w1) as [[m|o] w3] eqn:Hcol.
  2:{ exists o, w3. split; [done|]. right. exists vertex, pl, w1. auto. }
  unfold mret at 1, Eval_ret at 1.
  destruct (scaleDecision undef32 env key vertex pl m w3) as [[o|o] w4] eqn:Hdec;
    exists o, w4; (split; [done|]); right; exists vertex, pl, w1; split; [done| |done|];
    right; right; exists m, w3; eauto.
Qed.

Lemma no_patch_in (P : Event → bool) t :
  (∀ e, P e = true → isPatch e = false) → forallb P t = true → patches t = [].
Proof.
  intros HP Ht. apply patches_none. rewrite forallb_forall in *.
  intros e He. apply Ht, HP in He. by rewrite He.
Qed.

Lemma gets_no_patch e : isClientGet e = true → isPatch e = false.
Proof. by destruct e. Qed.

Lemma daemon_no_patch e : isDaemonCall e = true → isPatch e = false.
Proof. by destruct e. Qed.

Lemma gets_no_daemon t : forallb isClientGet t = true → daemonCalls t = [].
Proof.
  intros Ht. apply daemonCalls_none. rewrite forallb_forall in *.
  intros e He. apply Ht in He. by destruct e.
Qed.

(** X9. A key that does not split into exactly two parts at its slashes
    is refused with the invalid-key error before anything is asked of the
    cluster, and the scaler is left as it is. *)
Theorem invalid_key_rejected key s :
  length (Split key) ≠ 2%nat →
  scaleOneVertex PendingNotAvailable undef32 undef64 env key s
  = (ReturnErr ErrInvalidKey, s, []).
Proof.
  intros H. unfold scaleOneVertex, scaleOneVertexBody, upToDecision, preconditions, start.
  by destruct (Split key) as [|a [|b [|c l]]].
Qed.

(** X10. An evaluation sends at most one patch.  If it sends one, the
    patch is the last call it makes, it goes to the vertex that was fetched
    for the key, and the evaluation returns the patch error exactly when the
    cluster refused the patch for another reason than not-found; if it
    sends none, it does not return the patch error. *)
Theorem patch_comes_last key s :
  ∃ o s' t,
    scaleOneVertex PendingNotAvailable undef32 undef64 env key s = (o, s', t) ∧
    (patches t = [] ∧ o ≠ ReturnErr ErrPatch ∨
     ∃ namespace name vertex t' n,
       Split key = [namespace; name] ∧
       clientGet_vertex env namespace name = GetOk vertex ∧
       t = t' ++ [ClientPatch (Namespace vertex) (Name vertex) n] ∧
       patches t' = [] ∧
       o = patchOutcome (clientPatch env (setSpecReplicas vertex n))).
Proof.
  destruct (evaluation_cases key s) as (o & w & -> & Hcases).
  exists o, (scaler w), (events w). split; [done|].
  destruct Hcases as [Hpre|(vertex & pl & w1 & Hpre & Hcases)].
  { left. destruct (only_preconditions _ _ _ _ _ Hpre) as (t1 & -> & HP1).
    apply preconditions_Return in Hpre as [Ho _]. split.
    - simpl. by apply (no_patch_in _ _ gets_no_patch).
    - destruct Ho as [-> |[-> |[-> | ->]]]; done. }
  destruct (only_preconditions _ _ _ _ _ Hpre) as (t1 & Ht1 & HP1).
  apply (no_patch_in _ _ gets_no_patch) in HP1. simpl in Ht1.
  destruct (preconditions_Next _ _ _ _ _ _ Hpre) as (namespace & name & Hk & Hv & _).
  destruct Hcases as [Hpeek|[Hcol|(m & w2 & r & Hcol & Hdec & Hr)]].
  - apply zeroReplicaPeek_run in Hpeek as [_ [[-> ->]|[-> ->]]].
    + left. by rewrite Ht1.
    + right. exists namespace, name, vertex, (events w1), 1. split_and!; try done.
      by rewrite Ht1.
  - left. destruct (only_collect _ _ _ _ _ _ _ _ _ Hcol) as (t2 & -> & HP2).
    apply (no_patch_in _ _ daemon_no_patch) in HP2.
    apply raises_collect in Hcol. split.
    + by rewrite patches_app, Ht1, HP1, HP2.
    + destruct Hcol as [-> |[-> |[-> |[-> |[-> | ->]]]]]; done.
  - destruct (only_collect _ _ _ _ _ _ _ _ _ Hcol) as (t2 & Ht2 & HP2).
    apply (no_patch_in _ _ daemon_no_patch) in HP2.
    assert (Hnone : patches (events w2) = []) by by rewrite Ht2, patches_app, Ht1, HP1, HP2.
    apply scaleDecision_run in Hdec as (_ & _ & _ & [[-> Hr']|(n & -> & ->)]).
    + left. split; [done|]. destruct Hr' as [-> | [-> _]], Hr as [Hr|Hr]; by simplify_eq.
    + right. exists namespace, name, vertex, (events w2), n.
      destruct Hr as [Hr|Hr]; by simplify_eq.
Qed.

(** X11. An evaluation never adds a key to the watch set and never
    changes the options.  It takes at most its own key out, and when it
    does, the evaluation has only read from the cluster and returns nil. *)
Theorem evaluation_watch_frame key s :
  ∃ o s' t,
    scaleOneVertex PendingNotAvailable undef32 undef64 env key s = (o, s', t) ∧
    (sameWatch s s' ∨
     s' = StopWatching key s ∧ o = ReturnNil ∧ forallb isClientGet t = true).
Proof.
  destruct (evaluation_cases key s) as (o & w & -> & Hcases).
  exists o, (scaler w), (events w). split; [done|].
  destruct Hcases as [Hpre|(vertex & pl & w1 & Hpre & Hcases)].
  { destruct (only_preconditions _ _ _ _ _ Hpre) as (t1 & -> & HP1).
    apply preconditions_Return in Hpre as [_ [-> |[-> ->]]]; [by left|by right]. }
  destruct (preconditions_Next _ _ _ _ _ _ Hpre) as (_ & _ & _ & _ & _ & _ & Hs & _).
  simpl in Hs. left. rewrite <- Hs.
  destruct Hcases as [Hpeek|[Hcol|(m & w2 & r & Hcol & Hdec & Hr)]].
  - apply zeroReplicaPeek_run in Hpeek as [-> _]. done.
  - by apply keeps_collect in Hcol.
  - apply keeps_collect in Hcol. apply scaleDecision_run in Hdec as [Hdec _]. by etrans.
Qed.

(** X12. An evaluation patches or calls the daemon only for a vertex that
    was fetched, is not being deleted, is scalable, is out of its cooldown
    and in phase Running, with status replicas equal to the replicas of its
    spec, and whose pipeline was fetched, is not being deleted and is
    desired Running. *)
Theorem calls_need_guards key s :
  let t := (scaleOneVertex PendingNotAvailable undef32 undef64 env key s).2 in
  patches t ≠ [] ∨ daemonCalls t ≠ [] →
  ∃ namespace name vertex pl,
    Split key = [namespace; name] ∧
    clientGet_vertex env namespace name = GetOk vertex ∧
    clientGet_pipeline env namespace (SpecPipelineName vertex) = GetOk pl ∧
    DeletionTimestampIsZero vertex = true ∧
    Scalable vertex = true ∧
    PrimFloat.ltb (sinceCooldown env vertex) (Num.float64 (GetCooldownSeconds vertex)) = false ∧
    StatusPhase vertex = VertexPhaseRunning ∧
    StatusReplicas vertex = GetReplicas vertex ∧
    PlDeletionTimestampIsZero pl = true ∧
    GetDesiredPhase pl = PipelinePhaseRunning.
Proof.
  destruct (evaluation_cases key s) as (o & w & -> & Hcases). simpl.
  destruct Hcases as [Hpre|(vertex & pl & w1 & Hpre & _)].
  { destruct (only_preconditions _ _ _ _ _ Hpre) as (t1 & -> & HP1). simpl.
    rewrite (no_patch_in _ _ gets_no_patch HP1), (gets_no_daemon _ HP1). by intros [?|?]. }
  intros _.
  destruct (preconditions_Next _ _ _ _ _ _ Hpre) as (namespace & name & ? & ? & ? & ? & _).
  destruct (preconditions_guards _ _ _ _ _ Hpre) as (? & ? & ? & ? & ? & ?).
  exists namespace, name, vertex, pl. by split_and!.
Qed.

(** *** Vertices and pipelines that are not to be scaled *)

(** X13. A vertex that is being deleted or is not scalable is taken out of
    the watch set: the evaluation fetches the vertex, asks nothing else,
    and returns nil. *)
Theorem doomed_vertex_unwatched key namespace name vertex s :
  Split key = [namespace; name] →
  clientGet_vertex env namespace name = GetOk vertex →
  DeletionTimestampIsZero vertex = false ∨ Scalable vertex = false →
  scaleOneVertex PendingNotAvailable undef32 undef64 env key s
  = (ReturnNil, StopWatching key s, [ClientGetVertex namespace name]).
Proof.
  intros Hkey Hget Hdoomed.
  unfold scaleOneVertex, scaleOneVertexBody, upToDecision, preconditions, start.
  rewrite Hkey. run_world. rewrite Hget.
  destruct Hdoomed as [-> | Hs]; [done|].
  rewrite Hs. by destruct (DeletionTimestampIsZero vertex).
Qed.

(** X14. When the vertex passes its own checks but its pipeline is not
    found or is being deleted, the key is taken out of the watch set and
    the evaluation returns nil after the two reads. *)
Theorem pipeline_gone_unwatched key namespace name vertex s :
  Split key = [namespace; name] →
  clientGet_vertex env namespace name = GetOk vertex →
  DeletionTimestampIsZero vertex = true →
  Scalable vertex = true →
  PrimFloat.ltb (sinceCooldown env vertex) (Num.float64 (GetCooldownSeconds vertex)) = false →
  StatusPhase vertex = VertexPhaseRunning →
  clientGet_pipeline env namespace (SpecPipelineName vertex) = GetNotFound ∨
  (∃ pl, clientGet_pipeline env namespace (SpecPipelineName vertex) = GetOk pl ∧
         PlDeletionTimestampIsZero pl = false) →
  scaleOneVertex PendingNotAvailable undef32 undef64 env key s
  = (ReturnNil, StopWatching key s,
     [ClientGetVertex namespace name; ClientGetPipeline namespace (SpecPipelineName vertex)]).
Proof.
  intros Hkey Hget Hdel Hsc Hcool Hphase Hgone.
  unfold scaleOneVertex, scaleOneVertexBody, upToDecision, preconditions, start.
  rewrite Hkey. run_world. rewrite Hget, Hdel, Hsc, Hcool, Hphase. simpl.
  destruct Hgone as [-> | (pl & -> & Hpl)]; [done|]. by rewrite Hpl.
Qed.


(** *** The metrics part *)

#[local] Instance sameMetricsCache_preorder : PreOrder sameMetricsCache.
Proof.
  split.
  - by intros s.
  - intros s1 s2 s3 H1 H2. unfold sameMetricsCache in *. congruence.
Qed.

(** The loop over the partitions gives up at the first partition without
    a usable signal; otherwise it lists their rates and pending counts in
    order and sums them up. *)
Lemma aggregate_spec vms : ∀ rates pendings tr tp,
  aggregate PendingNotAvailable vms rates pendings tr tp =
  if existsb (signalMissing PendingNotAvailable) vms then None
  else Some (rates ++ (rateOf <$> vms), pendings ++ (pendingOf <$> vms),
             foldl PrimFloat.add tr (rateOf <$> vms),
             foldl (λ a x, Num.int64 (a + x)) tp (pendingOf <$> vms)).
Proof.
  induction vms as [|m vms IH]; intros; simpl.
  { by rewrite !app_nil_r. }
  assert (Hr : ∀ rate, ProcessingRates m !! "default"%string = Some rate → rateOf m = rate).
  { intros rate H. unfold rateOf. by rewrite H. }
  assert (Hp : ∀ pending, Pendings m !! "default"%string = Some pending → pendingOf m = pending).
  { intros pending H. unfold pendingOf. by rewrite H. }
  unfold signalMissing at 1.
  destruct (ProcessingRates m !! "default"%string) as [rate|]; [|done].
  rewrite (Hr rate eq_refl).
  destruct (PrimFloat.ltb rate PrimFloat.zero); [done|]. simpl.
  destruct (Pendings m !! "default"%string) as [pending|]; [|done].
  rewrite (Hp pending eq_refl).
  destruct (_ || _); [done|]. simpl.
  rewrite IH. by rewrite <- !app_assoc.
Qed.

Lemma signal_present vms :
  existsb (signalMissing PendingNotAvailable) vms = false →
  Forall (λ m, PrimFloat.ltb (rateOf m) PrimFloat.zero = false ∧
               0 <= pendingOf m ∧ pendingOf m ≠ PendingNotAvailable) vms.
Proof.
  induction vms as [|m vms IH]; simpl; [done|].
  intros [Hm Hrest]%orb_false_iff. constructor; [|by apply IH].
  revert Hm. unfold signalMissing, rateOf, pendingOf.
  destruct (ProcessingRates m !! "default"%string) as [rate|]; [|done].
  intros [Hrate Hm]%orb_false_iff.
  destruct (Pendings m !! "default"%string) as [pending|]; [|done].
  apply orb_false_iff in Hm as [Hneg Hna]. simpl.
  apply Z.ltb_ge in Hneg. apply Z.eqb_neq in Hna. done.
Qed.

Lemma signal_entries vms :
  existsb (signalMissing PendingNotAvailable) vms = false →
  Forall (λ m, is_Some (ProcessingRates m !! "default"%string) ∧
               is_Some (Pendings m !! "default"%string)) vms.
Proof.
  induction vms as [|m vms IH]; simpl; [done|].
  intros [Hm Hrest]%orb_false_iff. constructor; [|by apply IH].
  revert Hm. unfold signalMissing.
  destruct (ProcessingRates m !! "default"%string) as [rate|]; [|done].
  intros [_ Hm]%orb_false_iff.
  destruct (Pendings m !! "default"%string) as [pending|]; [|done].
  split; by eexists.
Qed.

(** The loop over the owned buffers appends one entry per buffer to each
    list and adds the entries to the totals; the scaler is not touched. *)
Lemma readBuffers_Next dc pl vertex names : ∀ l1 l2 t1 t2 w r w',
  readBuffers undef64 env dc pl vertex names l1 l2 t1 t2 w = (Next r, w') →
  scaler w' = scaler w ∧
  ∃ a1 a2,
    r = (l1 ++ a1, l2 ++ a2,
         foldl (λ a x, Num.int64 (a + x)) t1 a1, foldl (λ a x, Num.int64 (a + x)) t2 a2) ∧
    length a1 = length names ∧ length a2 = length names.
Proof.
  induction names as [|n names IH]; intros l1 l2 t1 t2 w r w'; simpl.
  { intros [= <- <-]. split; [done|]. exists [], []. by rewrite !app_nil_r. }
  run_world.
  destruct (daemonGetPipelineBuffer env dc (PlName pl) n) as [bInfo|]; [|done].
  destruct (BufferLength bInfo) as [bufferLength|]; [|done].
  destruct (BufferUsageLimit bInfo) as [usageLimit|]; [|done].
  intros (Hs & a1 & a2 & -> & H1 & H2)%IH. split; [done|].
  eexists (_ :: a1), (_ :: a2). rewrite <- !app_assoc. simpl. by rewrite H1, H2.
Qed.

Lemma sameMetricsCache_setDaemonClientsCache c s :
  sameMetricsCache s (setDaemonClientsCache c s).
Proof. done. Qed.

(** What the metrics part has done when it hands over to the decision. *)
Lemma collect_Next key vertex pl w m w' :
  collect PendingNotAvailable undef64 env key vertex pl w = (Next m, w') →
  ∃ dc w1 vMetrics,
    daemonClientOf env pl w = (Next dc, w1) ∧
    daemonGetVertexMetrics env dc (PlName pl) (SpecName vertex) = Some vMetrics ∧
    existsb (signalMissing PendingNotAvailable) vMetrics = false ∧
    partitionRates m = rateOf <$> vMetrics ∧
    partitionPending m = pendingOf <$> vMetrics ∧
    totalRate m = sumFloat (partitionRates m) ∧
    totalPending m = sumInt64 (partitionPending m) ∧
    length (partitionBufferLengths m)
      = (if IsASource vertex then 0%nat else length (OwnedBuffers vertex)) ∧
    length (partitionAvailableBufferLengths m)
      = (if IsASource vertex then 0%nat else length (OwnedBuffers vertex)) ∧
    vertexMetricsCache (scaler w') =
      (let c := (lru.Add (key +:+ "/pending") (totalPending m)
                   (vertexMetricsCache (scaler w))).1 in
       if IsASource vertex then c
       else (lru.Add (key +:+ "/length") (sumInt64 (partitionBufferLengths m)) c).1).
Proof.
  unfold collect. unfold mbind at 1, Eval_bind at 1.
  destruct (daemonClientOf env pl w) as [[dc|o] w1] eqn:Hdc; [|done].
  assert (Hc1 : sameMetricsCache (scaler w) (scaler w1)).
  { eapply (keeps_daemonClientOf sameMetricsCache); [|done].
    apply sameMetricsCache_setDaemonClientsCache. }
  unfold sameMetricsCache in Hc1.
  unfold mbind at 1, Eval_bind at 1, emit at 1.
  destruct (daemonGetVertexMetrics env dc (PlName pl) (SpecName vertex)) as [vMetrics|] eqn:Hvm;
    [|done].
  rewrite aggregate_spec.
  destruct (existsb (signalMissing PendingNotAvailable) vMetrics) eqn:Hsig; [done|].
  run_world.
  destruct (IsASource vertex) eqn:Hsrc; simpl.
  - intros [= <- <-]. simpl.
    exists dc, w1, vMetrics. rewrite Hc1. by split_and!.
  - match goal with |- context [readBuffers _ _ _ _ _ _ _ _ _ _ ?w0] =>
      destruct (readBuffers undef64 env dc pl vertex (OwnedBuffers vertex) [] [] 0 0 w0)
        as [[r|o] w2] eqn:Hrb end; [|done].
    apply readBuffers_Next in Hrb as (Hs & a1 & a2 & -> & H1 & H2). simpl in Hs.
    intros [= <- <-]. simpl.
    exists dc, w1, vMetrics. rewrite Hs. simpl. rewrite Hc1. by split_and!.
Qed.

(** X16. When the metrics part hands over to the decision, the daemon has
    answered with a signal for every partition: every partition has a rate
    and a pending count under "default"; the rates and the pending counts
    handed over are those of the partitions, in order and of equal number;
    no rate is negative, no pending count is negative or the not-available
    mark; the totals are their sums; and a vertex that reads buffers comes
    with one length and one target per owned buffer, a source with none. *)
Theorem collect_hands_over key vertex pl w m w' :
  collect PendingNotAvailable undef64 env key vertex pl w = (Next m, w') →
  (∃ dc vMetrics,
     daemonGetVertexMetrics env dc (PlName pl) (SpecName vertex) = Some vMetrics ∧
     Forall (λ p, is_Some (ProcessingRates p !! "default"%string) ∧
                  is_Some (Pendings p !! "default"%string)) vMetrics ∧
     partitionRates m = rateOf <$> vMetrics ∧
     partitionPending m = pendingOf <$> vMetrics) ∧
  length (partitionRates m) = length (partitionPending m) ∧
  Forall (λ rate, PrimFloat.ltb rate PrimFloat.zero = false) (partitionRates m) ∧
  Forall (λ pending, 0 <= pending ∧ pending ≠ PendingNotAvailable) (partitionPending m) ∧
  totalRate m = sumFloat (partitionRates m) ∧
  totalPending m = sumInt64 (partitionPending m) ∧
  length (partitionBufferLengths m)
    = (if IsASource vertex then 0%nat else length (OwnedBuffers vertex)) ∧
  length (partitionAvailableBufferLengths m)
    = (if IsASource vertex then 0%nat else length (OwnedBuffers vertex)).
Proof.
  intros (dc & w1 & vMetrics & _ & Hvm & Hsig & Hr & Hp & Htr & Htp & Hl1 & Hl2 & _)%collect_Next.
  pose proof (signal_entries _ Hsig) as Hentries.
  apply signal_present in Hsig.
  split_and!; try done.
  - by exists dc, vMetrics.
  - by rewrite Hr, Hp, !length_fmap.
  - rewrite Hr. apply Forall_fmap. eapply Forall_impl; [exact Hsig|]. by intros ? (? & _).
  - rewrite Hp. apply Forall_fmap. eapply Forall_impl; [exact Hsig|]. by intros ? (_ & ? & ?).
Qed.

Lemma only_quiet_daemonClientOf pl :
  only (λ e, isDaemonCall e && negb (isBufferRead e)) (daemonClientOf env pl).
Proof. unfold daemonClientOf. repeat only_step. Qed.

Lemma StopWatching_metrics key s :
  vertexMetricsCache (StopWatching key s) = vertexMetricsCache s.
Proof. unfold StopWatching. by destruct (vertexMap s !! key). Qed.

(** With a partition that lacks a signal the metrics part ends the
    evaluation before it writes to the metrics cache or reads a buffer. *)
Lemma collect_missing_signal key vertex pl w r w' :
  (∀ dc p v vMetrics, daemonGetVertexMetrics env dc p v = Some vMetrics →
     existsb (signalMissing PendingNotAvailable) vMetrics = true) →
  collect PendingNotAvailable undef64 env key vertex pl w = (r, w') →
  (∃ o, r = Return o) ∧
  sameMetricsCache (scaler w) (scaler w') ∧
  ∃ t, events w' = events w ++ t ∧
       forallb (λ e, isDaemonCall e && negb (isBufferRead e)) t = true.
Proof.
  intros Hmiss. unfold collect. unfold mbind at 1, Eval_bind at 1.
  destruct (daemonClientOf env pl w) as [[dc|o] w1] eqn:Hdc.
  2:{ intros [= <- <-]. split_and!; [by eexists| |by eapply only_quiet_daemonClientOf].
      eapply (keeps_daemonClientOf sameMetricsCache); [|done].
      apply sameMetricsCache_setDaemonClientsCache. }
  assert (Hc1 : sameMetricsCache (scaler w) (scaler w1)).
  { eapply (keeps_daemonClientOf sameMetricsCache); [|done].
    apply sameMetricsCache_setDaemonClientsCache. }
  destruct (only_quiet_daemonClientOf _ _ _ _ Hdc) as (t1 & Ht1 & HP1).
  unfold mbind at 1, Eval_bind at 1, emit at 1.
  destruct (daemonGetVertexMetrics env dc (PlName pl) (SpecName vertex)) as [vMetrics|] eqn:Hvm.
  - rewrite aggregate_spec, (Hmiss _ _ _ _ Hvm). intros [= <- <-]. simpl.
    split_and!; [by eexists|done|].
    exists (t1 ++ [DaemonGetVertexMetrics dc (PlName pl) (SpecName vertex)]).
    rewrite Ht1, <- app_assoc. split; [done|]. rewrite forallb_app, HP1. done.
  - intros [= <- <-]. simpl. split_and!; [by eexists|done|].
    exists (t1 ++ [DaemonGetVertexMetrics dc (PlName pl) (SpecName vertex)]).
    rewrite Ht1, <- app_assoc. split; [done|]. rewrite forallb_app, HP1. done.
Qed.

Lemma quiet_no_buffer_read (P : Event → bool) t :
  (∀ e, P e = true → isBufferRead e = false) →
  forallb P t = true → forallb (λ e, negb (isBufferRead e)) t = true.
Proof.
  intros HP Ht. rewrite forallb_forall in *. intros e He. apply Ht, HP in He. by rewrite He.
Qed.

(** X17. When every answer of the daemon about a vertex has a partition
    without a usable signal (no rate or a negative one, no pending count, a
    negative one or the not-available mark), an evaluation reads no buffer,
    writes nothing to the metrics cache, and patches nothing, except for
    the patch to 1 of a vertex at zero replicas, which is sent before the
    daemon is asked. *)
Theorem missing_signal_skips key s :
  (∀ dc p v vMetrics, daemonGetVertexMetrics env dc p v = Some vMetrics →
     existsb (signalMissing PendingNotAvailable) vMetrics = true) →
  ∃ o s' t,
    scaleOneVertex PendingNotAvailable undef32 undef64 env key s = (o, s', t) ∧
    vertexMetricsCache s' = vertexMetricsCache s ∧
    (patches t = [] ∨ patches t = [1] ∧ daemonCalls t = []) ∧
    forallb (λ e, negb (isBufferRead e)) t = true.
Proof.
  intros Hmiss.
  destruct (evaluation_cases key s) as (o & w & -> & Hcases).
  exists o, (scaler w), (events w). split; [done|].
  destruct Hcases as [Hpre|(vertex & pl & w1 & Hpre & Hcases)].
  { destruct (only_preconditions _ _ _ _ _ Hpre) as (t1 & -> & HP1). simpl.
    split_and!.
    - apply preconditions_Return in Hpre as [_ [-> | [-> _]]]; [done|].
      apply StopWatching_metrics.
    - left. by apply (no_patch_in _ _ gets_no_patch).
    - apply (quiet_no_buffer_read isClientGet); [|done]. by intros []. }
  destruct (only_preconditions _ _ _ _ _ Hpre) as (t1 & Ht1 & HP1). simpl in Ht1.
  destruct (preconditions_Next _ _ _ _ _ _ Hpre) as (_ & _ & _ & _ & _ & _ & Hs & _).
  simpl in Hs.
  assert (Hq1 : forallb (λ e, negb (isBufferRead e)) t1 = true).
  { apply (quiet_no_buffer_read isClientGet); [|done]. by intros []. }
  destruct Hcases as [Hpeek|[Hcol|(m & w2 & r & Hcol & _)]].
  - apply zeroReplicaPeek_run in Hpeek as [-> [[-> ->]|[-> ->]]]; rewrite Ht1.
    + split_and!; [by rewrite Hs| |done]. left. by apply (no_patch_in _ _ gets_no_patch).
    + split_and!; [by rewrite Hs| |].
      * right. rewrite patches_app, (no_patch_in _ _ gets_no_patch HP1). split; [done|].
        unfold daemonCalls. rewrite List.filter_app. fold (daemonCalls t1).
        by rewrite (gets_no_daemon _ HP1).
      * by rewrite forallb_app, Hq1.
  - apply (collect_missing_signal _ _ _ _ _ _ Hmiss) in Hcol as (_ & Hc & t2 & -> & HP2).
    unfold sameMetricsCache in Hc. rewrite Hc, Hs, Ht1. split_and!; [done| |].
    + left. rewrite patches_app, (no_patch_in _ _ gets_no_patch HP1). simpl.
      apply (no_patch_in _ t2) in HP2; [done|]. by intros [].
    + rewrite forallb_app, Hq1. simpl.
      apply (quiet_no_buffer_read _ t2) in HP2; [done|]. by intros [].
  - apply (collect_missing_signal _ _ _ _ _ _ Hmiss) in Hcol as ([o' ?] & _). done.
Qed.

(** *** What is published for the vertices upstream *)

Lemma Add_front {V} k (v : V) c :
  (0 < lru.size c)%nat →
  ∃ rest, lru.items (lru.Add k v c).1 = (k, v) :: rest ∧
          lru.size (lru.Add k v c).1 = lru.size c.
Proof.
  intros Hsz. unfold lru.Add. destruct (lru.find k (lru.items c)); simpl; [eauto|].
  destruct (Nat.ltb_spec (lru.size c) (S (length (lru.items c)))); simpl; [|eauto].
  destruct (lru.items c) as [|x l]; simpl in *; [lia|]. eauto.
Qed.

Lemma Peek_front {V} k (v : V) c rest : lru.items c = (k, v) :: rest → lru.Peek k c = Some v.
Proof. intros H. unfold lru.Peek. rewrite H. simpl. by rewrite String.eqb_refl. Qed.

Lemma Peek_Add_front {V} k (v : V) k' v' c rest :
  lru.items c = (k, v) :: rest → k ≠ k' → (2 ≤ lru.size c)%nat →
  lru.Peek k (lru.Add k' v' c).1 = Some v.
Proof.
  intros Hit Hne Hsz. apply String.eqb_neq in Hne. unfold lru.Peek, lru.Add.
  destruct (lru.find k' (lru.items c)); simpl.
  - rewrite Hne, find_remove, Hne, Hit. simpl. by rewrite String.eqb_refl.
  - rewrite Hit. simpl length.
    destruct (Nat.ltb_spec (lru.size c) (S (S (length rest)))); simpl.
    + destruct rest; simpl in *; [lia|]. by rewrite Hne, String.eqb_refl.
    + by rewrite Hne, String.eqb_refl.
Qed.

Lemma append_inj_l (s a b : string) : s +:+ a = s +:+ b → a = b.
Proof. induction s as [|c s IH]; simpl; [done|]. intros [= H]. by apply IH. Qed.

(** X18. When an evaluation reaches its decision and the metrics cache
    has room for two entries, the scaler it leaves has the total pending
    count cached under the key with "/pending" and, for a vertex that reads
    buffers, the total buffer length under the key with "/length"; so
    [hasBackPressure] of a vertex upstream finds an edge into this vertex
    over the threshold exactly when the threshold is at most the quotient of
    the two. *)
Theorem metrics_published key s vertex pl m w :
  upToDecision PendingNotAvailable undef64 env key (start s) = (Next (vertex, pl, m), w) →
  (2 ≤ lru.size (vertexMetricsCache s))%nat →
  let s' := (scaleOneVertex PendingNotAvailable undef32 undef64 env key s).1.2 in
  lru.Peek (key +:+ "/pending") (vertexMetricsCache s') = Some (totalPending m) ∧
  (IsASource vertex = false →
   lru.Peek (key +:+ "/length") (vertexMetricsCache s')
     = Some (sumInt64 (partitionBufferLengths m)) ∧
   ∀ threshold upstream e,
     downstreamKey upstream e = key →
     overThreshold threshold upstream (vertexMetricsCache s') e
     = PrimFloat.leb threshold
         (PrimFloat.div (Num.float64 (totalPending m))
            (Num.float64 (sumInt64 (partitionBufferLengths m))))).
Proof.
  intros Hup Hsz. rewrite (scaleOneVertex_decision _ _ _ _ _ _ _ _ _ _ Hup).
  destruct (upToDecision_Next _ _ _ _ _ _ _ _ _ Hup) as (w1 & Hpre & _ & Hcol & _).
  destruct (preconditions_Next _ _ _ _ _ _ Hpre) as (_ & _ & _ & _ & _ & _ & Hs & _).
  simpl in Hs.
  apply collect_Next in Hcol as (dc & w0 & vMetrics & _ & _ & _ & _ & _ & _ & _ & _ & _ & Hcache).
  rewrite Hs in Hcache. cbv zeta in Hcache.
  destruct (scaleDecision undef32 env key vertex pl m w) as [r w'] eqn:Hdec.
  apply scaleDecision_run in Hdec as (_ & Hsame & _).
  assert (Hfin : ∀ k, lru.Peek k (vertexMetricsCache
             (let '(o, s0, _) := match r with
                                 | Next o | Return o => (o, scaler w', events w')
                                 end in s0)) = lru.Peek k (vertexMetricsCache (scaler w))).
  { intros k. rewrite <- Hsame. by destruct r. }
  cbv zeta.
  assert (Hpend : lru.Peek (key +:+ "/pending") (vertexMetricsCache (scaler w))
                  = Some (totalPending m) ∧
                  (IsASource vertex = false →
                   lru.Peek (key +:+ "/length") (vertexMetricsCache (scaler w))
                   = Some (sumInt64 (partitionBufferLengths m)))).
  { rewrite Hcache.
    destruct (Add_front (key +:+ "/pending") (totalPending m) (vertexMetricsCache s))
      as (rest & Hit & Hsz'); [lia|].
    destruct (IsASource vertex).
    - split; [|done]. by eapply Peek_front.
    - split.
      + eapply Peek_Add_front; [done| |lia].
        intros H%append_inj_l. done.
      + intros _.
        destruct (Add_front (key +:+ "/length") (sumInt64 (partitionBufferLengths m))
                    (lru.Add (key +:+ "/pending") (totalPending m) (vertexMetricsCache s)).1)
          as (rest' & Hit' & _); [lia|].
        by eapply Peek_front. }
  destruct Hpend as [Hp Hl].
  replace ((match r with
            | Next o | Return o => (o, scaler w', events w')
            end).1.2) with (scaler w') by by destruct r.
  rewrite (Hsame (key +:+ "/pending")). split; [done|].
  intros Hsrc. specialize (Hl Hsrc). rewrite (Hsame (key +:+ "/length")). split; [done|].
  intros threshold upstream e <-. unfold overThreshold.
  by rewrite !Hsame, Hp, Hl.
Qed.

(** *** Daemon clients *)

Lemma daemonClientOf_hit pl w c dc :
  daemonClientsCache (scaler w) = Some c →
  lru.Peek (GetDaemonServiceURL pl) c = Some dc →
  ∃ w', daemonClientOf env pl w = (Next dc, w') ∧ events w' = events w ∧
        daemonClientsCache (scaler w') = Some (lru.Get (GetDaemonServiceURL pl) c).2.
Proof.
  intros Hc Hp. unfold daemonClientOf. run_world. rewrite Hc.
  pose proof (Get_Peek (GetDaemonServiceURL pl) c) as HG. rewrite Hp in HG.
  destruct (lru.Get (GetDaemonServiceURL pl) c) as [d c2]. simpl in HG. subst d.
  simpl. by eexists.
Qed.

Lemma daemonClientOf_miss pl w c dc w1 :
  daemonClientsCache (scaler w) = Some c →
  (0 < lru.size c)%nat →
  lru.Peek (GetDaemonServiceURL pl) c = None →
  daemonClientOf env pl w = (Next dc, w1) →
  daemonNewClient env (GetDaemonServiceURL pl) = Some dc ∧
  events w1 = events w ++ NewDaemonServiceClient (GetDaemonServiceURL pl) ::
    match last (lru.items c) with
    | Some (_, old) =>
        if (lru.size c <=? length (lru.items c))%nat then [DaemonClose old] else []
    | None => []
    end ∧
  daemonClientsCache (scaler w1) = Some (lru.Add (GetDaemonServiceURL pl) dc c).1.
Proof.
  intros Hc Hsz Hp. unfold daemonClientOf. run_world. rewrite Hc.
  generalize dependent (GetDaemonServiceURL pl). intros url Hp.
  pose proof (Get_Peek url c) as HG. rewrite Hp in HG.
  assert (HG2 : (lru.Get url c).2 = c).
  { unfold lru.Get, lru.Peek in *. by destruct (lru.find url (lru.items c)). }
  destruct (lru.Get url c) as [d c2]. simpl in HG, HG2. subst d c2. simpl.
  destruct (daemonNewClient env url) as [dc'|] eqn:Hnew; [|done]. simpl.
  assert (Hev : (lru.Add url dc' c).2 =
                match last (lru.items c) with
                | Some (k, old) =>
                    if (lru.size c <=? length (lru.items c))%nat then Some (k, old) else None
                | None => None
                end).
  { unfold lru.Add, lru.Peek in *. rewrite Hp. simpl length.
    destruct (lru.items c) as [|x l] eqn:Hitems.
    - simpl. destruct (Nat.ltb_spec (lru.size c) 1); [lia|done].
    - change (last ((url, dc') :: x :: l)) with (last (x :: l)).
      destruct (last (x :: l)) as [[k old]|] eqn:Hlast.
      + destruct (Nat.ltb_spec (lru.size c) (S (length (x :: l)))),
                 (Nat.leb_spec (lru.size c) (length (x :: l))); simpl in *; try lia; done.
      + by apply last_None in Hlast. }
  destruct (lru.Add url dc' c) as [c3 evicted] eqn:Hadd. simpl in Hev. subst evicted.
  destruct (last (lru.items c)) as [[k old]|]; [destruct (_ <=? _)%nat|]; simpl;
    intros [= <- <-]; simpl; rewrite ?Hadd; split_and!; try done; by rewrite <- ?app_assoc.
Qed.

(** X19. With a client cache that holds at least one client, the daemon
    client of a pipeline is the cached one if its URL is cached, and then
    nothing is dialled or closed; otherwise it is dialled, and the least
    recently used client is closed if the cache was full.  Either way, the
    next request for the same pipeline gets the same client without
    dialling. *)
Theorem daemon_client_reused pl w c dc w1 :
  daemonClientsCache (scaler w) = Some c →
  (0 < lru.size c)%nat →
  daemonClientOf env pl w = (Next dc, w1) →
  let url := GetDaemonServiceURL pl in
  match lru.Peek url c with
  | Some cached => dc = cached ∧ events w1 = events w
  | None =>
      daemonNewClient env url = Some dc ∧
      events w1 = events w ++ NewDaemonServiceClient url ::
        match last (lru.items c) with
        | Some (_, old) =>
            if (lru.size c <=? length (lru.items c))%nat then [DaemonClose old] else []
        | None => []
        end
  end ∧
  ∃ w2, daemonClientOf env pl w1 = (Next dc, w2) ∧ events w2 = events w1.
Proof.
  intros Hc Hsz Hrun url. unfold url.
  destruct (lru.Peek (GetDaemonServiceURL pl) c) as [cached|] eqn:Hp.
  - destruct (daemonClientOf_hit pl w c cached Hc Hp) as (w' & Hrun' & Hev & Hc').
    rewrite Hrun in Hrun'. injection Hrun' as -> ->. split; [done|].
    destruct (daemonClientOf_hit pl w' _ cached Hc') as (w2 & Hrun2 & Hev2 & _).
    { by rewrite Peek_Get. }
    by exists w2.
  - destruct (daemonClientOf_miss pl w c dc w1 Hc Hsz Hp Hrun) as (Hnew & Hev & Hc').
    split; [done|].
    destruct (Add_front (GetDaemonServiceURL pl) dc c Hsz) as (rest & Hit & _).
    destruct (daemonClientOf_hit pl w1 _ dc Hc') as (w2 & ? & ? & _); [|by exists w2].
    by eapply Peek_front.
Qed.

(** *** The formula and its indices *)

Lemma desiredReplicasFrom_returns vertex rates bufLens bufAvail pendings :
  ∀ i maxDesired,
    (i + length pendings ≤ length rates)%nat →
    IsASource vertex = true ∨
    (i + length pendings ≤ length bufLens)%nat ∧ (i + length pendings ≤ length bufAvail)%nat →
    ∃ r,
      desiredReplicasFrom undef32 vertex rates bufLens bufAvail i pendings maxDesired = Some r ∧
      maxDesired <= r ∧
      (r = maxDesired ∨ ∃ pending, pending ∈ pendings ∧ pending ≠ 0 ∧ r <= Num.int32 pending).
Proof.
  induction pendings as [|pending rest IH]; intros i maxDesired Hrates Hbufs; simpl.
  { exists maxDesired. split_and!; [done|lia|by left]. }
  simpl in Hrates, Hbufs.
  destruct (lookup_lt_is_Some_2 rates i) as [rate Hrate]; [lia|]. rewrite Hrate. simpl.
  assert (Hrest : ∀ maxDesired',
            maxDesired <= maxDesired' →
            (maxDesired' = maxDesired ∨ pending ≠ 0 ∧ maxDesired' <= Num.int32 pending) →
            ∃ r, desiredReplicasFrom undef32 vertex rates bufLens bufAvail (S i) rest maxDesired'
                 = Some r ∧
                 maxDesired <= r ∧
                 (r = maxDesired ∨
                  ∃ p, p ∈ pending :: rest ∧ p ≠ 0 ∧ r <= Num.int32 p)).
  { intros maxDesired' Hle Hhow.
    destruct (IH (S i) maxDesired') as (r & Hr & Hge & Hor).
    - lia.
    - destruct Hbufs as [?|[??]]; [by left|right; lia].
    - exists r. split_and!; [done|lia|].
      destruct Hor as [-> | (p & Hin & Hnz & Hp)].
      + destruct Hhow as [-> | [Hnz Hp]]; [by left|].
        right. exists pending. split_and!; [by left|done|done].
      + right. exists p. split_and!; [by right|done|done]. }
  destruct ((pending =? 0) || PrimFloat.eqb rate PrimFloat.zero) eqn:Hskip.
  { apply Hrest; [lia|by left]. }
  apply orb_false_iff in Hskip as [Hnz%Z.eqb_neq _].
  match goal with |- context [?c ≫= _] => assert (∃ d, c = Some d) as [d ->] end.
  { destruct (IsASource vertex); [by eexists|].
    destruct Hbufs as [?|[Hb1 Hb2]]; [done|].
    destruct (lookup_lt_is_Some_2 bufLens i) as [bufLen ->]; [lia|]. simpl.
    destruct (bufLen <=? pending); [by eexists|].
    destruct (lookup_lt_is_Some_2 bufAvail i) as [avail ->]; [lia|]. by eexists. }
  simpl. apply Hrest.
  - rewrite !Z.gtb_ltb.
    repeat match goal with |- context [Z.ltb ?a ?b] => destruct (Z.ltb_spec a b) end; lia.
  - rewrite !Z.gtb_ltb.
    repeat match goal with |- context [Z.ltb ?a ?b] => destruct (Z.ltb_spec a b) end;
      first [by left | right; split; [done|lia]].
Qed.

(** X20. [desiredReplicas] returns, without an index out of range,
    whenever there are at least as many rates as pending counts and, for a
    vertex that reads buffers, at least as many buffer lengths and targets.
    Its result is at least 1, and when it is more than 1 it is at most the
    pending count, taken as a 32-bit number, of a partition with pending
    messages. *)
Theorem desiredReplicas_returns vertex rates pendings bufLens bufAvail :
  (length pendings ≤ length rates)%nat →
  IsASource vertex = true ∨
  (length pendings ≤ length bufLens)%nat ∧ (length pendings ≤ length bufAvail)%nat →
  ∃ r,
    desiredReplicas undef32 vertex rates pendings bufLens bufAvail = Some r ∧
    1 <= r ∧
    (r = 1 ∨ ∃ pending, pending ∈ pendings ∧ pending ≠ 0 ∧ r <= Num.int32 pending).
Proof. intros Hrates Hbufs. by apply desiredReplicasFrom_returns. Qed.

(** *** Panics *)

Lemma collect_Panic key vertex pl w w' :
  collect PendingNotAvailable undef64 env key vertex pl w = (Return Panic, w') →
  daemonClientsCache (scaler w) = None.
Proof.
  unfold collect. unfold mbind at 1, Eval_bind at 1.
  destruct (daemonClientOf env pl w) as [[dc|o] w1] eqn:Hdc.
  - intros H. exfalso. revert H.
    match goal with |- ?m w1 = _ → _ =>
      assert (Hr : raises (λ o, o ≠ Panic) m); [|intros H; by apply Hr in H] end.
    unfold metricsCacheAdd.
    repeat first [apply raises_readBuffers | raises_step]; done.
  - intros [= -> <-]. revert Hdc. unfold daemonClientOf. run_world.
    destruct (daemonClientsCache (scaler w)); [|done].
    repeat case_match; by intros.
Qed.

(** X21. An evaluation ends in a run-time panic only if the scaler has no
    client cache (it was built with a cache size that is not positive), or
    if the vertex reads buffers and the daemon reports more partitions than
    the vertex owns buffers. *)
Theorem panic_only_if key s :
  (scaleOneVertex PendingNotAvailable undef32 undef64 env key s).1.1 = Panic →
  daemonClientsCache s = None ∨
  ∃ namespace name vertex pl dc vMetrics,
    Split key = [namespace; name] ∧
    clientGet_vertex env namespace name = GetOk vertex ∧
    clientGet_pipeline env namespace (SpecPipelineName vertex) = GetOk pl ∧
    IsASource vertex = false ∧
    daemonGetVertexMetrics env dc (PlName pl) (SpecName vertex) = Some vMetrics ∧
    (length (OwnedBuffers vertex) < length vMetrics)%nat.
Proof.
  destruct (evaluation_cases key s) as (o & w & -> & Hcases). simpl. intros ->.
  destruct Hcases as [Hpre|(vertex & pl & w1 & Hpre & Hcases)].
  { apply preconditions_Return in Hpre as [[?|[?|[?|?]]] _]; done. }
  destruct (preconditions_Next _ _ _ _ _ _ Hpre)
    as (namespace & name & Hk & Hv & Hpl & _ & Hs & _).
  simpl in Hs.
  destruct Hcases as [Hpeek|[Hcol|(m & w2 & r & Hcol & Hdec & Hr)]].
  - apply zeroReplicaPeek_run in Hpeek as [_ [[_ ?]|[_ Ho]]]; [done|].
    by destruct (clientPatch env _).
  - left. apply collect_Panic in Hcol. by rewrite <- Hs.
  - right.
    apply scaleDecision_run in Hdec as (_ & _ & _ & [[_ [-> | [_ Hnone]]]|(n & _ & ->)]).
    + destruct Hr; done.
    + apply collect_Next in Hcol
        as (dc & w0 & vMetrics & _ & Hvm & _ & Hrates & Hpend & _ & _ & Hl1 & Hl2 & _).
      exists namespace, name, vertex, pl, dc, vMetrics. split_and!; try done.
      * destruct (IsASource vertex) eqn:Hsrc; [|done]. exfalso.
        revert Hnone. unfold unclampedDesired, desiredReplicas. destruct (_ && _); [done|].
        destruct (desiredReplicasFrom_returns vertex (partitionRates m)
                    (partitionBufferLengths m) (partitionAvailableBufferLengths m)
                    (partitionPending m) 0%nat 1)
          as (r' & -> & _); [|by left|done].
        by rewrite Hrates, Hpend, !length_fmap.
      * destruct (IsASource vertex) eqn:Hsrc.
        { exfalso. revert Hnone. unfold unclampedDesired, desiredReplicas. destruct (_ && _); [done|].
          destruct (desiredReplicasFrom_returns vertex (partitionRates m)
                      (partitionBufferLengths m) (partitionAvailableBufferLengths m)
                      (partitionPending m) 0%nat 1)
            as (r' & -> & _); [|by left|done].
          by rewrite Hrates, Hpend, !length_fmap. }
        destruct (decide (length vMetrics ≤ length (OwnedBuffers vertex))%nat) as [Hle|]; [|lia].
        exfalso. revert Hnone. unfold unclampedDesired, desiredReplicas. destruct (_ && _); [done|].
        destruct (desiredReplicasFrom_returns vertex (partitionRates m)
                    (partitionBufferLengths m) (partitionAvailableBufferLengths m)
                    (partitionPending m) 0%nat 1)
          as (r' & -> & _); [| |done].
        -- by rewrite Hrates, Hpend, !length_fmap.
        -- right. by rewrite Hl1, Hl2, Hpend, length_fmap.
    + destruct Hr as [Hr|Hr]; [|done]. injection Hr as Hr.
      by destruct (clientPatch env _).
Qed.

(** *** Patches change something *)

(** X23. With 32-bit bounds [min <= max] and a step between 1 and the
    largest 32-bit number, an evaluation never patches a vertex to the
    replica count it already has. *)
Theorem patch_changes_replicas key s namespace name vertex :
  Split key = [namespace; name] →
  clientGet_vertex env namespace name = GetOk vertex →
  Num.is_int32 (GetMinReplicas vertex) →
  Num.is_int32 (GetMaxReplicas vertex) →
  GetMinReplicas vertex <= GetMaxReplicas vertex →
  1 <= GetReplicasPerScale vertex < 2 ^ 31 →
  ∀ r, r ∈ patches (scaleOneVertex PendingNotAvailable undef32 undef64 env key s).2 →
       r ≠ Num.int32 (GetReplicas vertex).
Proof.
  intros Hkey Hget Hmin Hmax Hle Hstep r Hr. unfold Num.is_int32 in *.
  destruct (evaluation_patches PendingNotAvailable undef32 undef64 env key s)
    as [Hnone|(ns' & name' & v' & pl & Hk & Hv & Hrep & Hcase)].
  { rewrite Hnone in Hr. by apply elem_of_nil in Hr. }
  rewrite Hkey in Hk. injection Hk as <- <-. rewrite Hget in Hv. injection Hv as <-.
  destruct Hcase as [[Hz Hone]|(m & w & desired & _ & Hd & Hdec)].
  - rewrite Hone in Hr. apply list_elem_of_singleton in Hr as ->.
    rewrite <- Hrep, Hz. by rewrite int32_id by lia.
  - rewrite Hdec in Hr. clear Hdec. revert Hr.
    pose proof (clampDesired_range vertex desired Hle) as Hclamp.
    generalize dependent (clampDesired vertex desired). intros d Hclamp.
    unfold decisionPatches. rewrite !Z.gtb_ltb.
    repeat match goal with
           | |- context [Z.ltb ?a ?b] => destruct (Z.ltb_spec a b); simpl
           | |- context [if ?b then _ else _] => destruct b; simpl
           end;
      intros Hr; try (by apply elem_of_nil in Hr); try lia;
      apply list_elem_of_singleton in Hr; subst r;
      int32_elim; lia.
Qed.

(** *** Pressure further downstream *)

(** X24. When the decision wants more replicas than the vertex, inside
    its bounds, has, and some downstream edge is cached at or above the
    threshold but none that starts at the vertex itself, the evaluation
    holds still: it returns nil and makes no call after the metrics part. *)
Theorem indirect_pressure_holds key s vertex pl m w desired e :
  upToDecision PendingNotAvailable undef64 env key (start s) = (Next (vertex, pl, m), w) →
  unclampedDesired undef32 vertex m = Some desired →
  let current := Num.int32 (GetReplicas vertex) in
  let over := overThreshold (backPressureThreshold (opts (scaler w))) pl
                (vertexMetricsCache (scaler w)) in
  GetMinReplicas vertex <= current <= GetMaxReplicas vertex →
  current < clampDesired vertex desired →
  e ∈ GetDownstreamEdges pl (SpecName vertex) →
  over e = true →
  (∀ e', e' ∈ GetDownstreamEdges pl (SpecName vertex) → over e' = true →
         From e' ≠ SpecName vertex) →
  ∃ s', scaleOneVertex PendingNotAvailable undef32 undef64 env key s
        = (ReturnNil, s', events w).
Proof.
  intros Hup Hd current over Hin Hgt He Hover Hind.
  rewrite (scaleOneVertex_decision _ _ _ _ _ _ _ _ _ _ Hup).
  unfold scaleDecision. rewrite Hd. cbv zeta. fold current. rewrite !Z.gtb_ltb.
  destruct (Z.ltb_spec (GetMaxReplicas vertex) current); [lia|].
  destruct (Z.ltb_spec current (GetMinReplicas vertex)); [lia|]. simpl.
  destruct (Z.ltb_spec (clampDesired vertex desired) current); [lia|].
  destruct (Z.ltb_spec current (clampDesired vertex desired)); [|lia].
  unfold mbind at 1, Eval_bind at 1.
  destruct (hasBackPressure_run pl vertex w) as (w1 & -> & Hev & _).
  fold over.
  assert (Hdirect : existsb (λ e', over e' && String.eqb (From e') (SpecName vertex))
                      (GetDownstreamEdges pl (SpecName vertex)) = false).
  { destruct (existsb _ _) eqn:Hex; [|done].
    apply existsb_exists in Hex as (e' & He'%list_elem_of_In & [Ho Hf%String.eqb_eq]%andb_true_iff).
    by apply Hind in Ho. }
  assert (Hdown : existsb over (GetDownstreamEdges pl (SpecName vertex)) = true).
  { apply existsb_exists. exists e. split; [by apply list_elem_of_In|done]. }
  rewrite Hdirect, Hdown. simpl. exists (scaler w1). by rewrite Hev.
Qed.

End Evaluation.

(** ** The further properties at concrete inputs *)

Module AtWork.
Import Sample Cases.

(** X3 at work: of the two keys watched, [ns/p-a] is unwatched. *)
Lemma StopWatching_keeps_order_witness :
  let s := StartWatching "ns/p-b" fresh in
  watchKeys (StopWatching "ns/p-a" s) = filter (λ k, k ≠ "ns/p-a"%string) (watchKeys s) ∧
  Length (StopWatching "ns/p-a" s) = Length s - (if Contains "ns/p-a" s then 1 else 0).
Proof.
  apply (StopWatching_keeps_order "ns/p-a" (StartWatching "ns/p-b" fresh)).
  apply WatchSet.Inv_Start, WatchSet.Inv_Start, WatchSet.Inv_New.
Defined.

(** X4 at work: [ns/p-b] is watched and unwatched again. *)
Lemma Start_then_Stop_restores_witness :
  vertexMap (StopWatching "ns/p-b" (StartWatching "ns/p-b" fresh)) = vertexMap fresh ∧
  vertexList (StopWatching "ns/p-b" (StartWatching "ns/p-b" fresh)) = vertexList fresh.
Proof.
  apply (Start_then_Stop_restores "ns/p-b" fresh).
  - apply WatchSet.Inv_Start, WatchSet.Inv_New.
  - reflexivity.
Defined.


(** X9 at work: a key without a slash. *)
Lemma invalid_key_rejected_witness :
  scaleOneVertex minInt64 indefinite32 indefinite64
    (world (GetOk (vertexA true 2 1 10 2)) 100 busy) "nokey" fresh
  = (ReturnErr ErrInvalidKey, fresh, []).
Proof.
  apply (invalid_key_rejected minInt64 indefinite32 indefinite64
           (world (GetOk (vertexA true 2 1 10 2)) 100 busy) "nokey" fresh).
  by_compute.
Defined.

(** X12 at work: an evaluation that patches. *)
Lemma calls_need_guards_witness :
  let env := world (GetOk (vertexA true 2 1 10 2)) 100 busy in
  ∃ vertex pl,
    clientGet_vertex env "ns" "p-a" = GetOk vertex ∧
    clientGet_pipeline env "ns" (SpecPipelineName vertex) = GetOk pl ∧
    Scalable vertex = true ∧
    GetDesiredPhase pl = PipelinePhaseRunning.
Proof.
  intros env.
  destruct (calls_need_guards minInt64 indefinite32 indefinite64 env "ns/p-a" fresh
              ltac:(left; by_compute))
    as (namespace & name & vertex & pl & Hk & Hv & Hpl & _ & Hsc & _ & _ & _ & _ & Hrun).
  injection Hk as <- <-. by exists vertex, pl.
Defined.

(** X13 at work: autoscaling is disabled for vertex [a]. *)
Lemma doomed_vertex_unwatched_witness :
  evaluate (cluster (GetOk unscalableA) (GetOk pipelineP) 100 busy) fresh
  = (ReturnNil, StopWatching "ns/p-a" fresh, [ClientGetVertex "ns" "p-a"]).
Proof.
  apply (doomed_vertex_unwatched minInt64 indefinite32 indefinite64
           (cluster (GetOk unscalableA) (GetOk pipelineP) 100 busy)
           "ns/p-a" "ns" "p-a" unscalableA fresh).
  - reflexivity.
  - reflexivity.
  - right. reflexivity.
Defined.

(** X14 at work: the cluster no longer knows pipeline [p]. *)
Lemma pipeline_gone_unwatched_witness :
  evaluate (cluster (GetOk (vertexA true 3 1 10 2)) GetNotFound 100 busy) fresh
  = (ReturnNil, StopWatching "ns/p-a" fresh,
     [ClientGetVertex "ns" "p-a"; ClientGetPipeline "ns" "p"]).
Proof.
  apply (pipeline_gone_unwatched minInt64 indefinite32 indefinite64
           (cluster (GetOk (vertexA true 3 1 10 2)) GetNotFound 100 busy)
           "ns/p-a" "ns" "p-a" (vertexA true 3 1 10 2) fresh).
  - reflexivity.
  - reflexivity.
  - reflexivity.
  - reflexivity.
  - vm_compute. reflexivity.
  - reflexivity.
  - left. reflexivity.
Defined.


(** X16 at work: the metrics of a vertex that reads one buffer. *)
Lemma collect_hands_over_witness :
  let env := world (GetOk (vertexA false 2 1 10 2)) 100 busy in
  let m := collected (reach env fresh) in
  length (partitionRates m) = length (partitionPending m) ∧
  totalPending m = sumInt64 (partitionPending m) ∧
  length (partitionBufferLengths m) = 1%nat.
Proof.
  intros env m.
  destruct (collect_hands_over minInt64 indefinite64 env "ns/p-a" (vertexA false 2 1 10 2)
              pipelineP (passed env fresh) m (reach env fresh).2 ltac:(by_compute))
    as (_ & Hlen & _ & _ & _ & Htotal & Hbuf & _).
  by split_and!.
Defined.

(** X17 at work: the daemon has a rate and no pending count. *)
Lemma missing_signal_skips_witness :
  let env := world (GetOk (vertexA true 2 1 10 2)) 100 silent in
  ∃ o s' t,
    evaluate env fresh = (o, s', t) ∧
    vertexMetricsCache s' = vertexMetricsCache fresh ∧
    (patches t = [] ∨ patches t = [1] ∧ daemonCalls t = []) ∧
    forallb (λ e, negb (isBufferRead e)) t = true.
Proof.
  intros env.
  apply (missing_signal_skips minInt64 indefinite32 indefinite64 env "ns/p-a" fresh).
  intros dc p v vMetrics. simpl. intros [= <-]. reflexivity.
Defined.

(** X18 at work: 8000 pending messages and a buffer of 800 usable slots
    are cached for vertex [a]. *)
Lemma metrics_published_witness :
  let env := world (GetOk (vertexA false 2 1 10 2)) 100 busy in
  let m := collected (reach env fresh) in
  lru.Peek "ns/p-a/pending" (vertexMetricsCache (evaluate env fresh).1.2)
  = Some (totalPending m).
Proof.
  intros env m.
  exact (proj1 (metrics_published minInt64 indefinite32 indefinite64 env "ns/p-a" fresh
                  (vertexA false 2 1 10 2) pipelineP m (reach env fresh).2
                  ltac:(by_compute) ltac:(apply Nat.leb_le; vm_compute; reflexivity))).
Defined.

(** X19 at work: the first request dials, the second does not. *)
Lemma daemon_client_reused_witness :
  let env := world (GetOk (vertexA true 2 1 10 2)) 100 busy in
  let w := passed env fresh in
  let w1 := (daemonClientOf env pipelineP w).2 in
  ∃ w2, daemonClientOf env pipelineP w1 = (Next "p-daemon-svc.ns.svc:4327"%string, w2) ∧
        events w2 = events w1.
Proof.
  intros env w w1.
  exact (proj2 (daemon_client_reused env pipelineP w (lru.New (Z.to_nat 100))
                  "p-daemon-svc.ns.svc:4327" w1
                  ltac:(by_compute) ltac:(apply Nat.ltb_lt; vm_compute; reflexivity)
                  ltac:(by_compute))).
Defined.

(** X20 at work: a source with one partition. *)
Lemma desiredReplicas_returns_witness :
  ∃ r,
    desiredReplicas indefinite32 (vertexA true 2 1 10 2) [Num.float64 100] [8000] [] []
    = Some r ∧
    1 <= r ∧
    (r = 1 ∨ ∃ pending, pending ∈ [8000] ∧ pending ≠ 0 ∧ r <= Num.int32 pending).
Proof.
  apply (desiredReplicas_returns indefinite32 (vertexA true 2 1 10 2)
           [Num.float64 100] [8000] [] []).
  - simpl. lia.
  - left. reflexivity.
Defined.

(** X21 at work: two partitions are reported for a vertex that owns one
    buffer. *)
Lemma panic_only_if_witness :
  let env := world (GetOk (vertexA false 2 1 10 2)) 100 twofold in
  daemonClientsCache fresh = None ∨
  ∃ namespace name vertex pl dc vMetrics,
    Split "ns/p-a" = [namespace; name] ∧
    clientGet_vertex env namespace name = GetOk vertex ∧
    clientGet_pipeline env namespace (SpecPipelineName vertex) = GetOk pl ∧
    IsASource vertex = false ∧
    daemonGetVertexMetrics env dc (PlName pl) (SpecName vertex) = Some vMetrics ∧
    (length (OwnedBuffers vertex) < length vMetrics)%nat.
Proof.
  intros env.
  apply (panic_only_if minInt64 indefinite32 indefinite64 env "ns/p-a" fresh).
  by_compute.
Defined.

(** X22 at work: two replicas, step 2, patched to 4, inside [1, 10]. *)
Lemma clamp_law_elsewhere_witness :
  let env := world (GetOk (vertexA true 2 1 10 2)) 100 busy in
  4 ∈ patches (evaluate env fresh).2 ∧
  (1 <= 4 <= 10 ∨ (Num.int32 2 = 0 ∧ 4 = 1) ∨ (1 < Num.int32 2 ∧ 4 = Num.int32 2 - 1)).
Proof.
  intros env.
  assert (Hin : 4 ∈ patches (evaluate env fresh).2) by by_compute.
  split; [exact Hin|].
  exact (clamp_law_elsewhere minInt64 indefinite32 indefinite64 env "ns/p-a" fresh "ns" "p-a"
           (vertexA true 2 1 10 2) ltac:(reflexivity) ltac:(reflexivity)
           ltac:(by_compute) ltac:(by_compute)
           ltac:(by_compute) ltac:(by_compute)
           4 Hin).
Defined.

(** X23 at work: the patch to 4 is not the 2 the vertex has. *)
Lemma patch_changes_replicas_witness :
  let env := world (GetOk (vertexA true 2 1 10 2)) 100 busy in
  4 ∈ patches (evaluate env fresh).2 ∧ 4 ≠ Num.int32 2.
Proof.
  intros env.
  assert (Hin : 4 ∈ patches (evaluate env fresh).2) by by_compute.
  split; [exact Hin|].
  exact (patch_changes_replicas minInt64 indefinite32 indefinite64 env "ns/p-a" fresh "ns" "p-a"
           (vertexA true 2 1 10 2) ltac:(reflexivity) ltac:(reflexivity)
           ltac:(by_compute) ltac:(by_compute)
           ltac:(by_compute) ltac:(by_compute)
           4 Hin).
Defined.

(** X24 at work: three replicas want more; [c], two edges down, is cached
    at 950 of 1000, and [b] is not cached. *)
Lemma indirect_pressure_holds_witness :
  let env := cluster (GetOk (vertexA true 3 1 10 2)) (GetOk lineP) 100 busy in
  ∃ s', evaluate env clogged = (ReturnNil, s', events (reach env clogged).2).
Proof.
  intros env.
  apply (indirect_pressure_holds minInt64 indefinite32 indefinite64 env "ns/p-a" clogged
           (vertexA true 3 1 10 2) lineP (collected (reach env clogged))
           (reach env clogged).2 12 edgeBC).
  - by_compute.
  - by_compute.
  - by_compute.
  - by_compute.
  - vm_compute. repeat constructor.
  - by_compute.
  - intros e' Hin Hover. vm_compute in Hin.
    apply elem_of_cons in Hin as [-> | Hin].
    + vm_compute in Hover. discriminate.
    + apply list_elem_of_singleton in Hin as ->. vm_compute. intros ?; discriminate.
Defined.

End AtWork.
